(** * Starplot: deep-sky-object plotting and object selection

    A shallow embedding of [starplot/plotters/dsos.py] (the [DsoPlotterMixin]
    class) together with the selection-expression engine it calls.

    - Python floats are IEEE binary64 values: primitive floats.
    - [None] is [option]; Python truthiness ([x or y], [if x:]) is written out.
    - The plot object is an explicit state: the style registry, the log of the
      calls made on the drawing surface, and the list of plotted objects.
    - Exceptions are results [Raise e]; the state reached when the exception
      was raised is kept, as in Python. *)

From Stdlib Require Import List String Ascii Bool PrimFloat Arith Lia.
From Equations Require Import Equations.
Import ListNotations.
Set Warnings "-inexact-float,-register-all".

Local Open Scope string_scope.
Local Open Scope bool_scope.

(* ===================================================================== *)
(** * Python values, exceptions *)
(* ===================================================================== *)

Inductive PyErr : Type :=
| KeyError (key : string)
| IndexError
| AttributeError (attr : string)
| TypeError (msg : string)
| UserError (msg : string).

Inductive Res (A : Type) : Type :=
| Ok (a : A)
| Raise (e : PyErr).
Arguments Ok {A} a.
Arguments Raise {A} e.

Definition res_bind {A B} (r : Res A) (k : A -> Res B) : Res B :=
  match r with
  | Ok a => k a
  | Raise e => Raise e
  end.

Definition res_map {A B} (f : A -> B) (r : Res A) : Res B :=
  res_bind r (fun a => Ok (f a)).

(** Both operands are evaluated, left first, and then combined. *)
Definition res_map2 {A B C} (f : A -> B -> C) (r1 : Res A) (r2 : Res B) : Res C :=
  res_bind r1 (fun a => res_bind r2 (fun b => Ok (f a b))).

(** [[f(x) for x in l]]: stops at the first exception. *)
Fixpoint res_list_map {A B} (f : A -> Res B) (l : list A) : Res (list B) :=
  match l with
  | [] => Ok []
  | x :: l' => res_bind (f x) (fun y => res_map (cons y) (res_list_map f l'))
  end.

(** [bool(x)] for a float: zero (of either sign) is falsy, NaN is truthy. *)
Definition truthy (x : float) : bool := negb (x =? 0)%float.

Definition truthy_opt (o : option float) : bool :=
  match o with
  | Some x => truthy x
  | None => false
  end.

(** [a or b] on values that are a float or [None]. *)
Definition py_or (a b : option float) : option float :=
  if truthy_opt a then a else b.

(** [bool(s)] for a string or [None]: the empty string is falsy. *)
Definition truthy_str (o : option string) : bool :=
  match o with
  | Some s => negb (s =? "")%string
  | None => false
  end.

(** [python_all], [python_any] on a list of booleans. *)
Definition py_all (l : list bool) : bool := forallb (fun b => b) l.
Definition py_any (l : list bool) : bool := existsb (fun b => b) l.

(* ===================================================================== *)
(** * DSO types *)
(* ===================================================================== *)

(** [DsoType]: the members that [dsos.py] names, and [OTHER_TYPE] for the
    members of the enumeration it does not name. *)
Inductive DsoType : Type :=
| OPEN_CLUSTER
| GLOBULAR_CLUSTER
| GALAXY
| GALAXY_PAIR
| GALAXY_TRIPLET
| NEBULA
| PLANETARY_NEBULA
| EMISSION_NEBULA
| STAR_CLUSTER_NEBULA
| REFLECTION_NEBULA
| OTHER_TYPE (member : string).

Definition DsoType_eq_dec (a b : DsoType) : {a = b} + {a <> b}.
Proof. decide equality. apply string_dec. Defined.

Definition DsoType_eqb (a b : DsoType) : bool :=
  if DsoType_eq_dec a b then true else false.

(* ===================================================================== *)
(** * The expression engine *)
(* ===================================================================== *)

Module Expr.

(** Values an attribute or a literal can hold. *)
Inductive PyVal : Type :=
| VNone
| VNum (x : float)
| VStr (s : string)
| VEnum (t : DsoType).

Definition is_none (v : PyVal) : bool :=
match v with
| VNone => true
| _ => false
end.

(** [v == w] *)
Definition py_eq (v w : PyVal) : bool :=
match v, w with
| VNone, VNone => true
| VNum a, VNum b => (a =? b)%float
| VStr a, VStr b => (a =? b)%string
| VEnum a, VEnum b => DsoType_eqb a b
| _, _ => false
end.

Inductive CmpOp : Type := Lt | Le | Gt | Ge | Eq | Ne.

(** Native ordering of numbers and of strings; ordering values of different
  kinds is a [TypeError], as in Python. *)
Definition py_order (num : float -> float -> bool) (str : string -> string -> bool)
  (v w : PyVal) : Res bool :=
match v, w with
| VNum a, VNum b => Ok (num a b)
| VStr a, VStr b => Ok (str a b)
| _, _ => Raise (TypeError "unorderable types")
end.

Definition apply_op (op : CmpOp) (v w : PyVal) : Res bool :=
match op with
| Lt => py_order PrimFloat.ltb String.ltb v w
| Le => py_order PrimFloat.leb String.leb v w
| Gt => py_order (fun a b => PrimFloat.ltb b a) (fun a b => String.ltb b a) v w
| Ge => py_order (fun a b => PrimFloat.leb b a) (fun a b => String.leb b a) v w
| Eq => Ok (py_eq v w)
| Ne => Ok (negb (py_eq v w))
end.

(** Modelled from the spec: the expression classes of [starplot/models/base.py],
  which is not among the sources.  "A small tagged-variant tree (Comparison |
  Nullity | Membership | And | Or)"; an expression holds the "attribute name,
  comparison operator, comparison value (or null-check flag, or membership
  set)". *)
Inductive Expression : Type :=
| Comparison (attr : string) (op : CmpOp) (value : PyVal)
| Nullity (attr : string) (negated : bool)
| Membership (attr : string) (negated : bool) (collection : list PyVal)
| And (e1 e2 : Expression)
| Or (e1 e2 : Expression).

Definition is_null (attr : string) : Expression := Nullity attr false.
Definition is_not_null (attr : string) : Expression := Nullity attr true.
Definition is_in (attr : string) (c : list PyVal) : Expression := Membership attr false c.
Definition is_not_in (attr : string) (c : list PyVal) : Expression := Membership attr true c.

(** Objects the engine evaluates against: [getattr obj name] is [None] when
  the object has no attribute of that name at all, [Some VNone] when the
  attribute is there and holds [None]. *)
Class SkyObject (O : Type) : Type :=
{ getattr : O -> string -> option PyVal }.

Section Evaluate.
Context {O : Type} `{SkyObject O}.

Definition attribute (obj : O) (attr : string) : Res PyVal :=
  match getattr obj attr with
  | Some v => Ok v
  | None => Raise (AttributeError attr)
  end.

(** Modelled from the spec: [Expression.evaluate] of
    [starplot/models/base.py], which is not among the sources.
    - Comparison: "fails (returns false) if the attribute value is
      absent/null on obj; otherwise applies the operator".
    - Nullity: "true iff attribute is absent/None on obj (or its logical
      negation)".
    - Membership: "true iff attribute value is an element of (or not an
      element of) the given set; absent attribute is treated as
      not-a-member".
    - Composite: "standard boolean semantics over the two sub-evaluations",
      "both sides always evaluated".
    - An object "missing the referenced attribute entirely" makes the
      evaluation "fail loudly (signal an attribute-error kind)". *)
Fixpoint evaluate (e : Expression) (obj : O) : Res bool :=
  match e with
  | Comparison attr op value =>
      res_bind (attribute obj attr) (fun v =>
        if is_none v then Ok false else apply_op op v value)
  | Nullity attr negated =>
      res_bind (attribute obj attr) (fun v => Ok (xorb negated (is_none v)))
  | Membership attr negated collection =>
      res_bind (attribute obj attr) (fun v =>
        Ok (xorb negated (negb (is_none v) && existsb (py_eq v) collection)))
  | And e1 e2 => res_map2 andb (evaluate e1 obj) (evaluate e2 obj)
  | Or e1 e2 => res_map2 orb (evaluate e1 obj) (evaluate e2 obj)
  end.

(** [[e.evaluate(obj) for e in exprs]] *)
Definition evaluate_all (exprs : list Expression) (obj : O) : Res (list bool) :=
  res_list_map (fun e => evaluate e obj) exprs.
End Evaluate.

End Expr.
Import Expr.

(** The [Star] of [tests/test_models.py], with the attributes the tests use. *)
Record Star : Type := mkStar
  { star_ra : float;
    star_dec : float;
    star_magnitude : float;
    star_bv : option float;
    star_name : option string;
    star_hip : option float }.

Definition opt_num (o : option float) : PyVal :=
  match o with Some x => VNum x | None => VNone end.
Definition opt_str (o : option string) : PyVal :=
  match o with Some s => VStr s | None => VNone end.

#[export] Instance Star_SkyObject : SkyObject Star :=
  { getattr s attr :=
      if (attr =? "ra")%string then Some (VNum (star_ra s))
      else if (attr =? "dec")%string then Some (VNum (star_dec s))
      else if (attr =? "magnitude")%string then Some (VNum (star_magnitude s))
      else if (attr =? "bv")%string then Some (opt_num (star_bv s))
      else if (attr =? "name")%string then Some (opt_str (star_name s))
      else if (attr =? "hip")%string then Some (opt_num (star_hip s))
      else None }.

Definition fakestar : Star := mkStar 2 20 4 (Some 2.12%float) (Some "fakestar") None.

(** [test_star_true_expressions] *)
Definition star_true_expressions : list Expression :=
  [ Comparison "ra" Lt (VNum 24);
    Comparison "dec" Gt (VNum 5);
    Comparison "ra" Le (VNum 2);
    is_null "hip";
    is_in "name" [VStr "stuff"; VStr "sirius"; VStr "fakestar"];
    Or (Comparison "name" Eq (VStr "wrong")) (Comparison "name" Eq (VStr "fakestar"));
    Comparison "name" Ne (VStr "noname");
    Or (Comparison "name" Eq (VStr "bellatrix"))
       (And (Comparison "name" Eq (VStr "fakestar")) (Comparison "magnitude" Lt (VNum 5))) ].

(** [test_star_false_expressions] *)
Definition star_false_expressions : list Expression :=
  [ Comparison "ra" Gt (VNum 4);
    Comparison "dec" Lt (VNum 5);
    is_not_null "hip";
    is_not_in "name" [VStr "stuff"; VStr "sirius"; VStr "fakestar"];
    Or (Comparison "name" Eq (VStr "wrong")) (Comparison "name" Ne (VStr "fakestar")) ].

(* ===================================================================== *)
(** * Catalog rows, DSO objects, styles *)
(* ===================================================================== *)

(** [starplot.models.DSO], with the fields its constructor call in [dsos()]
    sets. *)
Module DSO.
Record t : Type := mk
  { name : string;
    ra : float;
    dec : float;
    type : DsoType;
    maj_ax : option float;
    min_ax : option float;
    angle : option float;
    magnitude : option float;
    size : option float }.
End DSO.

#[export] Instance DSO_SkyObject : SkyObject DSO.t :=
  { getattr o attr :=
      if (attr =? "name")%string then Some (VStr (DSO.name o))
      else if (attr =? "ra")%string then Some (VNum (DSO.ra o))
      else if (attr =? "dec")%string then Some (VNum (DSO.dec o))
      else if (attr =? "type")%string then Some (VEnum (DSO.type o))
      else if (attr =? "maj_ax")%string then Some (opt_num (DSO.maj_ax o))
      else if (attr =? "min_ax")%string then Some (opt_num (DSO.min_ax o))
      else if (attr =? "angle")%string then Some (opt_num (DSO.angle o))
      else if (attr =? "magnitude")%string then Some (opt_num (DSO.magnitude o))
      else if (attr =? "size")%string then Some (opt_num (DSO.size o))
      else None }.

Definition Coords : Type := list (float * float).

(** A shapely geometry; only polygons carry data that [dsos()] reads. *)
Inductive Geometry : Type :=
| Point
| LineString
| MultiPoint
| MultiLineString
| GeometryCollection
| Polygon (exterior : Coords)
| MultiPolygon (geoms : list Coords).

Definition geom_type (g : Geometry) : string :=
  match g with
  | Point => "Point"
  | LineString => "LineString"
  | MultiPoint => "MultiPoint"
  | MultiLineString => "MultiLineString"
  | GeometryCollection => "GeometryCollection"
  | Polygon _ => "Polygon"
  | MultiPolygon _ => "MultiPolygon"
  end.

(** [polygon.exterior.coords.xy]: the x column and the y column. *)
Definition xy (c : Coords) : list float * list float := (map fst c, map snd c).

(** [list(zip( *cols))]: pairs the two columns up again. *)
Definition zip_star (cols : list float * list float) : Coords :=
  combine (fst cols) (snd cols).

(** A row [d] of the OpenNGC data frame. *)
Record Row : Type := mkRow
  { Name : string;
    Type_ : string;
    ra_degrees : option float;
    dec_degrees : option float;
    MajAx : option float;
    MinAx : option float;
    PosAng : option float;
    V_Mag : option float;
    B_Mag : option float;
    size_deg2 : option float;
    geometry : option Geometry }.

(** [replace({np.nan: None})] on one cell. *)
Definition nan_to_none (o : option float) : option float :=
  match o with
  | Some x => if is_nan x then None else Some x
  | None => None
  end.

Definition replace_nan (d : Row) : Row :=
  {| Name := Name d;
     Type_ := Type_ d;
     ra_degrees := nan_to_none (ra_degrees d);
     dec_degrees := nan_to_none (dec_degrees d);
     MajAx := nan_to_none (MajAx d);
     MinAx := nan_to_none (MinAx d);
     PosAng := nan_to_none (PosAng d);
     V_Mag := nan_to_none (V_Mag d);
     B_Mag := nan_to_none (B_Mag d);
     size_deg2 := nan_to_none (size_deg2 d);
     geometry := geometry d |}.

Inductive MarkerSymbolEnum : Type :=
| SQUARE
| OTHER_SYMBOL (member : string).

Definition is_square (s : MarkerSymbolEnum) : bool :=
  match s with
  | SQUARE => true
  | OTHER_SYMBOL _ => false
  end.

(** The style classes are not among the sources; [dsos()] reads [symbol] and
    [alpha] of a marker style and writes [alpha].  The fields it never touches
    are kept as an uninterpreted list. *)
Record MarkerStyle : Type := mkMarkerStyle
  { symbol : MarkerSymbolEnum;
    alpha : float;
    marker_fields : list (string * string) }.

Record LabelStyle : Type := mkLabelStyle
  { label_fields : list (string * string) }.

Record ObjectStyle : Type := mkObjectStyle
  { marker : MarkerStyle;
    label : LabelStyle }.

(** [style.marker.alpha = a] *)
Definition set_marker_alpha (s : ObjectStyle) (a : float) : ObjectStyle :=
  {| marker := {| symbol := symbol (marker s);
                  alpha := a;
                  marker_fields := marker_fields (marker s) |};
     label := label s |}.

(** Results of style methods whose code is not among the sources, kept as the
    call that produced them. *)
Inductive PolygonStyle : Type :=
| to_polygon_style (m : MarkerStyle).

Inductive LabelKwargs : Type :=
| matplot_kwargs (l : LabelStyle) (size_multiplier : float).

(** The calls [dsos()] makes on the drawing surface and on the legend, with
    the argument values at the time of the call. *)
Inductive Call : Type :=
| CallPolygon (coords : Coords) (style : PolygonStyle) (closed : bool)
| CallRectangle (center : float * float) (width height : float)
    (style : PolygonStyle) (angle : float)
| CallEllipse (center : float * float) (width height : float)
    (style : PolygonStyle) (angle : float)
| CallText (ra dec : float) (text : string) (kwargs : LabelKwargs)
| CallMarker (ra dec : float) (label : option string) (style : ObjectStyle)
| CallAddLegendHandleMarker (label : option string) (style : MarkerStyle).

Definition is_marker_call (c : Call) : bool :=
  match c with
  | CallMarker _ _ _ _ => true
  | _ => false
  end.

(* ===================================================================== *)
(** * The plot object *)
(* ===================================================================== *)

(** Modelled from the spec: the style registry behind
    [self.style.get_dso_style], whose code is not among the sources.
    "Style registry: get_style_for_type(DsoType) -> Style | None"; the style it
    returns is "the shared style used for subsequent objects of the same
    type": one style object per DSO type, returned by reference.  The registry
    is therefore a store indexed by DSO type, and writing through the
    returned reference updates the store. *)
Definition StyleRegistry : Type := DsoType -> option ObjectStyle.

Definition registry_update (r : StyleRegistry) (t : DsoType) (s : ObjectStyle)
    : StyleRegistry :=
  fun t' => if DsoType_eq_dec t t' then Some s else r t'.

Record Plot : Type := mkPlot
  { styles : StyleRegistry;
    calls : list Call;
    objects_dsos : list DSO.t }.

(** Computations on the plot that may raise; the plot reached is kept. *)
Definition M (A : Type) : Type := Plot -> Res A * Plot.

Definition ret {A} (a : A) : M A := fun p => (Ok a, p).

Definition raise {A} (e : PyErr) : M A := fun p => (Raise e, p).

Definition bind {A B} (m : M A) (k : A -> M B) : M B :=
  fun p =>
    match m p with
    | (Ok a, p') => k a p'
    | (Raise e, p') => (Raise e, p')
    end.

Definition lift {A} (r : Res A) : M A := fun p => (r, p).

Declare Scope plot_scope.
Delimit Scope plot_scope with plot.
Notation "x <- m ;; k" := (bind m (fun x => k))
  (at level 100, m at next level, right associativity) : plot_scope.
Notation "m ;; k" := (bind m (fun _ => k))
  (at level 100, right associativity) : plot_scope.
Local Open Scope plot_scope.

(** [for x in l: f(x)] *)
Fixpoint for_each {A} (f : A -> M unit) (l : list A) : M unit :=
  match l with
  | [] => ret tt
  | x :: l' => f x ;; for_each f l'
  end.

(** [self.style.get_dso_style(dso_type)] *)
Definition get_dso_style (t : DsoType) : M (option ObjectStyle) :=
  fun p => (Ok (styles p t), p).

(** Writing the style object of type [t] in place. *)
Definition write_style (t : DsoType) (s : ObjectStyle) : M unit :=
  fun p => (Ok tt, {| styles := registry_update (styles p) t s;
                      calls := calls p;
                      objects_dsos := objects_dsos p |}).

Definition call (c : Call) : M unit :=
  fun p => (Ok tt, {| styles := styles p;
                      calls := calls p ++ [c];
                      objects_dsos := objects_dsos p |}).

(** [self._objects.dsos.append(o)] *)
Definition objects_dsos_append (o : DSO.t) : M unit :=
  fun p => (Ok tt, {| styles := styles p;
                      calls := calls p;
                      objects_dsos := objects_dsos p ++ [o] |}).

(* ===================================================================== *)
(** * Arguments of [dsos()] *)
(* ===================================================================== *)

(** Modelled from the spec: [DsoLabelMaker] of [starplot/data/dsos.py], which
    is not among the sources.  The label of a name is the "explicit per-name
    override, else default-to-catalog-name". *)
Record DsoLabelMaker : Type := mkDsoLabelMaker
  { overrides : string -> option string }.

Definition DsoLabelMaker_get (m : DsoLabelMaker) (key : string) : option string :=
  match overrides m key with
  | Some l => Some l
  | None => Some key
  end.

(** The [labels] argument: [None], a plain mapping, or a [DsoLabelMaker]. *)
Inductive LabelsArg : Type :=
| LabelsNone
| LabelsMapping (d : string -> option string)
| LabelsMaker (m : DsoLabelMaker).

(** [labels] once normalised: a plain dict or a [DsoLabelMaker]. *)
Inductive Labels : Type :=
| PlainDict (d : string -> option string)
| Maker (m : DsoLabelMaker).

(** [labels.get(name)] *)
Definition labels_get (l : Labels) (name : string) : option string :=
  match l with
  | PlainDict d => d name
  | Maker m => DsoLabelMaker_get m name
  end.

Record DsosArgs : Type := mkDsosArgs
  { mag : float;
    types : list DsoType;
    true_size : bool;
    labels : LabelsArg;
    legend_labels : option (DsoType -> option string);
    alpha_fn : option (DSO.t -> Res float);
    where_ : option (list Expression);
    where_labels : option (list Expression) }.

(** What [dsos()] imports or reaches through [self] and whose code or data is
    not among the sources: the OpenNGC tables, the defaults of the signature,
    the rows [gpd.read_file] returns for the extent mask of the plot, and the
    projection's [in_bounds]. *)
Record Collaborators : Type := mkCollaborators
  { ONGC_TYPE : DsoType -> option string;
    ONGC_TYPE_MAP : string -> option DsoType;
    DSO_LEGEND_LABELS : DsoType -> option string;
    DEFAULT_DSO_TYPES : list DsoType;
    DSO_LABELS_DEFAULT : LabelsArg;
    read_file : list Row;
    in_bounds : float -> float -> bool;
    size_multiplier : float }.

(** [table[key]] on a dict. *)
Definition subscript {K V} (table : K -> option V) (show : K -> string) (key : K)
    : Res V :=
  match table key with
  | Some v => Ok v
  | None => Raise (KeyError (show key))
  end.

Definition DsoType_repr (t : DsoType) : string :=
  match t with
  | OPEN_CLUSTER => "OPEN_CLUSTER"
  | GLOBULAR_CLUSTER => "GLOBULAR_CLUSTER"
  | GALAXY => "GALAXY"
  | GALAXY_PAIR => "GALAXY_PAIR"
  | GALAXY_TRIPLET => "GALAXY_TRIPLET"
  | NEBULA => "NEBULA"
  | PLANETARY_NEBULA => "PLANETARY_NEBULA"
  | EMISSION_NEBULA => "EMISSION_NEBULA"
  | STAR_CLUSTER_NEBULA => "STAR_CLUSTER_NEBULA"
  | REFLECTION_NEBULA => "REFLECTION_NEBULA"
  | OTHER_TYPE member => member
  end.

(** [{**base, **over}] *)
Definition dict_merge {K V} (base over : K -> option V) : K -> option V :=
  fun k => match over k with
           | Some v => Some v
           | None => base k
           end.

Definition is_some {A} (o : option A) : bool :=
  match o with Some _ => true | None => false end.

Definition is_empty {A} (l : list A) : bool :=
  match l with [] => true | _ :: _ => false end.

(** [x or []] *)
Definition or_empty {A} (o : option (list A)) : list A :=
  match o with
  | Some l => l
  | None => []
  end.

(** [[DSO.magnitude.is_null() | (DSO.magnitude <= mag)]] *)
Definition default_where (mag : float) : list Expression :=
  [Or (is_null "magnitude") (Comparison "magnitude" Le (VNum mag))].

(** Lines 123, 126-127: the predicates that select the objects. *)
Definition resolve_where (where_ : option (list Expression)) (mag : float)
    : list Expression :=
  let where_ := or_empty where_ in
  if is_empty where_ then default_where mag else where_.

(** Lines 129-132. *)
Definition resolve_labels (labels : LabelsArg) : Labels :=
  match labels with
  | LabelsNone => PlainDict (fun _ => None)
  | LabelsMaker m => Maker m
  | LabelsMapping d => Maker {| overrides := d |}
  end.

(** Lines 156-157:
    [magnitude = d["V-Mag"] or d["B-Mag"] or None]
    [magnitude = float(magnitude) if magnitude else None] *)
Definition resolve_magnitude (d : Row) : option float :=
  let magnitude := py_or (py_or (V_Mag d) (B_Mag d)) None in
  if truthy_opt magnitude then magnitude else None.

(** [angle or 0] *)
Definition angle_or_0 (angle : option float) : float :=
  match py_or angle (Some 0%float) with
  | Some a => a
  | None => 0%float
  end.

(** [coords.append(coords[0])] *)
Definition append_first (coords : Coords) : Res Coords :=
  match coords with
  | [] => Raise IndexError
  | c0 :: _ => Ok (coords ++ [c0])%list
  end.

(** [style.label.matplot_kwargs(self._size_multiplier)] *)
Definition label_kwargs (style : ObjectStyle) (m : float) : LabelKwargs :=
  matplot_kwargs (label style) m.

(* ===================================================================== *)
(** * [DsoPlotterMixin] *)
(* ===================================================================== *)

Section DsoPlotterMixin.
Variable self : Collaborators.

Definition _plot_dso_polygon (polygon : Coords) (style : ObjectStyle) : M unit :=
  let coords := zip_star (xy polygon) in
  coords <- lift (append_first coords) ;;
  coords <- lift (append_first coords) ;;
  call (CallPolygon coords (to_polygon_style (marker style)) false).

(** Lines 192-218: the extent of an object with a major axis. *)
Definition plot_extent (style : ObjectStyle) (ra dec : float)
    (maj_ax min_ax angle : option float) : M unit :=
  match maj_ax with
  | Some maj =>
      if truthy maj then
        let maj_ax_degrees := ((maj / 60) / 2)%float in
        let min_ax_degrees :=
          match min_ax with
          | Some mn => if truthy mn then ((mn / 60) / 2)%float else maj_ax_degrees
          | None => maj_ax_degrees
          end in
        let poly_style := to_polygon_style (marker style) in
        if is_square (symbol (marker style)) then
          call (CallRectangle ((ra / 15)%float, dec)
                  (min_ax_degrees * 2)%float (maj_ax_degrees * 2)%float
                  poly_style (angle_or_0 angle))
        else
          call (CallEllipse ((ra / 15)%float, dec)
                  (min_ax_degrees * 2)%float (maj_ax_degrees * 2)%float
                  poly_style (angle_or_0 angle))
      else ret tt
  | None => ret tt
  end.

(** Lines 220-226: the text of a truthy label. *)
Definition label_text (style : ObjectStyle) (ra dec : float)
    (label : option string) : M unit :=
  match label with
  | Some text =>
      if truthy_str label then
        call (CallText (ra / 15)%float dec text
                (label_kwargs style (size_multiplier self)))
      else ret tt
  | None => ret tt
  end.

(** Lines 185-235: drawing one selected object.  [style] is the value of the
    style object after the write of line 180; nothing writes it again before
    the end of the iteration. *)
Definition draw_dso (true_size : bool) (d : Row) (ra dec : float)
    (style : ObjectStyle) (label : option string) : M unit :=
  if true_size && is_some (size_deg2 d) then
    match geometry d with
    | None => raise (AttributeError "geom_type")
    | Some (Polygon exterior) => _plot_dso_polygon exterior style
    | Some (MultiPolygon geoms) =>
        for_each (fun polygon => _plot_dso_polygon polygon style) geoms
    | Some _ => plot_extent style ra dec (MajAx d) (MinAx d) (PosAng d)
    end ;;
    label_text style ra dec label
  else
    call (CallMarker (ra / 15)%float dec label style).

(** Lines 148-168: the [DSO] built from a row. *)
Definition make_dso (d : Row) (ra dec : float) (dso_type : DsoType) : DSO.t :=
  {| DSO.name := Name d;
     DSO.ra := (ra / 15)%float;
     DSO.dec := dec;
     DSO.type := dso_type;
     DSO.maj_ax := MajAx d;
     DSO.min_ax := MinAx d;
     DSO.angle := PosAng d;
     DSO.magnitude := resolve_magnitude d;
     DSO.size := size_deg2 d |}.

(** Lines 179-239: the rest of the loop body, for an object that is not
    skipped.  [style] is the style object [get_dso_style] returned for
    [dso_type]; line 180 writes its [alpha] in place. *)
Definition plot_selected (true_size : bool) (label : option string)
    (legend_label : option string)
    (alpha_fn : option (DSO.t -> Res float))
    (where_labels : list Expression)
    (d : Row) (ra dec : float) (dso_type : DsoType) (style : ObjectStyle)
    (_dso : DSO.t) : M unit :=
  a <- lift (match alpha_fn with
             | Some f => f _dso
             | None => Ok (alpha (marker style))
             end) ;;
  let style := set_marker_alpha style a in
  write_style dso_type style ;;
  label <- (if negb (is_empty where_labels) then
              shown <- lift (evaluate_all where_labels _dso) ;;
              ret (if negb (py_all shown) then None else label)
            else ret label) ;;
  draw_dso true_size d ra dec style label ;;
  objects_dsos_append _dso ;;
  call (CallAddLegendHandleMarker legend_label (marker style)).

(** Lines 148-239: the body of the loop, for a row [d] whose [ra_degrees]
    and [dec_degrees] are [ra] and [dec].  The three tests of the list given
    to [any] are all evaluated; [ret tt] is [continue]. *)
Definition plot_dso (true_size : bool) (labels : Labels)
    (legend_labels : DsoType -> option string)
    (alpha_fn : option (DSO.t -> Res float))
    (where_ where_labels : list Expression)
    (d : Row) (ra dec : float) : M unit :=
  let name := Name d in
  let label := labels_get labels name in
  dso_type <- lift (subscript (ONGC_TYPE_MAP self) (fun s => s) (Type_ d)) ;;
  style <- get_dso_style dso_type ;;
  let legend_label := legend_labels dso_type in
  let _dso := make_dso d ra dec dso_type in
  selected <- lift (evaluate_all where_ _dso) ;;
  if py_any [negb (is_some style);
             negb (py_all selected);
             negb (in_bounds self (ra / 15)%float dec)]
  then ret tt
  else
    match style with
    | None => raise (AttributeError "marker")
    | Some style =>
        plot_selected true_size label legend_label alpha_fn where_labels
          d ra dec dso_type style _dso
    end.

(** Lines 141-145: the rows kept by the mask, each with its position. *)
Definition candidates (dso_types : list string) (rows : list Row)
    : list (Row * float * float) :=
  flat_map (fun d =>
    match ra_degrees d, dec_degrees d with
    | Some ra, Some dec =>
        if existsb (String.eqb (Type_ d)) dso_types then [(d, ra, dec)] else []
    | _, _ => []
    end) rows.

(** Lines 129-239, once [where] is resolved: [mag] is not used any more. *)
Definition dsos_selected (where_ : list Expression) (a : DsosArgs) : M unit :=
  let nearby_dsos := read_file self in
  let where_labels := or_empty (where_labels a) in
  let labels := resolve_labels (labels a) in
  let legend_labels :=
    match legend_labels a with
    | None => fun _ => None
    | Some l => dict_merge (DSO_LEGEND_LABELS self) l
    end in
  let nearby_dsos := map replace_nan nearby_dsos in
  dso_types <- lift (res_list_map (subscript (ONGC_TYPE self) DsoType_repr) (types a)) ;;
  for_each (fun c => let '(d, ra, dec) := c in
              plot_dso (true_size a) labels legend_labels (alpha_fn a)
                where_ where_labels d ra dec)
    (candidates dso_types nearby_dsos).

Definition dsos (a : DsosArgs) : M unit :=
  dsos_selected (resolve_where (where_ a) (mag a)) a.

End DsoPlotterMixin.

(* ===================================================================== *)
(** * Calling [dsos()]: positional and keyword arguments *)
(* ===================================================================== *)

(** A value passed for one of the parameters of [dsos()]. *)
Inductive PyArg : Type :=
| ANone
| AFloat (x : float)
| ABool (b : bool)
| ATypes (l : list DsoType)
| ALabels (d : string -> option string)
| ALabelMaker (m : DsoLabelMaker)
| ALegendLabels (d : DsoType -> option string)
| ACallable (f : DSO.t -> Res float)
| AExprs (l : list Expression).

(** [**kwargs], in the order of the call. *)
Definition Kwargs : Type := list (string * PyArg).

Definition dsos_params : list string :=
  ["mag"; "types"; "true_size"; "labels"; "legend_labels"; "alpha_fn";
   "where"; "where_labels"].

Fixpoint kw_lookup (k : string) (kw : Kwargs) : option PyArg :=
  match kw with
  | [] => None
  | (k', v) :: kw' => if (k =? k')%string then Some v else kw_lookup k kw'
  end.

(** Positional arguments fill the parameters from the left. *)
Fixpoint bind_positional (params : list string) (args : list PyArg) : Res Kwargs :=
  match args, params with
  | [], _ => Ok []
  | v :: args', p :: params' => res_map (cons (p, v)) (bind_positional params' args')
  | _ :: _, [] => Raise (TypeError "too many positional arguments")
  end.

(** Keyword arguments: the name must be a parameter that has no value yet. *)
Fixpoint bind_keywords (bound : Kwargs) (kwargs : Kwargs) : Res Kwargs :=
  match kwargs with
  | [] => Ok bound
  | (k, v) :: kwargs' =>
      if negb (existsb (String.eqb k) dsos_params) then
        Raise (TypeError "unexpected keyword argument")
      else if is_some (kw_lookup k bound) then
        Raise (TypeError "multiple values for argument")
      else bind_keywords (bound ++ [(k, v)])%list kwargs'
  end.

(** The bound values as the typed arguments the body is embedded on: for
    each parameter the value bound, else the default of the signature.
    Python checks no annotation: a value of another type is bound all the
    same and the body runs on it.  The embedding of the body takes values
    of the annotated types (and [None] where lines 123-137 test for it), so
    for other values there are no typed arguments. *)
Section Signature.
Variable self : Collaborators.
Variable bound : Kwargs.

Definition param_mag : option float :=
  match kw_lookup "mag" bound with
  | None => Some 8%float
  | Some (AFloat x) => Some x
  | Some _ => None
  end.

Definition param_types : option (list DsoType) :=
  match kw_lookup "types" bound with
  | None => Some (DEFAULT_DSO_TYPES self)
  | Some (ATypes l) => Some l
  | Some _ => None
  end.

Definition param_true_size : option bool :=
  match kw_lookup "true_size" bound with
  | None => Some true
  | Some (ABool b) => Some b
  | Some _ => None
  end.

Definition param_labels : option LabelsArg :=
  match kw_lookup "labels" bound with
  | None => Some (DSO_LABELS_DEFAULT self)
  | Some ANone => Some LabelsNone
  | Some (ALabels d) => Some (LabelsMapping d)
  | Some (ALabelMaker m) => Some (LabelsMaker m)
  | Some _ => None
  end.

Definition param_legend_labels : option (option (DsoType -> option string)) :=
  match kw_lookup "legend_labels" bound with
  | None => Some (Some (DSO_LEGEND_LABELS self))
  | Some ANone => Some None
  | Some (ALegendLabels d) => Some (Some d)
  | Some _ => None
  end.

Definition param_alpha_fn : option (option (DSO.t -> Res float)) :=
  match kw_lookup "alpha_fn" bound with
  | None => Some None
  | Some ANone => Some None
  | Some (ACallable f) => Some (Some f)
  | Some _ => None
  end.

Definition param_exprs (p : string) : option (option (list Expression)) :=
  match kw_lookup p bound with
  | None => Some None
  | Some ANone => Some None
  | Some (AExprs l) => Some (Some l)
  | Some _ => None
  end.

Definition signature : option DsosArgs :=
  match param_mag, param_types, param_true_size, param_labels,
        param_legend_labels, param_alpha_fn,
        param_exprs "where", param_exprs "where_labels" with
  | Some mag, Some types, Some true_size, Some labels,
    Some legend_labels, Some alpha_fn, Some where_, Some where_labels =>
      Some (mkDsosArgs mag types true_size labels legend_labels alpha_fn
              where_ where_labels)
  | _, _, _, _, _, _, _, _ => None
  end.
End Signature.

Section Wrappers.
Variable self : Collaborators.

(** The body of [dsos()] run on bound values that are not all of the
    annotated types.  It is not modelled: every statement about a call holds
    whatever it does. *)
Variable untyped : Kwargs -> M unit.

(** Binding the arguments of a call to the parameters of lines 86-96: a
    [TypeError] for too many positional arguments, an unknown keyword or a
    parameter given twice. *)
Definition bind_arguments (args : list PyArg) (kwargs : Kwargs) : Res Kwargs :=
  res_bind (bind_positional dsos_params args) (fun bound =>
    bind_keywords bound kwargs).

(** [self.dsos( *args, **kwargs)] *)
Definition call_dsos (args : list PyArg) (kwargs : Kwargs) : M unit :=
  bound <- lift (bind_arguments args kwargs) ;;
  match signature self bound with
  | Some a => dsos self a
  | None => untyped bound
  end.

Definition open_clusters (args : list PyArg) (kwargs : Kwargs) : M unit :=
  call_dsos [] (("types", ATypes [OPEN_CLUSTER]) :: kwargs).

Definition globular_clusters (args : list PyArg) (kwargs : Kwargs) : M unit :=
  call_dsos [] (("types", ATypes [GLOBULAR_CLUSTER]) :: kwargs).

Definition galaxies (args : list PyArg) (kwargs : Kwargs) : M unit :=
  call_dsos [] (("types", ATypes [GALAXY; GALAXY_PAIR; GALAXY_TRIPLET]) :: kwargs).

Definition nebula (args : list PyArg) (kwargs : Kwargs) : M unit :=
  call_dsos []
    (("types", ATypes [NEBULA; PLANETARY_NEBULA; EMISSION_NEBULA;
                       STAR_CLUSTER_NEBULA; REFLECTION_NEBULA]) :: kwargs).

(** The wrapper the specification describes: [types] preset and "every
    other supplied argument (positional and keyword) forwarded unchanged". *)
Definition spec_wrapper (preset : list DsoType) (args : list PyArg)
    (kwargs : Kwargs) : M unit :=
  call_dsos args (("types", ATypes preset) :: kwargs).
End Wrappers.

(** The arguments [a] with [types] replaced. *)
Definition set_types (a : DsosArgs) (preset : list DsoType) : DsosArgs :=
  {| mag := mag a; types := preset; true_size := true_size a; labels := labels a;
     legend_labels := legend_labels a; alpha_fn := alpha_fn a;
     where_ := where_ a; where_labels := where_labels a |}.

(** The resolved magnitude as the specification words it: "the record's
    V-Mag value, falling back to B-Mag when V-Mag is absent". *)
Definition spec_resolved_magnitude (d : Row) : option float :=
  match V_Mag d with
  | Some v => Some v
  | None => B_Mag d
  end.

(** The default selection as the specification words it: "included if its
    magnitude is unknown OR its magnitude is <= the limit". *)
Definition spec_default_selected (magnitude : option float) (mag : float) : bool :=
  match magnitude with
  | None => true
  | Some m => (m <=? mag)%float
  end.

(** The half axis in degrees of an axis given in arc minutes. *)
Definition half_axis_degrees (arcmin : float) : float := ((arcmin / 60) / 2)%float.

(** The half minor axis as the specification words it: "the same formula
    applied to minor axis if present, else equals half-major". *)
Definition spec_half_minor (maj_ax : float) (min_ax : option float) : float :=
  match min_ax with
  | Some m => half_axis_degrees m
  | None => half_axis_degrees maj_ax
  end.

(** The last element of a list. *)
Definition last_coord (c : Coords) : option (float * float) :=
  match rev c with
  | [] => None
  | x :: _ => Some x
  end.

(* ===================================================================== *)
(** * A small catalog and plot, for concrete runs *)
(* ===================================================================== *)

Module Sample.

Definition ongc_type (t : DsoType) : option string :=
  match t with
  | OPEN_CLUSTER => Some "OCl"
  | GLOBULAR_CLUSTER => Some "GCl"
  | GALAXY => Some "G"
  | GALAXY_PAIR => Some "GPair"
  | GALAXY_TRIPLET => Some "GTrpl"
  | NEBULA => Some "Neb"
  | PLANETARY_NEBULA => Some "PN"
  | EMISSION_NEBULA => Some "EmN"
  | STAR_CLUSTER_NEBULA => Some "Cl+N"
  | REFLECTION_NEBULA => Some "RfN"
  | OTHER_TYPE _ => None
  end.

Definition ongc_type_map (code : string) : option DsoType :=
  if (code =? "OCl")%string then Some OPEN_CLUSTER
  else if (code =? "GCl")%string then Some GLOBULAR_CLUSTER
  else if (code =? "G")%string then Some GALAXY
  else if (code =? "GPair")%string then Some GALAXY_PAIR
  else if (code =? "GTrpl")%string then Some GALAXY_TRIPLET
  else if (code =? "Neb")%string then Some NEBULA
  else if (code =? "PN")%string then Some PLANETARY_NEBULA
  else if (code =? "EmN")%string then Some EMISSION_NEBULA
  else if (code =? "Cl+N")%string then Some STAR_CLUSTER_NEBULA
  else if (code =? "RfN")%string then Some REFLECTION_NEBULA
  else None.

(** A plotter whose catalog read returns [rows] and whose projection shows
    the whole sky. *)
Definition plotter (rows : list Row) : Collaborators :=
  {| ONGC_TYPE := ongc_type;
     ONGC_TYPE_MAP := ongc_type_map;
     DSO_LEGEND_LABELS := fun t => Some (DsoType_repr t);
     DEFAULT_DSO_TYPES := [OPEN_CLUSTER; GLOBULAR_CLUSTER; GALAXY; NEBULA];
     DSO_LABELS_DEFAULT := LabelsMaker {| overrides := fun _ => None |};
     read_file := rows;
     in_bounds := fun _ _ => true;
     size_multiplier := 1 |}.

Definition square_style : ObjectStyle :=
  {| marker := {| symbol := SQUARE; alpha := 1; marker_fields := [] |};
     label := {| label_fields := [] |} |}.

Definition circle_style : ObjectStyle :=
  {| marker := {| symbol := OTHER_SYMBOL "CIRCLE"; alpha := 1; marker_fields := [] |};
     label := {| label_fields := [] |} |}.

(** Open clusters and galaxies have a style; no other type has one. *)
Definition plot0 : Plot :=
  {| styles := fun t => match t with
                        | OPEN_CLUSTER => Some square_style
                        | GALAXY => Some circle_style
                        | _ => None
                        end;
     calls := [];
     objects_dsos := [] |}.

Definition row (name code : string) (v_mag b_mag maj_ax min_ax size : option float)
    (g : Geometry) : Row :=
  {| Name := name; Type_ := code;
     ra_degrees := Some 30%float; dec_degrees := Some 10%float;
     MajAx := maj_ax; MinAx := min_ax; PosAng := None;
     V_Mag := v_mag; B_Mag := b_mag;
     size_deg2 := size; geometry := Some g |}.

(** V-Mag=None, B-Mag=9.1 *)
Definition faint_cluster : Row :=
  row "NGC 1" "OCl" None (Some 9.1%float) None None None Point.

(** V-Mag=6 *)
Definition cluster_mag6 : Row :=
  row "NGC 2" "OCl" (Some 6%float) None None None None Point.

(** V-Mag=0.0, B-Mag=9.1 *)
Definition zero_vmag : Row :=
  row "NGC 3" "OCl" (Some 0%float) (Some 9.1%float) None None None Point.

(** V-Mag=0.0, B-Mag=None *)
Definition zero_both : Row :=
  row "NGC 9" "OCl" (Some 0%float) None None None None Point.

(** A size, a point geometry, no axis. *)
Definition sized_no_axis : Row :=
  row "NGC 4" "OCl" (Some 6%float) None None None (Some 0.01%float) Point.

(** MajAx=10, MinAx=None, PosAng=None *)
Definition axis10 : Row :=
  row "NGC 5" "OCl" (Some 6%float) None (Some 10%float) None (Some 0.02%float) Point.

(** MajAx=10, MinAx=0.0 *)
Definition zero_minor : Row :=
  row "NGC 6" "OCl" (Some 6%float) None (Some 10%float) (Some 0%float)
    (Some 0.02%float) Point.

(** A globular cluster: a type without a style in [plot0]. *)
Definition unstyled : Row :=
  row "NGC 7" "GCl" (Some 6%float) None None None None Point.

(** A galaxy with a triangular outline. *)
Definition outlined : Row :=
  row "NGC 8" "G" (Some 6%float) None None None (Some 0.5%float)
    (Polygon [(1, 1); (2, 1); (1, 2)]%float).

Definition default_args (self : Collaborators) : DsosArgs :=
  {| mag := 8; types := DEFAULT_DSO_TYPES self; true_size := true;
     labels := DSO_LABELS_DEFAULT self;
     legend_labels := Some (DSO_LEGEND_LABELS self);
     alpha_fn := None; where_ := None; where_labels := None |}.

(** [alpha_fn=lambda d: 0.5] *)
Definition half_alpha (d : DSO.t) : Res float := Ok 0.5%float.

(** A stand-in for the body of [dsos()] on values that are not of the
    annotated types.  The sample calls pass values of the annotated types
    and never reach it. *)
Definition untyped (bound : Kwargs) : M unit := ret tt.

End Sample.

(** The alpha of the registered style of a type. *)
Definition registered_alpha (p : Plot) (t : DsoType) : option float :=
  option_map (fun s => alpha (marker s)) (styles p t).

(** A ring whose first vertex is also its last element, with numeric
    equality of the coordinates decided by [=]. *)
Definition closed_ring (coords : Coords) : Prop :=
  exists c0, hd_error coords = Some c0 /\ last_coord coords = Some c0.

Definition polygon_call_closed (c : Call) : Prop :=
  match c with
  | CallPolygon coords _ _ => closed_ring coords
  | _ => True
  end.

(** [m] relates every plot to the plot it leaves behind, whether it returns
    or raises. *)
Definition preserves {A} (R : Plot -> Plot -> Prop) (m : M A) : Prop :=
  forall p, R p (snd (m p)).

(** The calls made since [p] all hand closed rings to the polygon primitive. *)
Definition draws_closed_rings (p p' : Plot) : Prop :=
  exists new, calls p' = (calls p ++ new)%list /\ Forall polygon_call_closed new.

(** The style registry has not changed since [p]. *)
Definition styles_kept (p p' : Plot) : Prop := styles p' = styles p.

(** No object has been accumulated since [p]. *)
Definition objects_kept (p p' : Plot) : Prop := objects_dsos p' = objects_dsos p.

(* ===================================================================== *)
(** * Describing a run of [dsos()] *)
(* ===================================================================== *)

(** Lines 134-137: the legend labels once normalised. *)
Definition resolve_legend_labels (self : Collaborators)
    (legend_labels : option (DsoType -> option string)) : DsoType -> option string :=
  match legend_labels with
  | None => fun _ => None
  | Some l => dict_merge (DSO_LEGEND_LABELS self) l
  end.

(** Line 140: the OpenNGC codes of the requested types (none when the lookup
    of a type raises). *)
Definition dso_codes (self : Collaborators) (types : list DsoType) : list string :=
  match res_list_map (subscript (ONGC_TYPE self) DsoType_repr) types with
  | Ok codes => codes
  | Raise _ => []
  end.

(** The rows the loop of a run iterates over. *)
Definition run_candidates (self : Collaborators) (a : DsosArgs)
    : list (Row * float * float) :=
  candidates (dso_codes self (types a)) (map replace_nan (read_file self)).

(** The calls one iteration can make for the row [d] at [ra], [dec], when
    [resolved] is the label [labels.get] returned and [legend_label] the
    legend label of the type. *)
Inductive iteration_call (self : Collaborators) (true_size : bool)
    (resolved legend_label : option string) (d : Row) (ra dec : float)
    : Call -> Prop :=
| ic_polygon (coords : Coords) (style : ObjectStyle) :
    true_size = true -> closed_ring coords ->
    iteration_call self true_size resolved legend_label d ra dec
      (CallPolygon coords (to_polygon_style (marker style)) false)
| ic_rectangle (w h ang : float) (style : ObjectStyle) :
    true_size = true ->
    iteration_call self true_size resolved legend_label d ra dec
      (CallRectangle ((ra / 15)%float, dec) w h (to_polygon_style (marker style)) ang)
| ic_ellipse (w h ang : float) (style : ObjectStyle) :
    true_size = true ->
    iteration_call self true_size resolved legend_label d ra dec
      (CallEllipse ((ra / 15)%float, dec) w h (to_polygon_style (marker style)) ang)
| ic_text (text : string) (style : ObjectStyle) :
    true_size = true -> resolved = Some text ->
    iteration_call self true_size resolved legend_label d ra dec
      (CallText (ra / 15)%float dec text (label_kwargs style (size_multiplier self)))
| ic_marker (label : option string) (style : ObjectStyle) :
    true_size = false \/ size_deg2 d = None ->
    label = resolved \/ label = None ->
    iteration_call self true_size resolved legend_label d ra dec
      (CallMarker (ra / 15)%float dec label style)
| ic_legend (style : ObjectStyle) :
    iteration_call self true_size resolved legend_label d ra dec
      (CallAddLegendHandleMarker legend_label (marker style)).

(** A call a run can make: a call of the iteration of one of its rows. *)
Definition run_call (self : Collaborators) (true_size : bool) (labels : Labels)
    (legend_labels : DsoType -> option string)
    (cands : list (Row * float * float)) (c : Call) : Prop :=
  exists d ra dec t,
    In (d, ra, dec) cands
    /\ ONGC_TYPE_MAP self (Type_ d) = Some t
    /\ iteration_call self true_size (labels_get labels (Name d)) (legend_labels t)
         d ra dec c.

(** An object a run can accumulate: built from one of its rows, accepted by
    every predicate and in bounds. *)
Definition run_object (self : Collaborators) (where_ : list Expression)
    (cands : list (Row * float * float)) (o : DSO.t) : Prop :=
  exists d ra dec t selected,
    In (d, ra, dec) cands
    /\ ONGC_TYPE_MAP self (Type_ d) = Some t
    /\ o = make_dso d ra dec t
    /\ evaluate_all where_ o = Ok selected
    /\ py_all selected = true
    /\ in_bounds self (ra / 15)%float dec = true.

(** Since [p], only calls satisfying [good_call] were made and only objects
    satisfying [good_object] were accumulated. *)
Definition extends (good_call : Call -> Prop) (good_object : DSO.t -> Prop)
    (p p' : Plot) : Prop :=
  exists new_calls new_objects,
    calls p' = (calls p ++ new_calls)%list
    /\ objects_dsos p' = (objects_dsos p ++ new_objects)%list
    /\ Forall good_call new_calls
    /\ Forall good_object new_objects.

(** The object the loop body accumulates for a candidate, if any, when
    [styled] tells which types have a style. *)
Definition selects (self : Collaborators) (styled : DsoType -> bool)
    (where_ : list Expression) (c : Row * float * float) : list DSO.t :=
  let '(d, ra, dec) := c in
  match ONGC_TYPE_MAP self (Type_ d) with
  | Some t =>
      let o := make_dso d ra dec t in
      match evaluate_all where_ o with
      | Ok selected =>
          if styled t && py_all selected && in_bounds self (ra / 15)%float dec
          then [o] else []
      | Raise _ => []
      end
  | None => []
  end.

(** The objects selected among the candidates of a run, in catalog order. *)
Definition selected_objects (self : Collaborators) (a : DsosArgs) (p : Plot)
    : list DSO.t :=
  flat_map (selects self (fun t => is_some (styles p t))
              (resolve_where (where_ a) (mag a)))
    (run_candidates self a).

(** [o] is built from a row of the catalog read that has a position, both
    coordinates being numbers, and whose type code is the code of one of the
    requested [types]. *)
Definition from_requested_row (self : Collaborators) (types : list DsoType)
    (o : DSO.t) : Prop :=
  exists row ra dec t,
    In row (read_file self)
    /\ ra_degrees row = Some ra /\ is_nan ra = false
    /\ dec_degrees row = Some dec /\ is_nan dec = false
    /\ In t types /\ ONGC_TYPE self t = Some (Type_ row)
    /\ ONGC_TYPE_MAP self (Type_ row) = Some (DSO.type o)
    /\ DSO.name o = Name row
    /\ DSO.ra o = (ra / 15)%float
    /\ DSO.dec o = dec.

(** When [m] raises it has accumulated no object. *)
Definition raises_keep {A} (m : M A) : Prop :=
  forall p e, fst (m p) = Raise e -> objects_dsos (snd (m p)) = objects_dsos p.

(** Every registered style is, type by type, what it was at [p]. *)
Definition registry_kept (p p' : Plot) : Prop :=
  forall t, styles p' t = styles p t.

(** A call that carries no label: no text, and a marker without label. *)
Definition unlabelled (c : Call) : Prop :=
  match c with
  | CallText _ _ _ _ => False
  | CallMarker _ _ label _ => label = None
  | _ => True
  end.

(** A marker or a legend handle. *)
Definition marker_or_legend (c : Call) : Prop :=
  match c with
  | CallMarker _ _ _ _ => True
  | CallAddLegendHandleMarker _ _ => True
  | _ => False
  end.

(* ===================================================================== *)
(** * [starplot/styles/helpers.py] *)
(* ===================================================================== *)

(** Python values as [merge_dict] and [use_style] tell them apart: [None], a
    dict (insertion-ordered, keyed by strings), or anything else.  Values
    have no identity here: the model follows the code on dicts that share no
    part with one another, which is how [use_style] uses them (the base style
    is freshly parsed JSON). *)
Module StyleHelpers.

Section Values.
Variable Other : Type.

Inductive Obj : Type :=
| PyNone
| Atom (x : Other)
| Dict (items : list (string * Obj)).

Definition Items : Type := list (string * Obj).

(** [d.keys()] *)
Definition keys (d : Items) : list string := map fst d.

(** [d.get(k)], [None] standing for a missing key. *)
Fixpoint getitem (k : string) (d : Items) : option Obj :=
  match d with
  | [] => None
  | (k', v) :: d' => if (k =? k')%string then Some v else getitem k d'
  end.

(** [k in d] *)
Definition contains (k : string) (d : Items) : bool := is_some (getitem k d).

(** [d[k] = v]: an existing key keeps its place, a new key goes last. *)
Fixpoint setitem (k : string) (v : Obj) (d : Items) : Items :=
  match d with
  | [] => [(k, v)]
  | (k', v') :: d' =>
      if (k =? k')%string then (k', v) :: d' else (k', v') :: setitem k v d'
  end.

Fixpoint obj_size (o : Obj) : nat :=
  match o with
  | PyNone => 0
  | Atom _ => 0
  | Dict items => list_sum (map (fun kv => S (obj_size (snd kv))) items)
  end.

Definition items_size (d : Items) : nat :=
  list_sum (map (fun kv => S (obj_size (snd kv))) d).

(** [merge_dict(dict_1, dict_2)]; the result is [dict_1] after the call. *)
Equations? merge_dict (dict_1 dict_2 : Items) : Items
    by wf (items_size dict_2) lt :=
  merge_dict dict_1 [] := dict_1;
  merge_dict dict_1 ((k, v2) :: rest) with getitem k dict_1, v2 => {
    | Some (Dict sub_1), Dict sub_2 :=
        merge_dict (setitem k (Dict (merge_dict sub_1 sub_2)) dict_1) rest;
    | _, _ := merge_dict (setitem k v2 dict_1) rest }.
Proof. all: unfold items_size; simpl; lia. Qed.

(** What ends up under a key that [dict_2] binds to [v2], when [dict_1] bound
    it to [v1] (or not at all). *)
Definition merged_value (v1 : option Obj) (v2 : Obj) : Obj :=
  match v1, v2 with
  | Some (Dict sub_1), Dict sub_2 => Dict (merge_dict sub_1 sub_2)
  | _, _ => v2
  end.

(** Keys are unique, at every depth: what every Python dict satisfies. *)
Inductive well_formed : Obj -> Prop :=
| wf_none : well_formed PyNone
| wf_atom (x : Other) : well_formed (Atom x)
| wf_dict (items : Items) :
    NoDup (keys items) ->
    Forall (fun kv => well_formed (snd kv)) items ->
    well_formed (Dict items).

Inductive Exc : Type :=
| PlainException (msg : string)
| UnboundLocal (name : string)
| NoAttribute (attr : string)
| NoItemAssignment
| NoIndex
| Collaborator (e : string).

Inductive Outcome (A : Type) : Type :=
| Returns (a : A)
| Raises (e : Exc).
Arguments Returns {A} a.
Arguments Raises {A} e.

Definition and_then {A B} (o : Outcome A) (k : A -> Outcome B) : Outcome B :=
  match o with
  | Returns a => k a
  | Raises e => Raises e
  end.

(** [s.split("__")], scanning from the left; [current] is the piece being
    read. *)
Fixpoint split_from (s current : string) : list string :=
  match s with
  | EmptyString => [current]
  | String c rest =>
      if Ascii.eqb c "_"%char then
        match rest with
        | String c' rest' =>
            if Ascii.eqb c' "_"%char then current :: split_from rest' EmptyString
            else split_from rest (current ++ "_")
        | EmptyString => [current ++ "_"]
        end
      else split_from rest (current ++ String c EmptyString)
  end.

Definition split (s : string) : list string := split_from s EmptyString.

(** [parts[:-1]] and [parts[-1]], when there is a last part. *)
Fixpoint unsnoc {A} (l : list A) : option (list A * A) :=
  match l with
  | [] => None
  | x :: l' =>
      match unsnoc l' with
      | None => Some ([], x)
      | Some (init, last) => Some (x :: init, last)
      end
  end.

(** Lines 51-55 for one key, from the dict [temp] on:
    [for part in path: temp.setdefault(part, {}); temp = temp[part]] and then
    [temp[last] = value].  A value on the way that is not a dict has no
    [setdefault], and takes no item assignment. *)
Fixpoint set_path (temp : Items) (path : list string) (last : string) (value : Obj)
    : Outcome Items :=
  match path with
  | [] => Returns (setitem last value temp)
  | part :: path' =>
      let temp := if contains part temp then temp else setitem part (Dict []) temp in
      match getitem part temp with
      | Some (Dict sub) =>
          and_then (set_path sub path' last value)
            (fun sub' => Returns (setitem part (Dict sub') temp))
      | _ =>
          match path' with
          | [] => Raises NoItemAssignment
          | _ :: _ => Raises (NoAttribute "setdefault")
          end
      end
  end.

(** Lines 48-55: the nested dict built from the [style__] keyword arguments. *)
Fixpoint build_overrides (styling_overrides style_args : Items) : Outcome Items :=
  match style_args with
  | [] => Returns styling_overrides
  | (key, value) :: style_args' =>
      match unsnoc (tl (split key)) with
      | None => Raises NoIndex
      | Some (path, last) =>
          and_then (set_path styling_overrides path last value)
            (fun o => build_overrides o style_args')
      end
  end.

(** [{p1: {p2: ... {last: value}}}] *)
Fixpoint nested (path : list string) (last : string) (value : Obj) : Items :=
  match path with
  | [] => [(last, value)]
  | part :: path' => [(part, Dict (nested path' last value))]
  end.

(** Reading the value at the end of a path of nested dicts. *)
Fixpoint get_path (d : Items) (path : list string) (last : string) : option Obj :=
  match path with
  | [] => getitem last d
  | part :: path' =>
      match getitem part d with
      | Some (Dict sub) => get_path sub path' last
      | _ => None
      end
  end.

(** [{x: kwargs[x] for x in kwargs if x[:7] == "style__"}] *)
Definition style_args_of (kwargs : Items) : Items :=
  filter (fun kv => (substring 0 7 (fst kv) =? "style__")%string) kwargs.

Section UseStyle.
(** [style_class( **d )], the decorator's [style_attr], [getattr] on
    [args[0].style] ([None] for a missing attribute) and
    [json.loads(o.model_dump_json())]. *)
Variable style_class : Items -> Outcome Obj.
Variable style_attr : option string.
Variable getattr_style : string -> option Obj.
Variable model_dump : Obj -> Outcome Items.

(** Lines 35-36 and 57-58. *)
Definition base_style (attr : string) : Outcome Items :=
  match getattr_style attr with
  | Some o => model_dump o
  | None => Raises (NoAttribute attr)
  end.

(** The [wrapper] of [use_style], lines 26-70: what [kwargs.get("style")] is
    when [func] is called, or the exception raised before the call. *)
Definition wrapper_style (kwargs : Items) : Outcome (option Obj) :=
  let style := getitem "style" kwargs in
  let style_args := style_args_of kwargs in
  match style with
  | Some (Dict ((_ :: _) as d)) =>
      if negb (is_empty style_args) then
        Raises (PlainException
          "Both versions of style override used. Use either kwargs OR dictionary")
      else
        match style_attr with
        | Some attr =>
            and_then (base_style attr) (fun base =>
            and_then (style_class (merge_dict base d)) (fun s => Returns (Some s)))
        | None => and_then (style_class d) (fun s => Returns (Some s))
        end
  | None | Some PyNone =>
      if negb (is_empty style_args) then
        match style_attr with
        | Some attr =>
            and_then (build_overrides [] style_args) (fun styling_overrides =>
            and_then (base_style attr) (fun base =>
            and_then (style_class (merge_dict base styling_overrides)) (fun s =>
            Returns (Some s))))
        | None => Raises (UnboundLocal "styling_overrides")
        end
      else
        match style_attr with
        | Some attr =>
            Returns (Some (match getattr_style attr with
                           | Some o => o
                           | None => PyNone
                           end))
        | None => Returns style
        end
  | Some other => Returns (Some other)
  end.
End UseStyle.

End Values.

Arguments PyNone {Other}.
Arguments Atom {Other} x.
Arguments Dict {Other} items.
Arguments Returns {A} a.
Arguments Raises {A} e.
Arguments keys {Other} d.
Arguments getitem {Other} k d.
Arguments contains {Other} k d.
Arguments setitem {Other} k v d.
Arguments merge_dict {Other} dict_1 dict_2.
Arguments merged_value {Other} v1 v2.
Arguments well_formed {Other} _.
Arguments set_path {Other} temp path last value.
Arguments build_overrides {Other} styling_overrides style_args.
Arguments nested {Other} path last value.
Arguments style_args_of {Other} kwargs.
Arguments get_path {Other} d path last.
Arguments base_style {Other} getattr_style model_dump attr.
Arguments wrapper_style {Other} style_class style_attr getattr_style model_dump kwargs.

(** A name in which every underscore is followed by another character that
    is not an underscore: it holds no ["__"] and does not end with ["_"]. *)
Fixpoint clean (p : string) : bool :=
  match p with
  | EmptyString => true
  | String c p' =>
      if Ascii.eqb c "_"%char then
        match p' with
        | EmptyString => false
        | String c' _ => negb (Ascii.eqb c' "_"%char) && clean p'
        end
      else clean p'
  end.

(** A base style and overrides, as parsed JSON. *)
Definition sample_base : Items string :=
  [ ("marker", Dict [("size", Atom "4"); ("color", Atom "red")]);
    ("label", Dict [("font_size", Atom "8")]) ].

Definition sample_overrides : Items string :=
  [ ("marker", Dict [("color", Atom "blue"); ("symbol", Atom "square")]);
    ("line", Atom "1") ].

(** A plot style whose [dso] attribute is the sample base, a style class
    that takes any fields, and the dump of a style that is a dict. *)
Definition sample_style_class (d : Items string) : Outcome (Obj string) :=
  Returns (Dict d).

Definition sample_getattr (attr : string) : option (Obj string) :=
  getitem attr [("dso", Dict sample_base)].

Definition sample_model_dump (o : Obj string) : Outcome (Items string) :=
  match o with
  | Dict d => Returns d
  | _ => Raises (NoAttribute "model_dump_json")
  end.

End StyleHelpers.

(* ===================================================================== *)
(** * [starplot/models/planet.py] *)
(* ===================================================================== *)

Module Planets.

(** [PlanetName], in the order of the class body, which is the order of
    iteration. *)
Inductive PlanetName : Type :=
| MERCURY | VENUS | MARS | JUPITER | SATURN | URANUS | NEPTUNE.

Definition value (p : PlanetName) : string :=
  match p with
  | MERCURY => "mercury"
  | VENUS => "venus"
  | MARS => "mars"
  | JUPITER => "jupiter"
  | SATURN => "saturn"
  | URANUS => "uranus"
  | NEPTUNE => "neptune"
  end.

Definition members : list PlanetName :=
  [MERCURY; VENUS; MARS; JUPITER; SATURN; URANUS; NEPTUNE].

Definition PLANET_SIZE_KM (p : PlanetName) : float :=
  match p with
  | MERCURY => 2440
  | VENUS => 6052
  | MARS => 3390
  | JUPITER => 69911
  | SATURN => 58232
  | URANUS => 25362
  | NEPTUNE => 24622
  end.

Record Planet : Type := mkPlanet
  { ra : float;
    dec : float;
    name : PlanetName;
    apparent_size : float }.

Section PlanetManager.
(** What Skyfield and NumPy do for one planet: [observe p] is the
    [(ra.hours, dec.degrees, distance.km)] of
    [earth.at(timescale).observe(ephemeris[p.value + " barycenter"]).radec()],
    or the exception raised on the way (the loading of the ephemeris, done
    when the generator starts, counts with the first planet); [arcsin] is
    [np.arcsin] and [degrees] is [Angle(radians=x).degrees]. *)
Variable observe : PlanetName -> Res (float * float * float).
Variable arcsin : float -> float.
Variable degrees : float -> float.

(** Lines 52-68: the planet the generator yields for [p]. *)
Definition planet_at (p : PlanetName) : Res Planet :=
  res_bind (observe p) (fun radec =>
    let '(ra, dec, distance_km) := radec in
    let radius_km := PLANET_SIZE_KM p in
    let apparent_diameter_degrees :=
      degrees (arcsin (radius_km / distance_km) * 2)%float in
    Ok (mkPlanet ra dec p apparent_diameter_degrees)).

(** [list(PlanetManager.all(dt, ephemeris))]: the generator run to its end. *)
Definition all : Res (list Planet) := res_list_map planet_at members.

(** The loop of [PlanetManager.get] over the planets the generator has not
    yielded yet: a planet is computed only when the loop asks for it. *)
Fixpoint get_from (name : string) (remaining : list PlanetName) : Res (option Planet) :=
  match remaining with
  | [] => Ok None
  | p :: remaining' =>
      res_bind (planet_at p) (fun planet =>
        if (value (Planets.name planet) =? name)%string then Ok (Some planet)
        else get_from name remaining')
  end.

(** [PlanetManager.get(name, dt, ephemeris)] *)
Definition get (name : string) : Res (option Planet) := get_from name members.
End PlanetManager.

(** The members that come before [p] in the iteration. *)
Definition before (p : PlanetName) : list PlanetName :=
  match p with
  | MERCURY => []
  | VENUS => [MERCURY]
  | MARS => [MERCURY; VENUS]
  | JUPITER => [MERCURY; VENUS; MARS]
  | SATURN => [MERCURY; VENUS; MARS; JUPITER]
  | URANUS => [MERCURY; VENUS; MARS; JUPITER; SATURN]
  | NEPTUNE => [MERCURY; VENUS; MARS; JUPITER; SATURN; URANUS]
  end.

(** An ephemeris that knows the inner planets only. *)
Definition inner_only (p : PlanetName) : Res (float * float * float) :=
  match p with
  | MERCURY => Ok (1, 2, 90000000)%float
  | VENUS => Ok (3, 4, 40000000)%float
  | MARS => Ok (5, 6, 78000000)%float
  | _ => Raise (KeyError (value p ++ " barycenter"))
  end.

(** An ephemeris that knows every planet. *)
Definition steady (p : PlanetName) : Res (float * float * float) :=
  Ok (1, 2, 300000000)%float.

End Planets.

(* ===================================================================== *)
(** * The expression engine: properties *)
(* ===================================================================== *)

Example star_true_expressions_hold :
  res_map py_all (evaluate_all star_true_expressions fakestar) = Ok true.
Proof. vm_compute. reflexivity. Qed.

Example star_false_expressions_fail :
  res_map py_any (evaluate_all star_false_expressions fakestar) = Ok false.
Proof. vm_compute. reflexivity. Qed.

Section EngineProperties.
Context {O : Type} `{SkyObject O}.

Lemma evaluate_and_ok (e1 e2 : Expression) (obj : O) (b1 b2 : bool) :
  evaluate e1 obj = Ok b1 -> evaluate e2 obj = Ok b2 ->
  evaluate (And e1 e2) obj = Ok (b1 && b2).
Proof. intros H1 H2. simpl. rewrite H1, H2. reflexivity. Qed.

Lemma evaluate_or_ok (e1 e2 : Expression) (obj : O) (b1 b2 : bool) :
  evaluate e1 obj = Ok b1 -> evaluate e2 obj = Ok b2 ->
  evaluate (Or e1 e2) obj = Ok (b1 || b2).
Proof. intros H1 H2. simpl. rewrite H1, H2. reflexivity. Qed.

(** C7.  On every object, [E1 & E2] evaluates to the conjunction and
    [E1 | E2] to the disjunction of the evaluations of [E1] and [E2], both
    of which are evaluated (an exception of either one propagates); and
    [is_null(attr)] evaluates to the negation of [is_not_null(attr)]. *)
Theorem evaluate_connectives (e1 e2 : Expression) (attr : string) (obj : O) :
  evaluate (And e1 e2) obj = res_map2 andb (evaluate e1 obj) (evaluate e2 obj)
  /\ evaluate (Or e1 e2) obj = res_map2 orb (evaluate e1 obj) (evaluate e2 obj)
  /\ evaluate (is_null attr) obj = res_map negb (evaluate (is_not_null attr) obj).
Proof.
  repeat split.
  unfold is_null, is_not_null. simpl.
  destruct (attribute obj attr) as [v | e]; simpl; [ | reflexivity ].
  destruct (is_none v); reflexivity.
Qed.
End EngineProperties.

(* ===================================================================== *)
(** * Rules for computations on the plot *)
(* ===================================================================== *)

Lemma bind_lift_ok {A B} (r : Res A) (k : A -> M B) (p : Plot) (a : A) :
  r = Ok a -> bind (lift r) k p = k a p.
Proof. intros ->. reflexivity. Qed.

Lemma bind_inv {A B} (m : M A) (k : A -> M B) (p : Plot) (b : B) :
  fst (bind m k p) = Ok b ->
  exists a p', m p = (Ok a, p') /\ bind m k p = k a p'.
Proof.
  unfold bind. destruct (m p) as [[a | e] p']; simpl; intros H;
    [ exists a, p'; split; reflexivity | discriminate ].
Qed.

Section Frame.
Variable R : Plot -> Plot -> Prop.
Hypothesis R_refl : forall p, R p p.
Hypothesis R_trans : forall p q r, R p q -> R q r -> R p r.

Lemma preserves_ret {A} (a : A) : preserves R (ret a).
Proof. intros p. apply R_refl. Qed.

Lemma preserves_raise {A} (e : PyErr) : preserves R (@raise A e).
Proof. intros p. apply R_refl. Qed.

Lemma preserves_lift {A} (r : Res A) : preserves R (lift r).
Proof. intros p. apply R_refl. Qed.

Lemma preserves_get_dso_style (t : DsoType) : preserves R (get_dso_style t).
Proof. intros p. apply R_refl. Qed.

Lemma preserves_bind {A B} (m : M A) (k : A -> M B) :
  preserves R m -> (forall a, preserves R (k a)) -> preserves R (bind m k).
Proof.
  intros Hm Hk p. unfold bind.
  specialize (Hm p). destruct (m p) as [[a | e] p']; simpl in Hm.
  - apply R_trans with p'; [ exact Hm | apply Hk ].
  - exact Hm.
Qed.

Lemma preserves_bind_lift {A B} (r : Res A) (k : A -> M B) :
  (forall a, r = Ok a -> preserves R (k a)) -> preserves R (bind (lift r) k).
Proof.
  intros Hk p. unfold bind, lift.
  destruct r as [a | e]; [ apply Hk; reflexivity | apply R_refl ].
Qed.

Lemma preserves_for_each {A} (f : A -> M unit) (l : list A) :
  (forall x, preserves R (f x)) -> preserves R (for_each f l).
Proof.
  intros Hf. induction l as [ | x l IH]; simpl.
  - apply preserves_ret.
  - apply preserves_bind; [ apply Hf | intros _; exact IH ].
Qed.

(** Drawing: what [draw_dso] needs of the primitives. *)
Hypothesis R_call : forall c, polygon_call_closed c -> preserves R (call c).

Lemma closed_after_two_appends (coords c1 c2 : Coords) :
  append_first coords = Ok c1 -> append_first c1 = Ok c2 -> closed_ring c2.
Proof.
  destruct coords as [ | c0 rest]; simpl; [ discriminate | ].
  intros H1. injection H1 as <-. simpl.
  intros H2. injection H2 as <-.
  exists c0. split; [ reflexivity | ].
  unfold last_coord.
  change (c0 :: (rest ++ [c0]) ++ [c0])%list with ((c0 :: rest ++ [c0]) ++ [c0])%list.
  rewrite rev_app_distr. reflexivity.
Qed.

Lemma preserves_plot_dso_polygon (polygon : Coords) (style : ObjectStyle) :
  preserves R (_plot_dso_polygon polygon style).
Proof.
  unfold _plot_dso_polygon.
  apply preserves_bind_lift; intros c1 H1.
  apply preserves_bind_lift; intros c2 H2.
  apply R_call. simpl. exact (closed_after_two_appends _ _ _ H1 H2).
Qed.

Lemma preserves_plot_extent (style : ObjectStyle) (ra dec : float)
    (maj_ax min_ax angle : option float) :
  preserves R (plot_extent style ra dec maj_ax min_ax angle).
Proof.
  unfold plot_extent.
  destruct maj_ax as [maj | ]; [ | apply preserves_ret ].
  destruct (truthy maj); [ | apply preserves_ret ].
  destruct (is_square (symbol (marker style))); apply R_call; exact I.
Qed.

Lemma preserves_draw_dso (self : Collaborators) (true_size : bool) (d : Row)
    (ra dec : float) (style : ObjectStyle) (label : option string) :
  preserves R (draw_dso self true_size d ra dec style label).
Proof.
  unfold draw_dso.
  destruct (true_size && is_some (size_deg2 d)); [ | apply R_call; exact I ].
  apply preserves_bind.
  - destruct (geometry d) as [g | ]; [ | apply preserves_raise ].
    destruct g; try apply preserves_plot_extent.
    + apply preserves_plot_dso_polygon.
    + apply preserves_for_each. intros polygon. apply preserves_plot_dso_polygon.
  - intros _. unfold label_text. destruct label as [text | ]; [ | apply preserves_ret ].
    destruct (truthy_str (Some text)); [ apply R_call; exact I | apply preserves_ret ].
Qed.

(** The rest of the loop body: what it needs of the two writes. *)
Hypothesis R_append : forall o, preserves R (objects_dsos_append o).
Variable writable : DsoType -> Prop.
Hypothesis R_write : forall t s, writable t -> preserves R (write_style t s).

Lemma preserves_plot_selected (self : Collaborators) (true_size : bool)
    (label legend_label : option string) (alpha_fn : option (DSO.t -> Res float))
    (where_labels : list Expression) (d : Row) (ra dec : float)
    (dso_type : DsoType) (style : ObjectStyle) (_dso : DSO.t) :
  writable dso_type ->
  preserves R (plot_selected self true_size label legend_label alpha_fn
                 where_labels d ra dec dso_type style _dso).
Proof.
  intros Hw. unfold plot_selected.
  apply preserves_bind_lift; intros a _.
  apply preserves_bind; [ apply R_write; exact Hw | intros _ ].
  apply preserves_bind.
  - destruct (negb (is_empty where_labels)); [ | apply preserves_ret ].
    apply preserves_bind_lift; intros shown _. apply preserves_ret.
  - intros label'. apply preserves_bind; [ apply preserves_draw_dso | intros _ ].
    apply preserves_bind; [ apply R_append | intros _ ].
    apply R_call. exact I.
Qed.

Lemma preserves_plot_dso (self : Collaborators) (true_size : bool) (labels : Labels)
    (legend_labels : DsoType -> option string)
    (alpha_fn : option (DSO.t -> Res float))
    (where_ where_labels : list Expression) (d : Row) (ra dec : float) :
  (forall t, ONGC_TYPE_MAP self (Type_ d) = Some t -> writable t) ->
  preserves R (plot_dso self true_size labels legend_labels alpha_fn
                 where_ where_labels d ra dec).
Proof.
  intros Hw. unfold plot_dso.
  apply preserves_bind_lift; intros t Ht.
  apply preserves_bind; [ apply preserves_get_dso_style | intros style ].
  apply preserves_bind_lift; intros selected _.
  destruct (py_any _); [ apply preserves_ret | ].
  destruct style as [style | ]; [ | apply preserves_raise ].
  apply preserves_plot_selected. apply Hw.
  unfold subscript in Ht. destruct (ONGC_TYPE_MAP self (Type_ d)); congruence.
Qed.

Lemma preserves_dsos (self : Collaborators) (a : DsosArgs) :
  (forall t, writable t) -> preserves R (dsos self a).
Proof.
  intros Hw. unfold dsos, dsos_selected.
  apply preserves_bind_lift; intros dso_types _.
  apply preserves_for_each. intros [[d ra] dec].
  apply preserves_plot_dso. intros t _. apply Hw.
Qed.
End Frame.

(* ===================================================================== *)
(** * Polygon outlines *)
(* ===================================================================== *)

Lemma zip_star_xy (c : Coords) : zip_star (xy c) = c.
Proof.
  unfold zip_star, xy. simpl.
  induction c as [ | [x y] c IH]; simpl; [ reflexivity | now rewrite IH ].
Qed.

(** A ring with a first vertex [c0] is handed over with [c0] appended twice;
    the empty ring raises at [coords[0]] and nothing is drawn. *)
Lemma plot_dso_polygon_run (polygon : Coords) (style : ObjectStyle) (p : Plot) :
  _plot_dso_polygon polygon style p =
    match polygon with
    | [] => (Raise IndexError, p)
    | c0 :: _ =>
        call (CallPolygon (polygon ++ [c0; c0])%list
                (to_polygon_style (marker style)) false) p
    end.
Proof.
  unfold _plot_dso_polygon. rewrite zip_star_xy.
  destruct polygon as [ | c0 rest]; [ reflexivity | ].
  unfold bind, lift. simpl. rewrite <- app_assoc. reflexivity.
Qed.

Lemma draws_closed_rings_refl (p : Plot) : draws_closed_rings p p.
Proof. exists []. split; [ now rewrite app_nil_r | constructor ]. Qed.

Lemma draws_closed_rings_trans (p q r : Plot) :
  draws_closed_rings p q -> draws_closed_rings q r -> draws_closed_rings p r.
Proof.
  intros [n1 [E1 F1]] [n2 [E2 F2]]. exists (n1 ++ n2)%list. split.
  - rewrite E2, E1, app_assoc. reflexivity.
  - apply Forall_app. split; assumption.
Qed.

(** C9.  Whatever the arguments, the catalog and the plot [dsos()] starts
    from, every call it makes to the polygon primitive, whether it returns or
    raises, hands over a coordinate list whose first vertex is also its final
    element; a ring with first vertex [c0] is handed over as the ring followed
    by [c0] twice. *)
Theorem polygon_rings_closed (self : Collaborators) (a : DsosArgs) (p : Plot) :
  (exists new,
      calls (snd (dsos self a p)) = (calls p ++ new)%list
      /\ Forall polygon_call_closed new)
  /\ (forall c0 rest style q,
        _plot_dso_polygon (c0 :: rest) style q =
          call (CallPolygon ((c0 :: rest) ++ [c0; c0])%list
                  (to_polygon_style (marker style)) false) q
        /\ closed_ring ((c0 :: rest) ++ [c0; c0])%list).
Proof.
  split.
  - apply (preserves_dsos draws_closed_rings draws_closed_rings_refl
             draws_closed_rings_trans) with (writable := fun _ => True).
    + intros c Hc q. exists [c]. split; [ reflexivity | ].
      constructor; [ exact Hc | constructor ].
    + intros o q. exists []. split; [ simpl; now rewrite app_nil_r | constructor ].
    + intros t s _ q. exists []. split; [ simpl; now rewrite app_nil_r | constructor ].
    + intros t. exact I.
  - intros c0 rest style q. split.
    + apply (plot_dso_polygon_run (c0 :: rest)).
    + exists c0. split; [ reflexivity | ].
      unfold last_coord.
      change ((c0 :: rest) ++ [c0; c0])%list with ((c0 :: rest) ++ [c0] ++ [c0])%list.
      rewrite app_assoc, rev_app_distr. reflexivity.
Qed.

Example outlined_galaxy_ring :
  calls (snd (dsos (Sample.plotter [Sample.outlined])
                (Sample.default_args (Sample.plotter [Sample.outlined])) Sample.plot0))
  = [ CallPolygon [(1, 1); (2, 1); (1, 2); (1, 1); (1, 1)]%float
        (to_polygon_style (marker Sample.circle_style)) false;
      CallText 2 10 "NGC 8" (matplot_kwargs (label Sample.circle_style) 1);
      CallAddLegendHandleMarker (Some "GALAXY") (marker Sample.circle_style) ].
Proof. vm_compute. reflexivity. Qed.

(* ===================================================================== *)
(** * Selection *)
(* ===================================================================== *)

(** The default predicate never raises on a DSO: it evaluates to "magnitude
    unknown, or magnitude <= mag" of the magnitude the object carries. *)
Lemma default_where_evaluates (d : Row) (ra dec : float)
    (t : DsoType) (mag : float) :
  evaluate_all (default_where mag) (make_dso d ra dec t)
  = Ok [spec_default_selected (resolve_magnitude d) mag].
Proof.
  unfold evaluate_all, default_where, res_list_map, evaluate, is_null.
  unfold attribute. cbn.
  destruct (resolve_magnitude d) as [m | ]; reflexivity.
Qed.

(** The loop body up to the skip test, for a row whose type resolves to [t]
    and whose predicates evaluate to [selected]. *)
Lemma plot_dso_run (self : Collaborators) (true_size : bool) (labels : Labels)
    (legend_labels : DsoType -> option string)
    (alpha_fn : option (DSO.t -> Res float))
    (where_ where_labels : list Expression) (d : Row) (ra dec : float)
    (t : DsoType) (selected : list bool) (p : Plot) :
  ONGC_TYPE_MAP self (Type_ d) = Some t ->
  evaluate_all where_ (make_dso d ra dec t) = Ok selected ->
  plot_dso self true_size labels legend_labels alpha_fn where_ where_labels d ra dec p
  = if py_any [negb (is_some (styles p t)); negb (py_all selected);
               negb (in_bounds self (ra / 15)%float dec)]
    then (Ok tt, p)
    else match styles p t with
         | None => (Raise (AttributeError "marker"), p)
         | Some style =>
             plot_selected self true_size (labels_get labels (Name d))
               (legend_labels t) alpha_fn where_labels d ra dec t style
               (make_dso d ra dec t) p
         end.
Proof.
  intros Ht Hsel. unfold plot_dso, subscript. rewrite Ht.
  unfold bind at 1. unfold lift at 1.
  unfold bind at 1. unfold get_dso_style at 1.
  rewrite Hsel. unfold bind at 1. unfold lift at 1.
  destruct (py_any _); [ reflexivity | ].
  destruct (styles p t); reflexivity.
Qed.

(** C8, as stated, fails when a predicate of the caller raises.  The list
    given to [any] at lines 170-176 is built before [any] looks at it, so the
    [where] predicates are evaluated on an object without a style as well:
    with a predicate on an attribute that a [DSO] does not have, the
    iteration, and the run of [dsos()], raise although the only candidate
    has no style. *)
Lemma unstyled_where_raises :
  let self := Sample.plotter [Sample.unstyled] in
  let w := [Comparison "nosuch" Lt (VNum 1)] in
  styles Sample.plot0 GLOBULAR_CLUSTER = None
  /\ plot_dso self true (Maker {| overrides := fun _ => None |})
       (fun _ => Some "Globular Cluster") None w [] Sample.unstyled 30 10 Sample.plot0
     = (Raise (AttributeError "nosuch"), Sample.plot0)
  /\ dsos self (mkDsosArgs 8 [GLOBULAR_CLUSTER] true (DSO_LABELS_DEFAULT self)
                  (Some (DSO_LEGEND_LABELS self)) None (Some w) None) Sample.plot0
     = (Raise (AttributeError "nosuch"), Sample.plot0).
Proof. vm_compute. repeat split; reflexivity. Qed.

(** C8, amended.  A candidate whose type has no configured style is never
    drawn: the loop body leaves the plot as it was, so there is no call on
    the drawing surface, no new plotted object and no legend handle.  The
    [where] predicates are evaluated before the skip is decided (the list
    given to [any] is built first): the body returns normally when they
    evaluate on the object, and raises what they raise otherwise. *)
Theorem missing_style_skips (self : Collaborators) (true_size : bool)
    (labels : Labels) (legend_labels : DsoType -> option string)
    (alpha_fn : option (DSO.t -> Res float))
    (where_ where_labels : list Expression) (d : Row) (ra dec : float)
    (t : DsoType) (p : Plot) :
  ONGC_TYPE_MAP self (Type_ d) = Some t ->
  styles p t = None ->
  plot_dso self true_size labels legend_labels alpha_fn where_ where_labels d ra dec p
  = (match evaluate_all where_ (make_dso d ra dec t) with
     | Ok _ => Ok tt
     | Raise e => Raise e
     end, p).
Proof.
  intros Ht Hstyle.
  destruct (evaluate_all where_ (make_dso d ra dec t)) as [selected | e] eqn:Hsel.
  - rewrite (plot_dso_run _ _ _ _ _ _ _ _ _ _ t selected p Ht Hsel).
    rewrite Hstyle. reflexivity.
  - unfold plot_dso, subscript. rewrite Ht.
    unfold bind at 1. unfold lift at 1.
    unfold bind at 1. unfold get_dso_style at 1.
    rewrite Hsel. reflexivity.
Qed.

Lemma missing_style_skips_witness :
  plot_dso (Sample.plotter [Sample.unstyled]) true
    (Maker {| overrides := fun _ => None |}) (fun _ => Some "Globular Cluster")
    None (default_where 8) [] Sample.unstyled 30 10 Sample.plot0
  = (Ok tt, Sample.plot0).
Proof.
  exact (missing_style_skips (Sample.plotter [Sample.unstyled]) true
           (Maker {| overrides := fun _ => None |})
           (fun _ => Some "Globular Cluster") None
           (default_where 8) [] Sample.unstyled 30 10 GLOBULAR_CLUSTER Sample.plot0
           eq_refl eq_refl).
Defined.

(** With the default predicate the skip of an unstyled type needs no
    assumption on the predicates. *)
Lemma unstyled_default_skip (self : Collaborators) (true_size : bool)
    (labels : Labels) (legend_labels : DsoType -> option string)
    (alpha_fn : option (DSO.t -> Res float)) (mag : float)
    (where_labels : list Expression) (d : Row) (ra dec : float)
    (t : DsoType) (p : Plot) :
  ONGC_TYPE_MAP self (Type_ d) = Some t ->
  styles p t = None ->
  plot_dso self true_size labels legend_labels alpha_fn (default_where mag)
    where_labels d ra dec p
  = (Ok tt, p).
Proof.
  intros Ht Hstyle.
  rewrite (plot_dso_run _ _ _ _ _ _ _ _ _ _ t _ p Ht (default_where_evaluates d ra dec t mag)).
  rewrite Hstyle. reflexivity.
Qed.

(** A catalog whose only candidate has a type without a style: the run
    returns and leaves the plot as it was. *)
Example unstyled_run :
  let self := Sample.plotter [Sample.unstyled] in
  dsos self (mkDsosArgs 8 [GLOBULAR_CLUSTER] true (DSO_LABELS_DEFAULT self)
               (Some (DSO_LEGEND_LABELS self)) None None None) Sample.plot0
  = (Ok tt, Sample.plot0).
Proof. vm_compute. reflexivity. Qed.

(** C1.  When [where] is a non-empty list, two calls of [dsos()] that differ
    only in [mag] are the same computation: from every plot they make the
    same calls, plot the same objects and end the same way. *)
Theorem where_overrides_mag (self : Collaborators) (mag1 mag2 : float)
    (types : list DsoType) (true_size : bool) (labels : LabelsArg)
    (legend_labels : option (DsoType -> option string))
    (alpha_fn : option (DSO.t -> Res float))
    (w : list Expression) (where_labels : option (list Expression)) :
  w <> [] ->
  dsos self (mkDsosArgs mag1 types true_size labels legend_labels alpha_fn
               (Some w) where_labels)
  = dsos self (mkDsosArgs mag2 types true_size labels legend_labels alpha_fn
                 (Some w) where_labels).
Proof.
  intros Hw. destruct w as [ | e w]; [ contradiction | reflexivity ].
Qed.

Lemma where_overrides_mag_witness :
  let self := Sample.plotter [Sample.cluster_mag6; Sample.faint_cluster] in
  let w := [Comparison "magnitude" Le (VNum 8)] in
  dsos self (mkDsosArgs 3 [OPEN_CLUSTER] true LabelsNone None None (Some w) None)
  = dsos self (mkDsosArgs 8 [OPEN_CLUSTER] true LabelsNone None None (Some w) None).
Proof.
  intros self w.
  apply (where_overrides_mag self 3 8 [OPEN_CLUSTER] true LabelsNone None None w None).
  discriminate.
Defined.

(** The scenario of the specification: [where=[DSO.magnitude <= 8]] with
    [mag=3] plots the object of magnitude 6, which [mag=3] alone excludes. *)
Example where_with_mag_3 :
  let self := Sample.plotter [Sample.cluster_mag6; Sample.faint_cluster] in
  map DSO.name (objects_dsos (snd (dsos self
    (mkDsosArgs 3 [OPEN_CLUSTER] true LabelsNone None None
       (Some [Comparison "magnitude" Le (VNum 8)]) None) Sample.plot0)))
  = ["NGC 2"]
  /\ map DSO.name (objects_dsos (snd (dsos self
       (mkDsosArgs 3 [OPEN_CLUSTER] true LabelsNone None None None None) Sample.plot0)))
     = [].
Proof. vm_compute. split; reflexivity. Qed.

(* ===================================================================== *)
(** * Magnitudes *)
(* ===================================================================== *)

(** What lines 156-157 compute: the V-Mag when it is a non-zero number, else
    the B-Mag when it is a non-zero number, else [None]. *)
Lemma resolve_magnitude_cases (d : Row) :
  resolve_magnitude d
  = if truthy_opt (V_Mag d) then V_Mag d
    else if truthy_opt (B_Mag d) then B_Mag d
    else None.
Proof.
  unfold resolve_magnitude, py_or.
  destruct (V_Mag d) as [v | ]; destruct (B_Mag d) as [b | ]; simpl;
    try destruct (truthy v) eqn:Hv; try destruct (truthy b) eqn:Hb;
    repeat (cbn; rewrite ?Hv, ?Hb); reflexivity.
Qed.

(** An object that is not skipped is accumulated, unless an exception stops
    the iteration before line 237. *)
Lemma plot_selected_appends (self : Collaborators) (true_size : bool)
    (label legend_label : option string) (alpha_fn : option (DSO.t -> Res float))
    (where_labels : list Expression) (d : Row) (ra dec : float)
    (dso_type : DsoType) (style : ObjectStyle) (_dso : DSO.t) (p : Plot) :
  fst (plot_selected self true_size label legend_label alpha_fn where_labels
         d ra dec dso_type style _dso p) = Ok tt ->
  objects_dsos (snd (plot_selected self true_size label legend_label alpha_fn
                       where_labels d ra dec dso_type style _dso p))
  = (objects_dsos p ++ [_dso])%list.
Proof.
  assert (Hcall : forall c, preserves objects_kept (call c)) by (intros c q; reflexivity).
  assert (Hrefl : forall q, objects_kept q q) by (intros q; reflexivity).
  assert (Htrans : forall q1 q2 q3, objects_kept q1 q2 -> objects_kept q2 q3 ->
                                    objects_kept q1 q3).
  { unfold objects_kept. intros q1 q2 q3 H1 H2. congruence. }
  intros H. unfold plot_selected in *.
  destruct (bind_inv _ _ _ _ H) as (a & p1 & H1 & E1). rewrite E1 in *. clear E1.
  assert (K1 : objects_kept p p1).
  { pose proof (preserves_lift objects_kept Hrefl
        (match alpha_fn with Some f => f _dso | None => Ok (alpha (marker style)) end) p)
      as K. rewrite H1 in K. exact K. }
  destruct (bind_inv _ _ _ _ H) as (u & p2 & H2 & E2). rewrite E2 in *. clear E2.
  assert (K2 : objects_kept p1 p2).
  { unfold write_style in H2. injection H2 as _ <-. reflexivity. }
  destruct (bind_inv _ _ _ _ H) as (label' & p3 & H3 & E3). rewrite E3 in *. clear E3.
  assert (K3 : objects_kept p2 p3).
  { match type of H3 with ?m p2 = _ => assert (Km : preserves objects_kept m) end.
    { destruct (negb (is_empty where_labels)); [ | apply preserves_ret; exact Hrefl ].
      apply preserves_bind_lift; [ exact Hrefl | ].
      intros shown _. apply preserves_ret. exact Hrefl. }
    specialize (Km p2). rewrite H3 in Km. exact Km. }
  destruct (bind_inv _ _ _ _ H) as (u4 & p4 & H4 & E4). rewrite E4 in *. clear E4.
  assert (K4 : objects_kept p3 p4).
  { pose proof (preserves_draw_dso objects_kept Hrefl Htrans (fun c _ => Hcall c)
                  self true_size d ra dec (set_marker_alpha style a) label' p3) as K.
    rewrite H4 in K. exact K. }
  unfold objects_kept in *.
  unfold bind, objects_dsos_append, call. simpl. congruence.
Qed.

(** C5, as stated, fails on a record with V-Mag=0.0 and B-Mag=9.1 plotted
    with [mag=8] and no [where]: its V-Mag is present, so the magnitude the
    claim resolves is 0.0, which is <= 8, and the claim includes the object;
    [dsos()] resolves 9.1 and leaves the plot untouched, although the type has
    a style and the position is in bounds. *)
Lemma zero_vmag_excluded :
  let self := Sample.plotter [Sample.zero_vmag] in
  let a := mkDsosArgs 8 [OPEN_CLUSTER] true LabelsNone None None None None in
  V_Mag Sample.zero_vmag = Some 0%float
  /\ spec_resolved_magnitude Sample.zero_vmag = Some 0%float
  /\ spec_default_selected (spec_resolved_magnitude Sample.zero_vmag) (mag a) = true
  /\ is_some (styles Sample.plot0 OPEN_CLUSTER) = true
  /\ in_bounds self (30 / 15)%float 10 = true
  /\ resolve_magnitude Sample.zero_vmag = Some 9.1%float
  /\ dsos self a Sample.plot0 = (Ok tt, Sample.plot0).
Proof. vm_compute. repeat split; reflexivity. Qed.

(** C5, amended.  With [where] absent ([None] or the empty list), a candidate
    whose type has a style and whose position is in bounds goes through the
    rest of the loop body (drawn and accumulated) exactly when its resolved
    magnitude is unknown or <= [mag], and otherwise leaves the plot untouched;
    the resolved magnitude is the V-Mag when that is a non-zero number, else
    the B-Mag when that is a non-zero number, else unknown.  In particular a
    record with V-Mag=None and B-Mag=9.1 is excluded by [mag=8]. *)
Theorem default_selection (self : Collaborators) (mag : float) (true_size : bool)
    (labels : Labels) (legend_labels : DsoType -> option string)
    (alpha_fn : option (DSO.t -> Res float))
    (where_ : option (list Expression)) (where_labels : list Expression)
    (d : Row) (ra dec : float) (t : DsoType) (style : ObjectStyle) (p : Plot) :
  or_empty where_ = [] ->
  ONGC_TYPE_MAP self (Type_ d) = Some t ->
  styles p t = Some style ->
  in_bounds self (ra / 15)%float dec = true ->
  plot_dso self true_size labels legend_labels alpha_fn (resolve_where where_ mag)
    where_labels d ra dec p
  = (if spec_default_selected (resolve_magnitude d) mag
     then plot_selected self true_size (labels_get labels (Name d)) (legend_labels t)
            alpha_fn where_labels d ra dec t style (make_dso d ra dec t) p
     else (Ok tt, p))
  /\ resolve_magnitude d
     = (if truthy_opt (V_Mag d) then V_Mag d
        else if truthy_opt (B_Mag d) then B_Mag d
        else None)
  /\ (V_Mag d = None -> B_Mag d = Some 9.1%float ->
      spec_default_selected (resolve_magnitude d) 8 = false).
Proof.
  intros Hw Ht Hstyle Hin. split; [ | split ].
  - unfold resolve_where. rewrite Hw. simpl is_empty. cbv iota.
    rewrite (plot_dso_run _ _ _ _ _ _ _ _ _ _ t _ p Ht
               (default_where_evaluates d ra dec t mag)).
    rewrite Hstyle, Hin. simpl.
    destruct (spec_default_selected (resolve_magnitude d) mag); reflexivity.
  - apply resolve_magnitude_cases.
  - intros HV HB. rewrite resolve_magnitude_cases, HV, HB. vm_compute. reflexivity.
Qed.

Lemma default_selection_witness :
  let self := Sample.plotter [Sample.faint_cluster] in
  plot_dso self true (Maker {| overrides := fun _ => None |}) (fun _ => None) None
    (resolve_where None 8) [] Sample.faint_cluster 30 10 Sample.plot0
  = (Ok tt, Sample.plot0).
Proof.
  intros self.
  destruct (default_selection self 8 true (Maker {| overrides := fun _ => None |})
              (fun _ => None) None None [] Sample.faint_cluster 30 10 OPEN_CLUSTER
              Sample.square_style Sample.plot0
              eq_refl eq_refl eq_refl eq_refl) as [Hrun [_ Hfaint]].
  rewrite Hrun. rewrite (Hfaint eq_refl eq_refl). reflexivity.
Defined.



(** The same record under limits on both sides of zero: always plotted. *)
Example zero_magnitude_any_limit :
  let self := Sample.plotter [Sample.zero_both] in
  let run mag := map DSO.name (objects_dsos (snd (dsos self
       (mkDsosArgs mag [OPEN_CLUSTER] true LabelsNone None None None None)
       Sample.plot0))) in
  run (-5)%float = ["NGC 9"] /\ run 8%float = ["NGC 9"].
Proof. vm_compute. split; reflexivity. Qed.

(* ===================================================================== *)
(** * True-size shapes *)
(* ===================================================================== *)

(** The object with a usable major axis: one rectangle or one ellipse. *)
Lemma plot_extent_run (style : ObjectStyle) (ra dec maj : float)
    (min_ax angle : option float) :
  truthy maj = true ->
  plot_extent style ra dec (Some maj) min_ax angle
  = let half_major := half_axis_degrees maj in
    let half_minor := match min_ax with
                      | Some m => if truthy m then half_axis_degrees m else half_major
                      | None => half_major
                      end in
    let rotation := match angle with
                    | Some a => if truthy a then a else 0%float
                    | None => 0%float
                    end in
    if is_square (symbol (marker style)) then
      call (CallRectangle ((ra / 15)%float, dec) (half_minor * 2)%float
              (half_major * 2)%float (to_polygon_style (marker style)) rotation)
    else
      call (CallEllipse ((ra / 15)%float, dec) (half_minor * 2)%float
              (half_major * 2)%float (to_polygon_style (marker style)) rotation).
Proof.
  intros Hmaj. unfold plot_extent. rewrite Hmaj. cbv zeta.
  assert (Hrot : angle_or_0 angle
                 = match angle with
                   | Some a => if truthy a then a else 0%float
                   | None => 0%float
                   end).
  { unfold angle_or_0, py_or. destruct angle as [a | ]; [ | reflexivity ].
    simpl. destruct (truthy a); reflexivity. }
  rewrite Hrot. reflexivity.
Qed.

(** The true-size branch for a geometry that is no outline (lines 192-226). *)
Lemma draw_dso_no_outline (self : Collaborators) (d : Row) (ra dec size : float)
    (g : Geometry) (style : ObjectStyle) (label : option string) :
  size_deg2 d = Some size ->
  geometry d = Some g ->
  geom_type g <> "Polygon" ->
  geom_type g <> "MultiPolygon" ->
  draw_dso self true d ra dec style label
  = (plot_extent style ra dec (MajAx d) (MinAx d) (PosAng d) ;;
     label_text self style ra dec label).
Proof.
  intros Hsize Hg Hp Hmp. unfold draw_dso, label_text.
  rewrite Hsize, Hg. simpl.
  destruct g; try reflexivity; contradiction.
Qed.

(** C6, as stated, fails on a record with MajAx=10 and MinAx=0.0: the minor
    axis is present, so the claim's half minor axis is (0/60)/2 = 0, but
    [dsos()] draws the rectangle with the half major axis on both sides. *)
Lemma zero_minor_axis_takes_major :
  let self := Sample.plotter [Sample.zero_minor] in
  MinAx Sample.zero_minor = Some 0%float
  /\ spec_half_minor 10 (MinAx Sample.zero_minor) = 0%float
  /\ calls (snd (dsos self (Sample.default_args self) Sample.plot0))
     = [ CallRectangle (2, 10)%float
           (half_axis_degrees 10 * 2)%float (half_axis_degrees 10 * 2)%float
           (to_polygon_style (marker Sample.square_style)) 0;
         CallText 2 10 "NGC 6" (matplot_kwargs (label Sample.square_style) 1);
         CallAddLegendHandleMarker (Some "OPEN_CLUSTER") (marker Sample.square_style) ]
  /\ (half_axis_degrees 10 * 2 =? spec_half_minor 10 (MinAx Sample.zero_minor) * 2)%float
     = false.
Proof. vm_compute. repeat split; reflexivity. Qed.

(** C6, amended.  An object drawn through the major-axis path (true size, a
    size, no outline geometry, a non-zero major axis) is one rectangle when
    the marker symbol is the square and one ellipse otherwise.  Its half major
    axis is (MajAx / 60) / 2; its half minor axis is the same formula on the
    minor axis when that is a non-zero number, else the half major axis; its
    rotation is the position angle when that is a non-zero number, else 0.
    With MajAx=10, MinAx=None, PosAng=None and the square symbol it is a
    rectangle whose half axes are both (10/60)/2, between 0.0833 and 0.0834
    degrees, at angle 0. *)
Theorem major_axis_extent (self : Collaborators) (d : Row) (ra dec size maj : float)
    (g : Geometry) (style : ObjectStyle) (label : option string) :
  size_deg2 d = Some size ->
  geometry d = Some g ->
  geom_type g <> "Polygon" ->
  geom_type g <> "MultiPolygon" ->
  MajAx d = Some maj ->
  truthy maj = true ->
  let half_major := half_axis_degrees maj in
  let half_minor := match MinAx d with
                    | Some m => if truthy m then half_axis_degrees m else half_major
                    | None => half_major
                    end in
  let rotation := match PosAng d with
                  | Some a => if truthy a then a else 0%float
                  | None => 0%float
                  end in
  draw_dso self true d ra dec style label
  = (call ((if is_square (symbol (marker style)) then CallRectangle else CallEllipse)
             ((ra / 15)%float, dec) (half_minor * 2)%float (half_major * 2)%float
             (to_polygon_style (marker style)) rotation) ;;
     label_text self style ra dec label)
  /\ half_major = ((maj / 60) / 2)%float
  /\ (maj = 10%float -> MinAx d = None -> PosAng d = None ->
      symbol (marker style) = SQUARE ->
      draw_dso self true d ra dec style label
      = (call (CallRectangle ((ra / 15)%float, dec)
                 (half_axis_degrees 10 * 2)%float (half_axis_degrees 10 * 2)%float
                 (to_polygon_style (marker style)) 0) ;;
         label_text self style ra dec label)
      /\ half_axis_degrees 10 = 0.083333333333333329%float
      /\ (0.0833 <=? half_axis_degrees 10)%float = true
      /\ (half_axis_degrees 10 <=? 0.0834)%float = true).
Proof.
  intros Hsize Hg Hp Hmp Hmaj Htruthy half_major half_minor rotation.
  assert (Hdraw : draw_dso self true d ra dec style label
                  = (call ((if is_square (symbol (marker style))
                            then CallRectangle else CallEllipse)
                             ((ra / 15)%float, dec) (half_minor * 2)%float
                             (half_major * 2)%float
                             (to_polygon_style (marker style)) rotation) ;;
                     label_text self style ra dec label)).
  { rewrite (draw_dso_no_outline self d ra dec size g style label Hsize Hg Hp Hmp).
    rewrite Hmaj, (plot_extent_run style ra dec maj (MinAx d) (PosAng d) Htruthy).
    cbv zeta. fold half_major. fold half_minor. fold rotation.
    destruct (is_square (symbol (marker style))); reflexivity. }
  split; [ exact Hdraw | ]. split; [ reflexivity | ].
  intros H10 Hmin Hang Hsq. split.
  - rewrite Hdraw. unfold half_minor, rotation, half_major.
    rewrite Hmin, Hang, Hsq, H10. reflexivity.
  - vm_compute. repeat split; reflexivity.
Qed.

Lemma major_axis_extent_witness :
  let self := Sample.plotter [Sample.axis10] in
  draw_dso self true Sample.axis10 30 10 Sample.square_style (Some "NGC 5")
  = (call (CallRectangle ((30 / 15)%float, 10%float)
             (half_axis_degrees 10 * 2)%float (half_axis_degrees 10 * 2)%float
             (to_polygon_style (marker Sample.square_style)) 0) ;;
     label_text self Sample.square_style 30 10 (Some "NGC 5")).
Proof.
  intros self.
  assert (Hp : geom_type Point <> "Polygon") by discriminate.
  assert (Hmp : geom_type Point <> "MultiPolygon") by discriminate.
  destruct (major_axis_extent self Sample.axis10 30 10 0.02 10 Point
              Sample.square_style (Some "NGC 5")
              eq_refl eq_refl Hp Hmp eq_refl eq_refl) as [_ [_ Hten]].
  destruct (Hten eq_refl eq_refl eq_refl eq_refl) as [Hrect _].
  exact Hrect.
Defined.

(** With true size on and a size, an object without outline and without a
    usable major axis gets no shape and no marker: the [if]/[elif] chain of
    lines 186-218 has no final [else], and the marker of line 230 belongs to
    the outer [else].  Only the label text may be drawn. *)
Lemma draw_dso_no_axis (self : Collaborators) (d : Row) (ra dec size : float)
    (g : Geometry) (style : ObjectStyle) (label : option string) (p : Plot) :
  size_deg2 d = Some size ->
  geometry d = Some g ->
  geom_type g <> "Polygon" ->
  geom_type g <> "MultiPolygon" ->
  truthy_opt (MajAx d) = false ->
  draw_dso self true d ra dec style label p = label_text self style ra dec label p.
Proof.
  intros Hsize Hg Hp Hmp Hmaj.
  rewrite (draw_dso_no_outline self d ra dec size g style label Hsize Hg Hp Hmp).
  unfold plot_extent. destruct (MajAx d) as [maj | ]; simpl in Hmaj.
  - rewrite Hmaj. reflexivity.
  - reflexivity.
Qed.

(** C2.  The run of [dsos()] with true size on a record that has a size, a
    point geometry, no major axis and the label "NGC 4": no marker call is
    made; the label is drawn with the text primitive and the object is still
    accumulated and given a legend handle.  With true size off the same record
    is drawn by the marker primitive, which receives the label. *)
Theorem sized_without_axis_gets_no_marker :
  let self := Sample.plotter [Sample.sized_no_axis] in
  let run true_size :=
    snd (dsos self (mkDsosArgs 8 [OPEN_CLUSTER] true_size (DSO_LABELS_DEFAULT self)
                      (Some (DSO_LEGEND_LABELS self)) None None None) Sample.plot0) in
  calls (run true)
  = [ CallText 2 10 "NGC 4" (matplot_kwargs (label Sample.square_style) 1);
      CallAddLegendHandleMarker (Some "OPEN_CLUSTER") (marker Sample.square_style) ]
  /\ existsb is_marker_call (calls (run true)) = false
  /\ map DSO.name (objects_dsos (run true)) = ["NGC 4"]
  /\ calls (run false)
     = [ CallMarker 2 10 (Some "NGC 4") Sample.square_style;
         CallAddLegendHandleMarker (Some "OPEN_CLUSTER") (marker Sample.square_style) ].
Proof. vm_compute. repeat split; reflexivity. Qed.

(* ===================================================================== *)
(** * The alpha override and the style registry *)
(* ===================================================================== *)

Lemma styles_kept_refl (p : Plot) : styles_kept p p.
Proof. reflexivity. Qed.

Lemma styles_kept_trans (p q r : Plot) :
  styles_kept p q -> styles_kept q r -> styles_kept p r.
Proof. unfold styles_kept. congruence. Qed.

(** After line 180 nothing in the iteration touches the registry. *)
Lemma plot_selected_styles (self : Collaborators) (true_size : bool)
    (label legend_label : option string) (f : DSO.t -> Res float)
    (where_labels : list Expression) (d : Row) (ra dec : float)
    (t : DsoType) (style : ObjectStyle) (_dso : DSO.t) (a : float) (p : Plot) :
  f _dso = Ok a ->
  styles (snd (plot_selected self true_size label legend_label (Some f) where_labels
                 d ra dec t style _dso p))
  = registry_update (styles p) t (set_marker_alpha style a).
Proof.
  intros Hf. unfold plot_selected. rewrite (bind_lift_ok _ _ _ a Hf).
  unfold bind at 1. unfold write_style at 1.
  match goal with |- styles (snd (?rest ?q)) = _ =>
    assert (K : preserves styles_kept rest); [ | exact (K q) ]
  end.
  apply preserves_bind; [ exact styles_kept_trans | | ].
  - destruct (negb (is_empty where_labels));
      [ | apply preserves_ret; exact styles_kept_refl ].
    apply preserves_bind_lift; [ exact styles_kept_refl | ].
    intros shown _. apply preserves_ret. exact styles_kept_refl.
  - intros label'.
    apply preserves_bind; [ exact styles_kept_trans | | intros _ ].
    + apply preserves_draw_dso;
        [ exact styles_kept_refl | exact styles_kept_trans | ].
      intros c _ q. reflexivity.
    + apply preserves_bind; [ exact styles_kept_trans | | intros _ ].
      * intros q. reflexivity.
      * intros q. reflexivity.
Qed.

(** C3, as stated, fails.  A run of [dsos()] with [alpha_fn=lambda d: 0.5]
    over one open cluster leaves 0.5 as the alpha of the registered style of
    open clusters, which was configured as 1; a later run without [alpha_fn]
    on the same plot draws its marker with alpha 0.5. *)
Lemma alpha_override_leaks :
  let self := Sample.plotter [Sample.cluster_mag6] in
  let a f := mkDsosArgs 8 [OPEN_CLUSTER] false LabelsNone None f None None in
  let p1 := snd (dsos self (a (Some Sample.half_alpha)) Sample.plot0) in
  let p2 := snd (dsos self (a None) {| styles := styles p1; calls := [];
                                      objects_dsos := [] |}) in
  registered_alpha Sample.plot0 OPEN_CLUSTER = Some 1%float
  /\ registered_alpha p1 OPEN_CLUSTER = Some 0.5%float
  /\ (0.5 =? 1)%float = false
  /\ calls p2
     = [ CallMarker 2 10 None (set_marker_alpha Sample.square_style 0.5);
         CallAddLegendHandleMarker None
           (marker (set_marker_alpha Sample.square_style 0.5)) ].
Proof. vm_compute. repeat split; reflexivity. Qed.

(** C3, amended.  For an object that is not skipped, the value [alpha_fn]
    returns for it is written into the registered style of its DSO type: once
    the iteration is over (or has raised after line 180) that style is the
    former one with this alpha.  No copy is made. *)
Theorem alpha_override_writes_registry (self : Collaborators) (true_size : bool)
    (labels : Labels) (legend_labels : DsoType -> option string)
    (f : DSO.t -> Res float) (where_ where_labels : list Expression)
    (d : Row) (ra dec : float) (t : DsoType) (style : ObjectStyle)
    (selected : list bool) (a : float) (p : Plot) :
  ONGC_TYPE_MAP self (Type_ d) = Some t ->
  styles p t = Some style ->
  evaluate_all where_ (make_dso d ra dec t) = Ok selected ->
  py_all selected = true ->
  in_bounds self (ra / 15)%float dec = true ->
  f (make_dso d ra dec t) = Ok a ->
  let p' := snd (plot_dso self true_size labels legend_labels (Some f)
                   where_ where_labels d ra dec p) in
  styles p' t = Some (set_marker_alpha style a)
  /\ registered_alpha p' t = Some a.
Proof.
  intros Ht Hstyle Hsel Hall Hin Hf p'.
  assert (Hp' : styles p' = registry_update (styles p) t (set_marker_alpha style a)).
  { unfold p'.
    rewrite (plot_dso_run _ _ _ _ _ _ _ _ _ _ t selected p Ht Hsel).
    rewrite Hstyle, Hall, Hin. simpl.
    apply plot_selected_styles. exact Hf. }
  assert (Hself : styles p' t = Some (set_marker_alpha style a)).
  { rewrite Hp'. unfold registry_update.
    destruct (DsoType_eq_dec t t); [ reflexivity | contradiction ]. }
  split; [ exact Hself | ].
  unfold registered_alpha. rewrite Hself. reflexivity.
Qed.

Lemma alpha_override_writes_registry_witness :
  let self := Sample.plotter [Sample.cluster_mag6] in
  let p' := snd (plot_dso self false (PlainDict (fun _ => None)) (fun _ => None)
                   (Some Sample.half_alpha) (default_where 8) []
                   Sample.cluster_mag6 30 10 Sample.plot0) in
  styles p' OPEN_CLUSTER = Some (set_marker_alpha Sample.square_style 0.5)
  /\ registered_alpha p' OPEN_CLUSTER = Some 0.5%float.
Proof.
  intros self p'.
  exact (alpha_override_writes_registry self false (PlainDict (fun _ => None))
           (fun _ => None) Sample.half_alpha (default_where 8) []
           Sample.cluster_mag6 30 10 OPEN_CLUSTER Sample.square_style [true]
           0.5 Sample.plot0
           eq_refl eq_refl eq_refl eq_refl eq_refl eq_refl).
Defined.

(* ===================================================================== *)
(** * The convenience wrappers *)
(* ===================================================================== *)

(** Binding the preset [types] first does not disturb the binding of keyword
    arguments that do not name [types]. *)
Lemma bind_keywords_preset (preset : PyArg) (kwargs acc b : Kwargs) :
  kw_lookup "types" kwargs = None ->
  bind_keywords acc kwargs = Ok b ->
  bind_keywords (("types", preset) :: acc) kwargs = Ok (("types", preset) :: b).
Proof.
  revert acc. induction kwargs as [ | [k v] kwargs IH]; intros acc Hno Hb.
  - simpl in Hb |- *. injection Hb as <-. reflexivity.
  - cbn [kw_lookup] in Hno. destruct ("types" =? k)%string eqn:Hk; [ discriminate | ].
    cbn [bind_keywords kw_lookup] in Hb |- *.
    destruct (negb (existsb (String.eqb k) dsos_params)); [ discriminate | ].
    rewrite String.eqb_sym in Hk. rewrite Hk.
    destruct (is_some (kw_lookup k acc)); [ discriminate | ].
    apply (IH ((acc ++ [(k, v)])%list) Hno Hb).
Qed.

Lemma bind_keywords_keeps_unbound (name : string) (kwargs acc b : Kwargs) :
  kw_lookup name kwargs = None ->
  kw_lookup name acc = None ->
  bind_keywords acc kwargs = Ok b ->
  kw_lookup name b = None.
Proof.
  revert acc. induction kwargs as [ | [k v] kwargs IH]; intros acc Hno Hacc Hb.
  - simpl in Hb. injection Hb as <-. exact Hacc.
  - cbn [kw_lookup] in Hno. destruct (name =? k)%string eqn:Hk; [ discriminate | ].
    cbn [bind_keywords] in Hb.
    destruct (negb (existsb (String.eqb k) dsos_params)); [ discriminate | ].
    destruct (is_some (kw_lookup k acc)); [ discriminate | ].
    apply (IH ((acc ++ [(k, v)])%list) Hno); [ | exact Hb ].
    clear - Hacc Hk. induction acc as [ | [k' v'] acc IHacc];
      cbn [kw_lookup app] in *.
    + rewrite Hk. reflexivity.
    + destruct (name =? k')%string; [ discriminate | auto ].
Qed.

(** With [types] bound to the preset and nothing else changed, the typed
    arguments are the same with [types] replaced. *)
Lemma signature_preset (self : Collaborators) (preset : list DsoType)
    (b : Kwargs) (a : DsosArgs) :
  kw_lookup "types" b = None ->
  signature self b = Some a ->
  signature self (("types", ATypes preset) :: b) = Some (set_types a preset).
Proof.
  intros Hno. unfold signature, param_mag, param_types, param_true_size,
    param_labels, param_legend_labels, param_alpha_fn, param_exprs.
  cbn [kw_lookup String.eqb Ascii.eqb Bool.eqb]. rewrite Hno.
  destruct (kw_lookup "mag" b) as [[] | ]; try discriminate;
  destruct (kw_lookup "true_size" b) as [[] | ]; try discriminate;
  destruct (kw_lookup "labels" b) as [[] | ]; try discriminate;
  destruct (kw_lookup "legend_labels" b) as [[] | ]; try discriminate;
  destruct (kw_lookup "alpha_fn" b) as [[] | ]; try discriminate;
  destruct (kw_lookup "where" b) as [[] | ]; try discriminate;
  destruct (kw_lookup "where_labels" b) as [[] | ]; try discriminate;
  intros H; injection H as <-; reflexivity.
Qed.

(** A wrapper called with keyword arguments only, none of them [types], that
    [dsos()] itself would bind to [a]: the wrapper runs [dsos()] on [a] with
    [types] replaced by the preset. *)
Lemma call_dsos_preset (self : Collaborators) (untyped : Kwargs -> M unit)
    (preset : list DsoType) (kwargs bound : Kwargs) (a : DsosArgs) :
  kw_lookup "types" kwargs = None ->
  bind_arguments [] kwargs = Ok bound ->
  signature self bound = Some a ->
  call_dsos self untyped [] (("types", ATypes preset) :: kwargs)
  = dsos self (set_types a preset).
Proof.
  intros Hno Hb Ha.
  change (bind_arguments [] kwargs) with (bind_keywords [] kwargs) in Hb.
  pose proof (bind_keywords_keeps_unbound "types" kwargs [] bound Hno eq_refl Hb)
    as Hnb.
  unfold call_dsos, bind_arguments.
  cbn [bind_positional res_bind bind_keywords kw_lookup dsos_params existsb
       String.eqb Ascii.eqb Bool.eqb negb is_some orb app].
  rewrite (bind_keywords_preset (ATypes preset) kwargs [] bound Hno Hb).
  change (bind (lift (Ok (("types", ATypes preset) :: bound)))
            (fun bound0 => match signature self bound0 with
                           | Some a0 => dsos self a0
                           | None => untyped bound0
                           end))
    with (match signature self (("types", ATypes preset) :: bound) with
          | Some a0 => dsos self a0
          | None => untyped (("types", ATypes preset) :: bound)
          end).
  rewrite (signature_preset self preset bound a Hnb Ha).
  reflexivity.
Qed.

(** C4, as stated, fails on a positional argument: [open_clusters(5.0)] runs
    [dsos()] with the default [mag=8] and plots the cluster of magnitude 6,
    where forwarding the argument would make [mag=5] exclude it. *)
Lemma wrapper_drops_positional :
  let self := Sample.plotter [Sample.cluster_mag6] in
  map DSO.name
    (objects_dsos (snd (open_clusters self Sample.untyped [AFloat 5] [] Sample.plot0)))
  = ["NGC 2"]
  /\ map DSO.name
       (objects_dsos (snd (spec_wrapper self Sample.untyped [OPEN_CLUSTER] [AFloat 5] []
                             Sample.plot0)))
     = [].
Proof. vm_compute. split; reflexivity. Qed.

(** C4, amended.  For every list of keyword arguments, a convenience wrapper
    called with these keyword arguments is the call of [dsos()] with [types]
    preset to the DSO types of the wrapper and every keyword argument
    forwarded unchanged.  When the keyword arguments do not name [types] and
    [dsos()] binds them to the arguments [a], the wrapper is [dsos()] on [a]
    with [types] replaced by the preset. *)
Theorem wrappers_forward_keywords (self : Collaborators)
    (untyped : Kwargs -> M unit) (kwargs : Kwargs) :
  (open_clusters self untyped [] kwargs
   = call_dsos self untyped [] (("types", ATypes [OPEN_CLUSTER]) :: kwargs)
   /\ globular_clusters self untyped [] kwargs
      = call_dsos self untyped [] (("types", ATypes [GLOBULAR_CLUSTER]) :: kwargs)
   /\ galaxies self untyped [] kwargs
      = call_dsos self untyped []
          (("types", ATypes [GALAXY; GALAXY_PAIR; GALAXY_TRIPLET]) :: kwargs)
   /\ nebula self untyped [] kwargs
      = call_dsos self untyped []
          (("types", ATypes [NEBULA; PLANETARY_NEBULA; EMISSION_NEBULA;
                             STAR_CLUSTER_NEBULA; REFLECTION_NEBULA]) :: kwargs))
  /\ (forall bound a,
        kw_lookup "types" kwargs = None ->
        bind_arguments [] kwargs = Ok bound ->
        signature self bound = Some a ->
        call_dsos self untyped [] kwargs = dsos self a
        /\ open_clusters self untyped [] kwargs = dsos self (set_types a [OPEN_CLUSTER])
        /\ globular_clusters self untyped [] kwargs
           = dsos self (set_types a [GLOBULAR_CLUSTER])
        /\ galaxies self untyped [] kwargs
           = dsos self (set_types a [GALAXY; GALAXY_PAIR; GALAXY_TRIPLET])
        /\ nebula self untyped [] kwargs
           = dsos self (set_types a [NEBULA; PLANETARY_NEBULA; EMISSION_NEBULA;
                                     STAR_CLUSTER_NEBULA; REFLECTION_NEBULA])).
Proof.
  split; [ repeat split | ].
  intros bound a Hno Hb Ha. split.
  - unfold call_dsos. rewrite Hb.
    change (bind (lift (Ok bound))
              (fun bound0 => match signature self bound0 with
                             | Some a0 => dsos self a0
                             | None => untyped bound0
                             end))
      with (match signature self bound with
            | Some a0 => dsos self a0
            | None => untyped bound
            end).
    rewrite Ha. reflexivity.
  - repeat split; apply (call_dsos_preset self untyped _ kwargs bound a Hno Hb Ha).
Qed.

Lemma wrappers_forward_keywords_witness :
  let self := Sample.plotter [Sample.cluster_mag6] in
  open_clusters self Sample.untyped [] [("mag", AFloat 5)]
  = dsos self (mkDsosArgs 5 [OPEN_CLUSTER] true (DSO_LABELS_DEFAULT self)
                 (Some (DSO_LEGEND_LABELS self)) None None None).
Proof.
  intros self.
  destruct (wrappers_forward_keywords self Sample.untyped [("mag", AFloat 5)])
    as [_ Hbound].
  destruct (Hbound [("mag", AFloat 5)]
              (mkDsosArgs 5 (DEFAULT_DSO_TYPES self) true (DSO_LABELS_DEFAULT self)
                 (Some (DSO_LEGEND_LABELS self)) None None None)
              eq_refl eq_refl eq_refl) as [_ [Hopen _]].
  exact Hopen.
Defined.

(** A value that is not of the annotated type is bound like any other: no
    [TypeError] comes from the call, and the body runs on it. *)
Example other_type_reaches_body (self : Collaborators)
    (untyped : Kwargs -> M unit) :
  call_dsos self untyped [] [("true_size", ANone)]
  = untyped [("true_size", ANone)].
Proof. reflexivity. Qed.

(** A keyword [types] given to a wrapper collides with the preset. *)
Example wrapper_types_twice :
  let self := Sample.plotter [Sample.cluster_mag6] in
  open_clusters self Sample.untyped [] [("types", ATypes [GALAXY])] Sample.plot0
  = (Raise (TypeError "multiple values for argument"), Sample.plot0).
Proof. vm_compute. reflexivity. Qed.

(* ===================================================================== *)
(** * What a run draws and accumulates *)
(* ===================================================================== *)

Lemma bind_cases {A B} (m : M A) (k : A -> M B) (p : Plot) :
  (exists a p', m p = (Ok a, p') /\ bind m k p = k a p')
  \/ (exists e p', m p = (Raise e, p') /\ bind m k p = (Raise e, p')).
Proof.
  unfold bind. destruct (m p) as [[a | e] p'].
  - left. exists a, p'. split; reflexivity.
  - right. exists e, p'. split; reflexivity.
Qed.

Lemma preserves_for_each_in (R : Plot -> Plot -> Prop) {A} (f : A -> M unit)
    (l : list A) :
  (forall p, R p p) ->
  (forall p q r, R p q -> R q r -> R p r) ->
  (forall x, In x l -> preserves R (f x)) ->
  preserves R (for_each f l).
Proof.
  intros Hrefl Htrans. induction l as [ | x l IH]; intros Hf; simpl.
  - apply preserves_ret. exact Hrefl.
  - apply preserves_bind; [ exact Htrans | apply Hf; left; reflexivity | intros _ ].
    apply IH. intros y Hy. apply Hf. right. exact Hy.
Qed.

Lemma iteration_call_weaken (self : Collaborators) (true_size : bool)
    (label resolved legend_label : option string) (d : Row) (ra dec : float)
    (c : Call) :
  label = resolved \/ label = None ->
  iteration_call self true_size label legend_label d ra dec c ->
  iteration_call self true_size resolved legend_label d ra dec c.
Proof.
  intros Hl Hc. destruct Hc as [coords style Ht Hcl | w h ang style Ht
    | w h ang style Ht | text style Ht Htext | l style Hm Hlab | style].
  - apply ic_polygon; assumption.
  - apply ic_rectangle; assumption.
  - apply ic_ellipse; assumption.
  - apply ic_text; [ assumption | ].
    destruct Hl as [<- | ->]; [ exact Htext | discriminate ].
  - apply ic_marker; [ assumption | ].
    destruct Hlab as [-> | ->]; [ exact Hl | right; reflexivity ].
  - apply ic_legend.
Qed.

Section Trace.
Variable good_call : Call -> Prop.
Variable good_object : DSO.t -> Prop.

Lemma extends_refl (p : Plot) : extends good_call good_object p p.
Proof.
  exists [], []. repeat split; try constructor; now rewrite app_nil_r.
Qed.

Lemma extends_trans (p q r : Plot) :
  extends good_call good_object p q -> extends good_call good_object q r ->
  extends good_call good_object p r.
Proof.
  intros (c1 & o1 & Ec1 & Eo1 & Fc1 & Fo1) (c2 & o2 & Ec2 & Eo2 & Fc2 & Fo2).
  exists (c1 ++ c2)%list, (o1 ++ o2)%list. repeat split.
  - rewrite Ec2, Ec1, app_assoc. reflexivity.
  - rewrite Eo2, Eo1, app_assoc. reflexivity.
  - apply Forall_app. split; assumption.
  - apply Forall_app. split; assumption.
Qed.

Lemma extends_call (c : Call) :
  good_call c -> preserves (extends good_call good_object) (call c).
Proof.
  intros Hc p. exists [c], []. simpl. repeat split.
  - now rewrite app_nil_r.
  - constructor; [ exact Hc | constructor ].
  - constructor.
Qed.

Lemma extends_append (o : DSO.t) :
  good_object o -> preserves (extends good_call good_object) (objects_dsos_append o).
Proof.
  intros Ho p. exists [], [o]. simpl. repeat split.
  - now rewrite app_nil_r.
  - constructor.
  - constructor; [ exact Ho | constructor ].
Qed.

Lemma extends_write (t : DsoType) (s : ObjectStyle) :
  preserves (extends good_call good_object) (write_style t s).
Proof.
  intros p. exists [], []. simpl. repeat split; try constructor; now rewrite app_nil_r.
Qed.

Lemma trace_plot_dso_polygon (polygon : Coords) (style : ObjectStyle) :
  (forall coords, closed_ring coords ->
     good_call (CallPolygon coords (to_polygon_style (marker style)) false)) ->
  preserves (extends good_call good_object) (_plot_dso_polygon polygon style).
Proof.
  intros Hg. unfold _plot_dso_polygon.
  apply preserves_bind_lift; [ exact extends_refl | intros c1 H1 ].
  apply preserves_bind_lift; [ exact extends_refl | intros c2 H2 ].
  apply extends_call. apply Hg. exact (closed_after_two_appends _ _ _ H1 H2).
Qed.

Lemma trace_draw_dso (self : Collaborators) (true_size : bool)
    (legend_label : option string) (d : Row) (ra dec : float)
    (style : ObjectStyle) (label : option string) :
  (forall c, iteration_call self true_size label legend_label d ra dec c ->
             good_call c) ->
  preserves (extends good_call good_object) (draw_dso self true_size d ra dec style label).
Proof.
  intros Hg. unfold draw_dso.
  destruct (true_size && is_some (size_deg2 d)) eqn:Hts.
  - apply andb_prop in Hts. destruct Hts as [Hts _].
    apply preserves_bind; [ exact extends_trans | | intros _ ].
    + destruct (geometry d) as [g | ];
        [ | apply preserves_raise; exact extends_refl ].
      destruct g;
        try (unfold plot_extent;
             destruct (MajAx d) as [maj | ];
               [ | apply preserves_ret; exact extends_refl ];
             destruct (truthy maj); [ | apply preserves_ret; exact extends_refl ];
             destruct (is_square (symbol (marker style)));
               apply extends_call; apply Hg;
               [ apply ic_rectangle | apply ic_ellipse ]; exact Hts).
      * apply trace_plot_dso_polygon. intros coords Hc. apply Hg.
        apply ic_polygon; assumption.
      * apply preserves_for_each; [ exact extends_refl | exact extends_trans | ].
        intros polygon. apply trace_plot_dso_polygon. intros coords Hc. apply Hg.
        apply ic_polygon; assumption.
    + unfold label_text. destruct label as [text | ];
        [ | apply preserves_ret; exact extends_refl ].
      destruct (truthy_str (Some text));
        [ | apply preserves_ret; exact extends_refl ].
      apply extends_call. apply Hg. apply ic_text; [ exact Hts | reflexivity ].
  - apply extends_call. apply Hg. apply ic_marker; [ | left; reflexivity ].
    apply andb_false_iff in Hts. destruct Hts as [Hts | Hsz]; [ left; exact Hts | ].
    right. destruct (size_deg2 d); [ discriminate | reflexivity ].
Qed.

Lemma trace_plot_selected (self : Collaborators) (true_size : bool)
    (label legend_label : option string) (alpha_fn : option (DSO.t -> Res float))
    (where_labels : list Expression) (d : Row) (ra dec : float)
    (dso_type : DsoType) (style : ObjectStyle) (_dso : DSO.t) :
  (forall c, iteration_call self true_size label legend_label d ra dec c ->
             good_call c) ->
  good_object _dso ->
  preserves (extends good_call good_object)
    (plot_selected self true_size label legend_label alpha_fn where_labels
       d ra dec dso_type style _dso).
Proof.
  intros Hg Ho. unfold plot_selected.
  apply preserves_bind_lift; [ exact extends_refl | intros a _ ].
  apply preserves_bind; [ exact extends_trans | apply extends_write | intros _ ].
  assert (Hlabel : forall l, l = label \/ l = None ->
            preserves (extends good_call good_object)
              (draw_dso self true_size d ra dec (set_marker_alpha style a) l ;;
               objects_dsos_append _dso ;;
               call (CallAddLegendHandleMarker legend_label
                       (marker (set_marker_alpha style a))))).
  { intros l Hl.
    apply preserves_bind; [ exact extends_trans | | intros _ ].
    - apply trace_draw_dso with (legend_label := legend_label).
      intros c Hc. apply Hg. exact (iteration_call_weaken _ _ _ _ _ _ _ _ _ Hl Hc).
    - apply preserves_bind; [ exact extends_trans | apply extends_append; exact Ho
                            | intros _ ].
      apply extends_call. apply Hg. apply ic_legend. }
  destruct (negb (is_empty where_labels)).
  - intros p. unfold bind at 1. unfold bind at 1. unfold lift at 1.
    destruct (evaluate_all where_labels _dso) as [shown | e].
    + unfold ret at 1. apply Hlabel.
      destruct (negb (py_all shown)); [ right | left ]; reflexivity.
    + apply extends_refl.
  - intros p. unfold bind at 1. unfold ret at 1. apply Hlabel. left. reflexivity.
Qed.

Lemma trace_plot_dso (self : Collaborators) (true_size : bool) (labels : Labels)
    (legend_labels : DsoType -> option string)
    (alpha_fn : option (DSO.t -> Res float))
    (where_ where_labels : list Expression) (d : Row) (ra dec : float) :
  (forall t c, ONGC_TYPE_MAP self (Type_ d) = Some t ->
     iteration_call self true_size (labels_get labels (Name d)) (legend_labels t)
       d ra dec c ->
     good_call c) ->
  (forall t selected, ONGC_TYPE_MAP self (Type_ d) = Some t ->
     evaluate_all where_ (make_dso d ra dec t) = Ok selected ->
     py_all selected = true ->
     in_bounds self (ra / 15)%float dec = true ->
     good_object (make_dso d ra dec t)) ->
  preserves (extends good_call good_object)
    (plot_dso self true_size labels legend_labels alpha_fn where_ where_labels
       d ra dec).
Proof.
  intros Hg Ho. unfold plot_dso.
  apply preserves_bind_lift; [ exact extends_refl | intros t Ht ].
  assert (Ht' : ONGC_TYPE_MAP self (Type_ d) = Some t).
  { unfold subscript in Ht. destruct (ONGC_TYPE_MAP self (Type_ d)); congruence. }
  apply preserves_bind;
    [ exact extends_trans | apply preserves_get_dso_style; exact extends_refl
    | intros style ].
  apply preserves_bind_lift; [ exact extends_refl | intros selected Hsel ].
  destruct (py_any _) eqn:Hskip; [ apply preserves_ret; exact extends_refl | ].
  destruct style as [style | ]; [ | apply preserves_raise; exact extends_refl ].
  simpl in Hskip.
  destruct (py_all selected) eqn:Hall; [ | discriminate ].
  destruct (in_bounds self (ra / 15)%float dec) eqn:Hin; [ | discriminate ].
  apply trace_plot_selected.
  - intros c Hc. exact (Hg t c Ht' Hc).
  - exact (Ho t selected Ht' Hsel Hall eq_refl).
Qed.
End Trace.

(** Every call a run makes, and every object it accumulates, whether it
    returns or raises, comes from the iteration of one of its candidate rows. *)
Lemma dsos_trace (self : Collaborators) (a : DsosArgs) (p : Plot) :
  extends
    (run_call self (true_size a) (resolve_labels (labels a))
       (resolve_legend_labels self (legend_labels a)) (run_candidates self a))
    (run_object self (resolve_where (where_ a) (mag a)) (run_candidates self a))
    p (snd (dsos self a p)).
Proof.
  unfold dsos, dsos_selected, run_candidates, dso_codes.
  fold (resolve_legend_labels self (legend_labels a)).
  destruct (res_list_map (subscript (ONGC_TYPE self) DsoType_repr) (types a))
    as [codes | e]; [ | apply extends_refl ].
  unfold bind at 1. unfold lift at 1.
  apply preserves_for_each_in; [ apply extends_refl | apply extends_trans | ].
  intros [[d ra] dec] Hin. apply trace_plot_dso.
  - intros t c Ht Hc. exists d, ra, dec, t. repeat split; assumption.
  - intros t selected Ht Hsel Hall Hb.
    exists d, ra, dec, t, selected. repeat split; assumption.
Qed.

(** X1.  With [labels=None] no object gets a label: a run makes no text call,
    and every marker call it makes carries the label [None]. *)
Theorem labels_none_draws_no_label (self : Collaborators) (a : DsosArgs) (p : Plot) :
  labels a = LabelsNone ->
  exists new,
    calls (snd (dsos self a p)) = (calls p ++ new)%list /\ Forall unlabelled new.
Proof.
  intros Hl.
  destruct (dsos_trace self a p) as (new & _ & Hc & _ & Hnew & _).
  exists new. split; [ exact Hc | ].
  apply (Forall_impl _ (P := run_call self (true_size a) (resolve_labels (labels a))
                               (resolve_legend_labels self (legend_labels a))
                               (run_candidates self a))); [ | exact Hnew ].
  intros c (d & ra & dec & t & _ & _ & Hit). rewrite Hl in Hit. simpl in Hit.
  inversion Hit; subst; simpl; try exact I.
  - discriminate.
  - match goal with H : _ = None \/ _ = None |- _ => destruct H; assumption end.
Qed.

Lemma labels_none_draws_no_label_witness :
  let self := Sample.plotter [Sample.sized_no_axis; Sample.cluster_mag6] in
  let a := mkDsosArgs 8 [OPEN_CLUSTER] true LabelsNone None None None None in
  exists new,
    calls (snd (dsos self a Sample.plot0)) = (calls Sample.plot0 ++ new)%list
    /\ Forall unlabelled new.
Proof.
  intros self a. apply (labels_none_draws_no_label self a Sample.plot0). reflexivity.
Defined.

(** X2.  With [true_size=False] a run draws nothing but markers: every call
    it makes is a marker call or the registration of a legend handle. *)
Theorem true_size_off_draws_markers (self : Collaborators) (a : DsosArgs) (p : Plot) :
  true_size a = false ->
  exists new,
    calls (snd (dsos self a p)) = (calls p ++ new)%list
    /\ Forall marker_or_legend new.
Proof.
  intros Hts.
  destruct (dsos_trace self a p) as (new & _ & Hc & _ & Hnew & _).
  exists new. split; [ exact Hc | ].
  apply (Forall_impl _ (P := run_call self (true_size a) (resolve_labels (labels a))
                               (resolve_legend_labels self (legend_labels a))
                               (run_candidates self a))); [ | exact Hnew ].
  intros c (d & ra & dec & t & _ & _ & Hit). rewrite Hts in Hit.
  inversion Hit; subst; simpl; try exact I; discriminate.
Qed.

Lemma true_size_off_draws_markers_witness :
  let self := Sample.plotter [Sample.axis10; Sample.outlined] in
  let a := mkDsosArgs 8 [OPEN_CLUSTER; GALAXY] false LabelsNone None None None None in
  exists new,
    calls (snd (dsos self a Sample.plot0)) = (calls Sample.plot0 ++ new)%list
    /\ Forall marker_or_legend new.
Proof.
  intros self a. apply (true_size_off_draws_markers self a Sample.plot0). reflexivity.
Defined.

(** The rows the mask keeps have a position made of two numbers and a code
    among the requested ones. *)
Lemma candidates_spec (codes : list string) (rows : list Row) (d : Row)
    (ra dec : float) :
  In (d, ra, dec) (candidates codes (map replace_nan rows)) ->
  exists row,
    In row rows /\ d = replace_nan row
    /\ ra_degrees row = Some ra /\ is_nan ra = false
    /\ dec_degrees row = Some dec /\ is_nan dec = false
    /\ In (Type_ row) codes.
Proof.
  unfold candidates. intros Hin. apply in_flat_map in Hin.
  destruct Hin as (d' & Hd' & Hc). apply in_map_iff in Hd'.
  destruct Hd' as (row & <- & Hrow).
  exists row. simpl in Hc.
  destruct (ra_degrees row) as [x | ]; simpl in Hc; [ | contradiction ].
  destruct (is_nan x) eqn:Hx; [ contradiction | ].
  destruct (dec_degrees row) as [y | ]; simpl in Hc; [ | contradiction ].
  destruct (is_nan y) eqn:Hy; [ contradiction | ].
  destruct (existsb (String.eqb (Type_ row)) codes) eqn:Hcode; [ | contradiction ].
  destruct Hc as [Hc | []]. injection Hc as <- <- <-.
  apply existsb_exists in Hcode. destruct Hcode as (code & Hcode & Heq).
  apply String.eqb_eq in Heq. subst code.
  repeat split; assumption.
Qed.

(** The codes looked up for the requested types. *)
Lemma dso_codes_spec (self : Collaborators) (types : list DsoType) (code : string) :
  In code (dso_codes self types) ->
  exists t, In t types /\ ONGC_TYPE self t = Some code.
Proof.
  unfold dso_codes.
  assert (H : forall codes,
             res_list_map (subscript (ONGC_TYPE self) DsoType_repr) types = Ok codes ->
             In code codes -> exists t, In t types /\ ONGC_TYPE self t = Some code).
  { induction types as [ | t types IH]; intros codes Hmap Hin; simpl in Hmap.
    - injection Hmap as <-. contradiction.
    - unfold subscript at 1 in Hmap.
      destruct (ONGC_TYPE self t) as [c | ] eqn:Hc; [ | discriminate ].
      simpl in Hmap.
      destruct (res_list_map (subscript (ONGC_TYPE self) DsoType_repr) types)
        as [cs | e]; [ | discriminate ].
      simpl in Hmap. injection Hmap as <-.
      destruct Hin as [<- | Hin].
      + exists t. split; [ left; reflexivity | exact Hc ].
      + destruct (IH cs eq_refl Hin) as (t' & Ht' & Hc').
        exists t'. split; [ right; exact Ht' | exact Hc' ]. }
  destruct (res_list_map (subscript (ONGC_TYPE self) DsoType_repr) types)
    as [codes | e]; [ | contradiction ].
  apply H. reflexivity.
Qed.

(** An object of a run, traced back to the catalog row it is built from. *)
Lemma run_object_from_row (self : Collaborators) (a : DsosArgs) (o : DSO.t) :
  run_object self (resolve_where (where_ a) (mag a)) (run_candidates self a) o ->
  from_requested_row self (types a) o.
Proof.
  intros (d & ra & dec & t & selected & Hin & Ht & -> & _).
  unfold run_candidates in Hin.
  destruct (candidates_spec _ _ _ _ _ Hin)
    as (row & Hrow & -> & Hra & Hnra & Hdec & Hndec & Hcode).
  destruct (dso_codes_spec self (types a) (Type_ row) Hcode) as (t0 & Ht0 & Hc0).
  exists row, ra, dec, t0. simpl in Ht. simpl.
  repeat split; assumption.
Qed.

(** X3.  Every object a run accumulates, whether the run returns or raises,
    is built from a row of the catalog read whose right ascension and
    declination are numbers (neither missing nor NaN) and whose type code is
    the OpenNGC code of one of the requested [types]; its name, declination
    and right ascension (in hours, degrees / 15) are those of the row. *)
Theorem plotted_objects_provenance (self : Collaborators) (a : DsosArgs) (p : Plot) :
  exists new,
    objects_dsos (snd (dsos self a p)) = (objects_dsos p ++ new)%list
    /\ Forall (from_requested_row self (types a)) new.
Proof.
  destruct (dsos_trace self a p) as (_ & new & _ & Ho & _ & Hnew).
  exists new. split; [ exact Ho | ].
  apply (Forall_impl _ (P := run_object self (resolve_where (where_ a) (mag a))
                               (run_candidates self a))); [ | exact Hnew ].
  intros o Hrun. apply run_object_from_row. exact Hrun.
Qed.

(** X4.  When [ONGC_TYPE_MAP] maps the code of every requested type back to
    that type, every object a run accumulates has one of the requested
    [types]. *)
Theorem plotted_objects_have_requested_types (self : Collaborators) (a : DsosArgs)
    (p : Plot) :
  (forall t code, In t (types a) -> ONGC_TYPE self t = Some code ->
                  ONGC_TYPE_MAP self code = Some t) ->
  exists new,
    objects_dsos (snd (dsos self a p)) = (objects_dsos p ++ new)%list
    /\ Forall (fun o => In (DSO.type o) (types a)) new.
Proof.
  intros Hinv.
  destruct (dsos_trace self a p) as (_ & new & _ & Ho & _ & Hnew).
  exists new. split; [ exact Ho | ].
  apply (Forall_impl _ (P := run_object self (resolve_where (where_ a) (mag a))
                               (run_candidates self a))); [ | exact Hnew ].
  intros o Hrun. apply run_object_from_row in Hrun.
  destruct Hrun as (row & ra & dec & t & _ & _ & _ & _ & _ & Ht & Hcode & Hmap & _).
  rewrite (Hinv t (Type_ row) Ht Hcode) in Hmap. injection Hmap as <-. exact Ht.
Qed.

Lemma plotted_objects_have_requested_types_witness :
  let self := Sample.plotter [Sample.cluster_mag6; Sample.outlined; Sample.unstyled] in
  let a := mkDsosArgs 8 [OPEN_CLUSTER; GALAXY] true LabelsNone None None None None in
  exists new,
    objects_dsos (snd (dsos self a Sample.plot0))
    = (objects_dsos Sample.plot0 ++ new)%list
    /\ Forall (fun o => In (DSO.type o) (types a)) new.
Proof.
  intros self a. apply (plotted_objects_have_requested_types self a Sample.plot0).
  intros t code [<- | [<- | []]] Hcode; simpl in Hcode; injection Hcode as <-;
    reflexivity.
Defined.

(* ===================================================================== *)
(** * Which objects a run accumulates, and what it does to the registry *)
(* ===================================================================== *)

Lemma objects_kept_refl (p : Plot) : objects_kept p p.
Proof. reflexivity. Qed.

Lemma objects_kept_trans (p q r : Plot) :
  objects_kept p q -> objects_kept q r -> objects_kept p r.
Proof. unfold objects_kept. congruence. Qed.

(** The registry after the rest of the loop body: the style of the object's
    type with the resolved alpha, or the registry as it was when [alpha_fn]
    raised. *)
Lemma plot_selected_registry (self : Collaborators) (true_size : bool)
    (label legend_label : option string) (alpha_fn : option (DSO.t -> Res float))
    (where_labels : list Expression) (d : Row) (ra dec : float)
    (t : DsoType) (style : ObjectStyle) (_dso : DSO.t) (p : Plot) :
  styles (snd (plot_selected self true_size label legend_label alpha_fn where_labels
                 d ra dec t style _dso p))
  = match (match alpha_fn with
           | Some f => f _dso
           | None => Ok (alpha (marker style))
           end) with
    | Ok a => registry_update (styles p) t (set_marker_alpha style a)
    | Raise _ => styles p
    end.
Proof.
  unfold plot_selected.
  destruct (match alpha_fn with
            | Some f => f _dso
            | None => Ok (alpha (marker style))
            end) as [a | e]; [ | reflexivity ].
  unfold bind at 1. unfold lift at 1.
  unfold bind at 1. unfold write_style at 1.
  match goal with |- styles (snd (?rest ?q)) = _ =>
    assert (K : preserves styles_kept rest); [ | exact (K q) ]
  end.
  apply preserves_bind; [ exact styles_kept_trans | | ].
  - destruct (negb (is_empty where_labels));
      [ | apply preserves_ret; exact styles_kept_refl ].
    apply preserves_bind_lift; [ exact styles_kept_refl | ].
    intros shown _. apply preserves_ret. exact styles_kept_refl.
  - intros label'.
    apply preserves_bind; [ exact styles_kept_trans | | intros _ ].
    + apply preserves_draw_dso;
        [ exact styles_kept_refl | exact styles_kept_trans | ].
      intros c _ q. reflexivity.
    + apply preserves_bind; [ exact styles_kept_trans | | intros _ ].
      * intros q. reflexivity.
      * intros q. reflexivity.
Qed.

Lemma raises_keep_bind {A B} (m : M A) (k : A -> M B) :
  preserves objects_kept m -> (forall a, raises_keep (k a)) -> raises_keep (bind m k).
Proof.
  intros Hm Hk p e. unfold bind. specialize (Hm p).
  destruct (m p) as [[a | e'] p']; simpl in Hm; unfold objects_kept in Hm.
  - intros Hr. rewrite (Hk a p' e Hr). exact Hm.
  - intros _. exact Hm.
Qed.

(** The rest of the loop body either returns, having accumulated the object,
    or raises, having accumulated nothing. *)
Lemma plot_selected_objects (self : Collaborators) (true_size : bool)
    (label legend_label : option string) (alpha_fn : option (DSO.t -> Res float))
    (where_labels : list Expression) (d : Row) (ra dec : float)
    (t : DsoType) (style : ObjectStyle) (_dso : DSO.t) (p : Plot) :
  let r := plot_selected self true_size label legend_label alpha_fn where_labels
             d ra dec t style _dso p in
  (fst r = Ok tt /\ objects_dsos (snd r) = (objects_dsos p ++ [_dso])%list)
  \/ (exists e, fst r = Raise e /\ objects_dsos (snd r) = objects_dsos p).
Proof.
  intros r. destruct (fst r) as [[] | e] eqn:Hr.
  - left. split; [ reflexivity | ]. apply plot_selected_appends. exact Hr.
  - right. exists e. split; [ reflexivity | ].
    revert Hr. unfold r. clear r.
    generalize p e. fold (raises_keep (plot_selected self true_size label
      legend_label alpha_fn where_labels d ra dec t style _dso)).
    unfold plot_selected.
    apply raises_keep_bind;
      [ apply preserves_lift; exact objects_kept_refl | intros a ].
    apply raises_keep_bind; [ intros q; reflexivity | intros _ ].
    apply raises_keep_bind.
    + destruct (negb (is_empty where_labels));
        [ | apply preserves_ret; exact objects_kept_refl ].
      apply preserves_bind_lift; [ exact objects_kept_refl | ].
      intros shown _. apply preserves_ret. exact objects_kept_refl.
    + intros l. apply raises_keep_bind.
      * apply preserves_draw_dso;
          [ exact objects_kept_refl | exact objects_kept_trans | ].
        intros c _ q. reflexivity.
      * intros _ q e' Hq. unfold bind, objects_dsos_append, call in Hq.
        simpl in Hq. discriminate.
Qed.

Lemma skip_test (x y z : bool) : py_any [negb x; negb y; negb z] = negb (x && y && z).
Proof. destruct x, y, z; reflexivity. Qed.

(** One iteration: the types that have a style are the same afterwards, and
    the iteration either returns, having accumulated the object it selects
    (if any), or raises, having accumulated nothing. *)
Lemma plot_dso_step (self : Collaborators) (true_size : bool) (labels : Labels)
    (legend_labels : DsoType -> option string)
    (alpha_fn : option (DSO.t -> Res float))
    (where_ where_labels : list Expression) (d : Row) (ra dec : float)
    (styled : DsoType -> bool) (p : Plot) :
  (forall t, is_some (styles p t) = styled t) ->
  let r := plot_dso self true_size labels legend_labels alpha_fn where_ where_labels
             d ra dec p in
  (forall t, is_some (styles (snd r) t) = styled t)
  /\ ((fst r = Ok tt
       /\ objects_dsos (snd r)
          = (objects_dsos p ++ selects self styled where_ (d, ra, dec))%list)
      \/ (exists e, fst r = Raise e /\ objects_dsos (snd r) = objects_dsos p)).
Proof.
  intros Hstyled r. unfold r. clear r. unfold selects.
  destruct (ONGC_TYPE_MAP self (Type_ d)) as [t | ] eqn:Ht.
  - destruct (evaluate_all where_ (make_dso d ra dec t)) as [selected | e] eqn:Hsel.
    + rewrite (plot_dso_run _ _ _ _ _ _ _ _ _ _ t selected p Ht Hsel).
      rewrite skip_test, (Hstyled t).
      destruct (styled t && py_all selected && in_bounds self (ra / 15)%float dec)
        eqn:Hgo; simpl.
      * apply andb_prop in Hgo. destruct Hgo as [Hgo _].
        apply andb_prop in Hgo. destruct Hgo as [Hst _].
        rewrite <- (Hstyled t) in Hst.
        destruct (styles p t) as [style | ] eqn:Hstyle; [ | discriminate ].
        split.
        -- intros t'. rewrite plot_selected_registry.
           destruct (match alpha_fn with
                     | Some f => f (make_dso d ra dec t)
                     | None => Ok (alpha (marker style))
                     end); [ | apply Hstyled ].
           unfold registry_update. destruct (DsoType_eq_dec t t') as [<- | _].
           ++ rewrite <- (Hstyled t), Hstyle. reflexivity.
           ++ apply Hstyled.
        -- apply plot_selected_objects.
      * split; [ exact Hstyled | ]. left. split; [ reflexivity | ].
        simpl. now rewrite app_nil_r.
    + split.
      * unfold plot_dso, subscript. rewrite Ht. unfold bind, lift, get_dso_style.
        rewrite Hsel. exact Hstyled.
      * right. exists e. unfold plot_dso, subscript. rewrite Ht.
        unfold bind, lift, get_dso_style. rewrite Hsel. split; reflexivity.
  - unfold plot_dso, subscript. rewrite Ht. unfold bind, lift. simpl.
    split; [ exact Hstyled | ]. right. eexists. split; reflexivity.
Qed.

Lemma for_each_objects (self : Collaborators) (true_size : bool) (labels : Labels)
    (legend_labels : DsoType -> option string)
    (alpha_fn : option (DSO.t -> Res float))
    (where_ where_labels : list Expression) (styled : DsoType -> bool)
    (cands : list (Row * float * float)) (p : Plot) :
  (forall t, is_some (styles p t) = styled t) ->
  let r := for_each (fun c => let '(d, ra, dec) := c in
                       plot_dso self true_size labels legend_labels alpha_fn
                         where_ where_labels d ra dec) cands p in
  exists done rest,
    objects_dsos (snd r) = (objects_dsos p ++ done)%list
    /\ flat_map (selects self styled where_) cands = (done ++ rest)%list
    /\ (fst r = Ok tt -> rest = []).
Proof.
  revert p. induction cands as [ | [[d ra] dec] cands IH]; intros p Hstyled.
  - exists [], []. simpl. repeat split. now rewrite app_nil_r.
  - cbn [for_each flat_map]. cbv zeta. unfold bind at 1 2.
    destruct (plot_dso_step self true_size labels legend_labels alpha_fn where_
                where_labels d ra dec styled p Hstyled) as [Hst Hobj].
    destruct (plot_dso self true_size labels legend_labels alpha_fn where_
                where_labels d ra dec p) as [[[] | e] p1]; cbn [fst snd] in Hst, Hobj.
    + destruct Hobj as [[_ Hobj] | (e & He & _)]; [ | discriminate ].
      destruct (IH p1 Hst) as (done & rest & Hd & Hf & Hok).
      exists (selects self styled where_ (d, ra, dec) ++ done)%list, rest.
      repeat split.
      * cbn [snd]. rewrite Hd, Hobj, app_assoc. reflexivity.
      * rewrite Hf, app_assoc. reflexivity.
      * exact Hok.
    + destruct Hobj as [[He _] | (e' & _ & Hobj)]; [ discriminate | ].
      exists [], (selects self styled where_ (d, ra, dec)
                  ++ flat_map (selects self styled where_) cands)%list.
      cbn [fst snd app]. repeat split;
        [ rewrite app_nil_r; exact Hobj | discriminate ].
Qed.

(** X5.  A run that returns has accumulated exactly the selected objects:
    the [DSO] of every candidate row, in catalog order, whose type has a
    style, which every [where] predicate accepts and whose position is in
    bounds.  A run that raises has accumulated a prefix of them. *)
Theorem run_accumulates_selected_objects (self : Collaborators) (a : DsosArgs)
    (p : Plot) :
  exists done rest,
    objects_dsos (snd (dsos self a p)) = (objects_dsos p ++ done)%list
    /\ selected_objects self a p = (done ++ rest)%list
    /\ (fst (dsos self a p) = Ok tt -> rest = []).
Proof.
  unfold selected_objects, run_candidates, dso_codes, dsos, dsos_selected.
  destruct (res_list_map (subscript (ONGC_TYPE self) DsoType_repr) (types a))
    as [codes | e].
  - rewrite (bind_lift_ok (Ok codes) _ p codes eq_refl).
    apply for_each_objects. intros t. reflexivity.
  - eexists [], _. simpl. repeat split; [ now rewrite app_nil_r | discriminate ].
Qed.

Example selected_objects_run :
  let self := Sample.plotter [Sample.faint_cluster; Sample.cluster_mag6;
                              Sample.unstyled; Sample.outlined] in
  let a := Sample.default_args self in
  map DSO.name (selected_objects self a Sample.plot0) = ["NGC 2"; "NGC 8"]
  /\ map DSO.name (objects_dsos (snd (dsos self a Sample.plot0))) = ["NGC 2"; "NGC 8"].
Proof. vm_compute. split; reflexivity. Qed.

(* --------------------------------------------------------------------- *)

Lemma registry_kept_refl (p : Plot) : registry_kept p p.
Proof. intros t. reflexivity. Qed.

Lemma registry_kept_trans (p q r : Plot) :
  registry_kept p q -> registry_kept q r -> registry_kept p r.
Proof. intros H1 H2 t. rewrite H2. apply H1. Qed.

Lemma set_marker_alpha_same (style : ObjectStyle) :
  set_marker_alpha style (alpha (marker style)) = style.
Proof. destruct style as [[sym al rest] lab]. reflexivity. Qed.

Lemma plot_dso_keeps_registry (self : Collaborators) (true_size : bool)
    (labels : Labels) (legend_labels : DsoType -> option string)
    (where_ where_labels : list Expression) (d : Row) (ra dec : float) :
  preserves registry_kept
    (plot_dso self true_size labels legend_labels None where_ where_labels d ra dec).
Proof.
  intros p. unfold plot_dso, subscript.
  destruct (ONGC_TYPE_MAP self (Type_ d)) as [t | ];
    [ | apply registry_kept_refl ].
  unfold bind at 1. unfold lift at 1. unfold bind at 1. unfold get_dso_style at 1.
  unfold bind at 1. unfold lift at 1.
  destruct (evaluate_all where_ (make_dso d ra dec t)) as [selected | e];
    [ | apply registry_kept_refl ].
  destruct (py_any _); [ apply registry_kept_refl | ].
  destruct (styles p t) as [style | ] eqn:Hstyle; [ | apply registry_kept_refl ].
  intros t'. rewrite plot_selected_registry, set_marker_alpha_same.
  unfold registry_update. destruct (DsoType_eq_dec t t') as [<- | _];
    [ symmetry; exact Hstyle | reflexivity ].
Qed.

(** X6.  Without [alpha_fn] a run leaves every registered style as it was:
    the alpha written back at line 180 is the one the style already had. *)
Theorem no_alpha_fn_keeps_styles (self : Collaborators) (a : DsosArgs) (p : Plot) :
  alpha_fn a = None ->
  forall t, styles (snd (dsos self a p)) t = styles p t.
Proof.
  intros Hnone. change (registry_kept p (snd (dsos self a p))).
  revert p. change (preserves registry_kept (dsos self a)).
  unfold dsos, dsos_selected. rewrite Hnone.
  apply preserves_bind_lift; [ exact registry_kept_refl | intros codes _ ].
  apply preserves_for_each; [ exact registry_kept_refl | exact registry_kept_trans | ].
  intros [[d ra] dec]. apply plot_dso_keeps_registry.
Qed.

Lemma no_alpha_fn_keeps_styles_witness :
  let self := Sample.plotter [Sample.cluster_mag6; Sample.outlined] in
  styles (snd (dsos self (Sample.default_args self) Sample.plot0)) OPEN_CLUSTER
  = Some Sample.square_style.
Proof.
  intros self.
  exact (no_alpha_fn_keeps_styles self (Sample.default_args self) Sample.plot0
           eq_refl OPEN_CLUSTER).
Defined.

(* ===================================================================== *)
(** * Exceptions of a run *)
(* ===================================================================== *)

Lemma type_lookup_raises (self : Collaborators) (types : list DsoType) (t : DsoType) :
  In t types -> ONGC_TYPE self t = None ->
  exists key,
    res_list_map (subscript (ONGC_TYPE self) DsoType_repr) types = Raise (KeyError key).
Proof.
  induction types as [ | t0 types IH]; intros Hin Hnone; [ contradiction | ].
  simpl. unfold subscript at 1.
  destruct (ONGC_TYPE self t0) as [code | ] eqn:Hcode.
  - destruct Hin as [-> | Hin]; [ congruence | ].
    destruct (IH Hin Hnone) as (key & Hkey). exists key. simpl. rewrite Hkey.
    reflexivity.
  - exists (DsoType_repr t0). reflexivity.
Qed.

(** X7.  Asking for a type that [ONGC_TYPE] has no code for raises a
    [KeyError] at line 140, before the first row is looked at: the plot is
    left as it was. *)
Theorem unknown_type_raises_key_error (self : Collaborators) (a : DsosArgs)
    (t : DsoType) (p : Plot) :
  In t (types a) -> ONGC_TYPE self t = None ->
  exists key, dsos self a p = (Raise (KeyError key), p).
Proof.
  intros Hin Hnone.
  destruct (type_lookup_raises self (types a) t Hin Hnone) as (key & Hkey).
  exists key. unfold dsos, dsos_selected. rewrite Hkey. reflexivity.
Qed.

Lemma unknown_type_raises_key_error_witness :
  let self := Sample.plotter [Sample.cluster_mag6] in
  exists key,
    dsos self (mkDsosArgs 8 [OPEN_CLUSTER; OTHER_TYPE "DARK_NEBULA"] true LabelsNone
                 None None None None) Sample.plot0
    = (Raise (KeyError key), Sample.plot0).
Proof.
  intros self.
  apply (unknown_type_raises_key_error self _ (OTHER_TYPE "DARK_NEBULA") Sample.plot0).
  - right. left. reflexivity.
  - reflexivity.
Defined.

(** X8.  An exception raised by [alpha_fn] is not caught: when it raises on
    an object that is not skipped, the loop stops there with that exception;
    the object is neither drawn nor accumulated, its style is not written and
    no later row is processed. *)
Theorem alpha_fn_exception_propagates (self : Collaborators) (true_size : bool)
    (labels : Labels) (legend_labels : DsoType -> option string)
    (f : DSO.t -> Res float) (where_ where_labels : list Expression)
    (d : Row) (ra dec : float) (t : DsoType) (style : ObjectStyle)
    (selected : list bool) (e : PyErr) (later : list (Row * float * float))
    (p : Plot) :
  ONGC_TYPE_MAP self (Type_ d) = Some t ->
  styles p t = Some style ->
  evaluate_all where_ (make_dso d ra dec t) = Ok selected ->
  py_all selected = true ->
  in_bounds self (ra / 15)%float dec = true ->
  f (make_dso d ra dec t) = Raise e ->
  for_each (fun c => let '(d, ra, dec) := c in
              plot_dso self true_size labels legend_labels (Some f)
                where_ where_labels d ra dec)
    ((d, ra, dec) :: later) p
  = (Raise e, p).
Proof.
  intros Ht Hstyle Hsel Hall Hin Hf.
  cbn [for_each]. unfold bind at 1.
  rewrite (plot_dso_run _ _ _ _ _ _ _ _ _ _ t selected p Ht Hsel).
  rewrite Hstyle, Hall, Hin. cbn [is_some negb py_any existsb orb].
  unfold plot_selected. unfold bind at 1. unfold lift at 1. rewrite Hf.
  reflexivity.
Qed.

Lemma alpha_fn_exception_propagates_witness :
  let self := Sample.plotter [Sample.cluster_mag6; Sample.zero_both] in
  dsos self (mkDsosArgs 8 [OPEN_CLUSTER] true LabelsNone None
               (Some (fun _ => Raise (UserError "no alpha"))) None None) Sample.plot0
  = (Raise (UserError "no alpha"), Sample.plot0).
Proof.
  intros self.
  exact (alpha_fn_exception_propagates self true (PlainDict (fun _ => None))
           (fun _ => None) (fun _ => Raise (UserError "no alpha"))
           (default_where 8) [] (replace_nan Sample.cluster_mag6) 30 10 OPEN_CLUSTER
           Sample.square_style [true] (UserError "no alpha")
           [(replace_nan Sample.zero_both, 30%float, 10%float)] Sample.plot0
           eq_refl eq_refl eq_refl eq_refl eq_refl eq_refl).
Defined.

Lemma bind_keywords_unknown (kwargs bound : Kwargs) (k : string) (v : PyArg) :
  In (k, v) kwargs ->
  existsb (String.eqb k) dsos_params = false ->
  exists msg, bind_keywords bound kwargs = Raise (TypeError msg).
Proof.
  revert bound. induction kwargs as [ | [k0 v0] kwargs IH]; intros bound Hin Hk;
    [ contradiction | ].
  cbn [bind_keywords].
  destruct (negb (existsb (String.eqb k0) dsos_params)) eqn:Hk0;
    [ eexists; reflexivity | ].
  destruct (is_some (kw_lookup k0 bound)); [ eexists; reflexivity | ].
  destruct Hin as [Heq | Hin].
  - injection Heq as -> ->. rewrite Hk in Hk0. discriminate.
  - apply IH; assumption.
Qed.

(** X9.  [dsos()] declares eight parameters and no [**kwargs]: a call that
    passes any other keyword (such as [null=True]) is a [TypeError] and the
    body never runs, so the plot is left as it was, whatever the types of
    the values passed.  The same holds for a wrapper, which passes its
    keywords on. *)
Theorem unknown_keyword_is_type_error (self : Collaborators)
    (untyped : Kwargs -> M unit) (args : list PyArg)
    (kwargs : Kwargs) (k : string) (v : PyArg) (p : Plot) :
  In (k, v) kwargs ->
  existsb (String.eqb k) dsos_params = false ->
  (exists msg, call_dsos self untyped args kwargs p = (Raise (TypeError msg), p))
  /\ (exists msg,
        open_clusters self untyped args kwargs p = (Raise (TypeError msg), p)).
Proof.
  intros Hin Hk.
  assert (H : forall args' kwargs', In (k, v) kwargs' ->
            exists msg,
              call_dsos self untyped args' kwargs' p = (Raise (TypeError msg), p)).
  { intros args' kwargs' Hin'. unfold call_dsos, bind_arguments.
    destruct (bind_positional dsos_params args') as [bound | e] eqn:Hpos.
    - destruct (bind_keywords_unknown kwargs' bound k v Hin' Hk) as (msg & Hmsg).
      exists msg. unfold bind, lift. cbn [res_bind]. rewrite Hmsg. reflexivity.
    - assert (He : exists msg, e = TypeError msg).
      { clear - Hpos. revert e Hpos. generalize dsos_params.
        induction args' as [ | x args' IH]; intros params e Hpos;
          destruct params as [ | q params]; simpl in Hpos; try discriminate;
          [ injection Hpos as <-; eexists; reflexivity | ].
        destruct (bind_positional params args') as [b | e'] eqn:Hb;
          [ discriminate | ].
        simpl in Hpos. injection Hpos as <-. exact (IH params e' Hb). }
      destruct He as (msg & ->). exists msg. reflexivity. }
  split.
  - apply H. exact Hin.
  - unfold open_clusters. apply H. right. exact Hin.
Qed.

Lemma unknown_keyword_is_type_error_witness :
  let self := Sample.plotter [Sample.cluster_mag6] in
  exists msg,
    call_dsos self Sample.untyped []
      [("mag", AFloat 8); ("null", ABool true); ("labels", ANone)] Sample.plot0
    = (Raise (TypeError msg), Sample.plot0).
Proof.
  intros self.
  destruct (unknown_keyword_is_type_error self Sample.untyped []
              [("mag", AFloat 8); ("null", ABool true); ("labels", ANone)]
              "null" (ABool true) Sample.plot0) as [Hcall _].
  - right. left. reflexivity.
  - reflexivity.
  - exact Hcall.
Defined.

(* ===================================================================== *)
(** * [merge_dict] *)
(* ===================================================================== *)

Section MergeDict.
Import StyleHelpers.
Context {Other : Type}.
Implicit Types (d : Items Other) (v : Obj Other).

Lemma merge_dict_cons d1 (k : string) v2 d2 :
  merge_dict d1 ((k, v2) :: d2)
  = merge_dict (setitem k (merged_value (getitem k d1) v2) d1) d2.
Proof.
  simp merge_dict. unfold merged_value.
  destruct (getitem k d1) as [[ | x | s1] | ]; destruct v2 as [ | y | s2];
    simp merge_dict; reflexivity.
Qed.

Lemma getitem_setitem_same (k : string) v d :
  getitem k (setitem k v d) = Some v.
Proof.
  induction d as [ | [k' v'] d IH]; simpl.
  - rewrite String.eqb_refl. reflexivity.
  - destruct (k =? k')%string eqn:E; simpl; rewrite E; [ reflexivity | exact IH ].
Qed.

Lemma getitem_setitem_other (k k0 : string) v d :
  k <> k0 -> getitem k (setitem k0 v d) = getitem k d.
Proof.
  intros Hne. apply String.eqb_neq in Hne.
  induction d as [ | [k' v'] d IH]; simpl.
  - rewrite Hne. reflexivity.
  - destruct (k0 =? k')%string eqn:E0; simpl.
    + apply String.eqb_eq in E0. subst k'. rewrite Hne. reflexivity.
    + destruct (k =? k')%string; [ reflexivity | exact IH ].
Qed.

Lemma getitem_none_iff (k : string) d :
  getitem k d = None <-> ~ In k (keys d).
Proof.
  induction d as [ | [k' v'] d IH]; simpl.
  - split; [ intros _ [] | reflexivity ].
  - destruct (k =? k')%string eqn:E.
    + apply String.eqb_eq in E. subst k'. split; [ discriminate | ].
      intros H. exfalso. apply H. left. reflexivity.
    + apply String.eqb_neq in E. rewrite IH. split.
      * intros H [Heq | Hin]; [ congruence | contradiction ].
      * intros H Hin. apply H. right. exact Hin.
Qed.

Lemma contains_iff (k : string) d : contains k d = true <-> In k (keys d).
Proof.
  unfold contains. destruct (getitem k d) as [v | ] eqn:E; simpl.
  - split; [ intros _ | reflexivity ].
    destruct (in_dec string_dec k (keys d)) as [Hin | Hnin]; [ exact Hin | ].
    apply getitem_none_iff in Hnin. congruence.
  - split; [ discriminate | ]. intros Hin. apply getitem_none_iff in E. contradiction.
Qed.

(** The value under a key after a merge, from the values before it. *)
Lemma getitem_merge_dict d1 d2 (k : string) :
  NoDup (keys d2) ->
  getitem k (merge_dict d1 d2)
  = match getitem k d2 with
    | Some v2 => Some (merged_value (getitem k d1) v2)
    | None => getitem k d1
    end.
Proof.
  revert d1. induction d2 as [ | [k0 v0] d2 IH]; intros d1 Hnd.
  - simp merge_dict. reflexivity.
  - rewrite merge_dict_cons. inversion Hnd as [ | ? ? Hnotin Hnd' ]; subst.
    rewrite (IH _ Hnd'). simpl.
    destruct (k =? k0)%string eqn:E.
    + apply String.eqb_eq in E. subst k0.
      apply getitem_none_iff in Hnotin. rewrite Hnotin.
      apply getitem_setitem_same.
    + apply String.eqb_neq in E. rewrite (getitem_setitem_other k k0 _ d1 E).
      reflexivity.
Qed.

(** X10.  Looking a key up after [merge_dict(dict_1, dict_2)]: a key that
    [dict_2] does not have keeps the value [dict_1] gave it; a key of
    [dict_2] holds the value of [dict_2], except that two dicts under the
    same key are merged, recursively. *)
Theorem merge_dict_lookup d1 d2 (k : string) :
  NoDup (keys d2) ->
  getitem k (merge_dict d1 d2)
  = match getitem k d2, getitem k d1 with
    | None, old => old
    | Some (Dict sub_2), Some (Dict sub_1) => Some (Dict (merge_dict sub_1 sub_2))
    | Some v2, _ => Some v2
    end.
Proof.
  intros Hnd. rewrite (getitem_merge_dict d1 d2 k Hnd). unfold merged_value.
  destruct (getitem k d2) as [[ | x2 | sub_2] | ];
    destruct (getitem k d1) as [[ | x1 | sub_1] | ]; reflexivity.
Qed.

Lemma keys_setitem (k : string) v d :
  keys (setitem k v d) = if contains k d then keys d else (keys d ++ [k])%list.
Proof.
  unfold contains. induction d as [ | [k' v'] d IH]; simpl; [ reflexivity | ].
  destruct (k =? k')%string eqn:E; simpl; [ reflexivity | ].
  rewrite IH. destruct (getitem k d); reflexivity.
Qed.

Lemma contains_setitem (k k0 : string) v d :
  contains k (setitem k0 v d) = (k =? k0)%string || contains k d.
Proof.
  unfold contains. destruct (k =? k0)%string eqn:E.
  - apply String.eqb_eq in E. subst k0. rewrite getitem_setitem_same. reflexivity.
  - apply String.eqb_neq in E. rewrite getitem_setitem_other by exact E. reflexivity.
Qed.

(** X11.  The keys after a merge: those of [dict_1], in their order, followed
    by the keys of [dict_2] that [dict_1] did not have, in the order of
    [dict_2]. *)
Theorem merge_dict_keys d1 d2 :
  NoDup (keys d2) ->
  keys (merge_dict d1 d2)
  = (keys d1 ++ filter (fun k => negb (contains k d1)) (keys d2))%list.
Proof.
  revert d1. induction d2 as [ | [k0 v0] d2 IH]; intros d1 Hnd.
  - simp merge_dict. simpl. now rewrite app_nil_r.
  - rewrite merge_dict_cons. inversion Hnd as [ | ? ? Hnotin Hnd' ]; subst.
    rewrite (IH _ Hnd'), keys_setitem. simpl.
    assert (Hfilter :
      filter (fun k => negb (contains k (setitem k0 (merged_value (getitem k0 d1) v0) d1)))
        (keys d2)
      = filter (fun k => negb (contains k d1)) (keys d2)).
    { apply filter_ext_in. intros k Hk. rewrite contains_setitem.
      destruct (k =? k0)%string eqn:E; [ | reflexivity ].
      apply String.eqb_eq in E. subst k0. contradiction. }
    rewrite Hfilter. destruct (contains k0 d1); simpl; [ reflexivity | ].
    rewrite <- app_assoc. reflexivity.
Qed.
End MergeDict.

Section MergeDictDeep.
Import StyleHelpers.
Context {Other : Type}.
Implicit Types (d : Items Other) (v : Obj Other).

(** Induction on a value, with the property available for every value of a
    dict. *)
Lemma Obj_nested_ind (P : Obj Other -> Prop) :
  P PyNone ->
  (forall x, P (Atom x)) ->
  (forall items, Forall (fun kv => P (snd kv)) items -> P (Dict items)) ->
  forall v, P v.
Proof.
  intros Hnone Hatom Hdict.
  fix IH 1. intros [ | x | items].
  - exact Hnone.
  - apply Hatom.
  - apply Hdict. induction items as [ | [k v] items IHitems]; constructor.
    + apply IH.
    + exact IHitems.
Qed.

Lemma well_formed_getitem (k : string) d v :
  Forall (fun kv => well_formed (snd kv)) d -> getitem k d = Some v -> well_formed v.
Proof.
  induction d as [ | [k' v'] d IH]; simpl; intros Hall Hget; [ discriminate | ].
  inversion Hall as [ | ? ? Hv Hall' ]; subst.
  destruct (k =? k')%string; [ injection Hget as <-; exact Hv | exact (IH Hall' Hget) ].
Qed.

Lemma NoDup_snoc {A} (l : list A) (x : A) :
  NoDup l -> ~ In x l -> NoDup (l ++ [x]).
Proof.
  induction l as [ | y l IH]; simpl; intros Hnd Hnin.
  - constructor; [ intros [] | constructor ].
  - inversion Hnd as [ | ? ? Hy Hl ]; subst. constructor.
    + intros Hin. apply in_app_or in Hin. destruct Hin as [Hin | [Heq | []]].
      * contradiction.
      * apply Hnin. left. symmetry. exact Heq.
    + apply IH; [ exact Hl | ]. intros Hin. apply Hnin. right. exact Hin.
Qed.

Lemma well_formed_setitem (k : string) v d :
  well_formed v -> well_formed (Dict d) -> well_formed (Dict (setitem k v d)).
Proof.
  intros Hv Hd. inversion Hd as [ | | ? Hnd Hall ]; subst. constructor.
  - rewrite keys_setitem. destruct (contains k d) eqn:E; [ exact Hnd | ].
    apply NoDup_snoc; [ exact Hnd | ].
    intros Hin. apply contains_iff in Hin. congruence.
  - clear Hnd Hd. induction d as [ | [k' v'] d IH]; simpl.
    + constructor; [ exact Hv | constructor ].
    + inversion Hall as [ | ? ? Hv' Hall' ]; subst.
      destruct (k =? k')%string; constructor;
        [ exact Hv | exact Hall' | exact Hv' | exact (IH Hall') ].
Qed.

(** X12.  Merging keeps dicts well formed: when the keys of [dict_1] and of
    [dict_2] are unique at every depth, so are those of the result. *)
Theorem merge_dict_well_formed d1 d2 :
  well_formed (Dict d1) -> well_formed (Dict d2) ->
  well_formed (Dict (merge_dict d1 d2)).
Proof.
  funelim (merge_dict d1 d2); intros H1 H2; [ exact H1 | .. ];
    inversion H2 as [ | | ? Hnd Hall ]; subst;
    inversion Hnd; subst; inversion Hall; subst;
    (match goal with
     | IH : _ -> _ -> well_formed (Dict (merge_dict ?a ?b))
       |- well_formed (Dict (merge_dict ?a ?b)) => apply IH
     end; [ apply well_formed_setitem; [ | assumption ] | constructor; assumption ]);
    try assumption.
  match goal with
  | IH : _ -> _ -> well_formed (Dict (merge_dict ?a ?b))
    |- well_formed (Dict (merge_dict ?a ?b)) => apply IH
  end; [ | assumption ].
  inversion H1; subst. eapply well_formed_getitem; eassumption.
Qed.
End MergeDictDeep.

Section MergeDictTwice.
Import StyleHelpers.
Context {Other : Type}.
Implicit Types (d : Items Other) (v : Obj Other).

Lemma setitem_same (k : string) v d : getitem k d = Some v -> setitem k v d = d.
Proof.
  induction d as [ | [k' v'] d IH]; simpl; [ discriminate | ].
  destruct (k =? k')%string.
  - intros H. injection H as <-. reflexivity.
  - intros H. rewrite (IH H). reflexivity.
Qed.

Lemma getitem_in (k : string) v d :
  NoDup (keys d) -> In (k, v) d -> getitem k d = Some v.
Proof.
  induction d as [ | [k' v'] d IH]; simpl; intros Hnd Hin; [ contradiction | ].
  inversion Hnd as [ | ? ? Hk' Hnd' ]; subst.
  destruct Hin as [Heq | Hin].
  - injection Heq as -> ->. rewrite String.eqb_refl. reflexivity.
  - destruct (k =? k')%string eqn:E; [ | exact (IH Hnd' Hin) ].
    apply String.eqb_eq in E. subst k'. exfalso. apply Hk'.
    change k with (fst (k, v)). apply in_map. exact Hin.
Qed.

(** Merging into a dict what it already holds changes nothing. *)
Lemma merge_dict_absorbs d d2 :
  (forall k v2, In (k, v2) d2 ->
     exists v1, getitem k d = Some v1 /\ merged_value (Some v1) v2 = v1) ->
  merge_dict d d2 = d.
Proof.
  induction d2 as [ | [k v2] d2 IH]; intros Hheld.
  - simp merge_dict. reflexivity.
  - rewrite merge_dict_cons.
    destruct (Hheld k v2 (or_introl eq_refl)) as (v1 & Hget & Hmerged).
    rewrite Hget, Hmerged, (setitem_same k v1 d Hget).
    apply IH. intros k' v' Hin. apply Hheld. right. exact Hin.
Qed.

Lemma merge_dict_self v :
  well_formed v -> match v with Dict s => merge_dict s s = s | _ => True end.
Proof.
  induction v as [ | x | items IH] using Obj_nested_ind; intros Hwf; try exact I.
  inversion Hwf as [ | | ? Hnd Hall ]; subst.
  apply merge_dict_absorbs. intros k v2 Hin.
  exists v2. split; [ exact (getitem_in k v2 items Hnd Hin) | ].
  rewrite Forall_forall in IH, Hall.
  specialize (IH (k, v2) Hin (Hall (k, v2) Hin)). simpl in IH.
  destruct v2 as [ | x | s]; simpl; [ reflexivity | reflexivity | ].
  rewrite IH. reflexivity.
Qed.

Lemma merge_dict_twice_value v2 :
  well_formed v2 ->
  match v2 with
  | Dict s2 => forall d1, merge_dict (merge_dict d1 s2) s2 = merge_dict d1 s2
  | _ => True
  end.
Proof.
  induction v2 as [ | x | items IH] using Obj_nested_ind; intros Hwf; try exact I.
  inversion Hwf as [ | | ? Hnd Hall ]; subst. intros d1.
  apply merge_dict_absorbs. intros k v2 Hin.
  rewrite (getitem_merge_dict d1 items k Hnd), (getitem_in k v2 items Hnd Hin).
  eexists. split; [ reflexivity | ].
  rewrite Forall_forall in IH, Hall.
  pose proof (Hall (k, v2) Hin) as Hwf2. simpl in Hwf2.
  specialize (IH (k, v2) Hin Hwf2). simpl in IH.
  destruct v2 as [ | x | s2]; [ destruct (getitem k d1) as [[] | ]; reflexivity
                              | destruct (getitem k d1) as [[] | ]; reflexivity | ].
  destruct (getitem k d1) as [[ | y | s1] | ]; simpl.
  - pose proof (merge_dict_self (Dict s2) Hwf2) as Hs. simpl in Hs. rewrite Hs.
    reflexivity.
  - pose proof (merge_dict_self (Dict s2) Hwf2) as Hs. simpl in Hs. rewrite Hs.
    reflexivity.
  - rewrite IH. reflexivity.
  - pose proof (merge_dict_self (Dict s2) Hwf2) as Hs. simpl in Hs. rewrite Hs.
    reflexivity.
Qed.

(** X13.  Merging the same dict a second time changes nothing:
    [merge_dict(d, o); merge_dict(d, o)] leaves [d] as the first call left
    it, whatever [d] was. *)
Theorem merge_dict_idempotent d1 d2 :
  well_formed (Dict d2) ->
  merge_dict (merge_dict d1 d2) d2 = merge_dict d1 d2.
Proof.
  intros Hwf. exact (merge_dict_twice_value (Dict d2) Hwf d1).
Qed.
End MergeDictTwice.

(* ===================================================================== *)
(** * [use_style] *)
(* ===================================================================== *)

Section UseStyleFacts.
Import StyleHelpers.
Context {Other : Type}.
Variable style_class : Items Other -> Outcome (Obj Other).
Variable getattr_style : string -> option (Obj Other).
Variable model_dump : Obj Other -> Outcome (Items Other).
Implicit Types (d kwargs : Items Other) (v : Obj Other).

(** X14.  A non-empty [style] dict together with any [style__] keyword
    argument raises the "Both versions" exception, whatever the decorator's
    [style_attr]: [func] is not called. *)
Theorem both_style_versions_raise (style_attr : option string) kwargs
    (item : string * Obj Other) (items : Items Other) (key : string) v :
  getitem "style" kwargs = Some (Dict (item :: items)) ->
  In (key, v) kwargs ->
  (substring 0 7 key =? "style__")%string = true ->
  wrapper_style style_class style_attr getattr_style model_dump kwargs
  = Raises (PlainException
      "Both versions of style override used. Use either kwargs OR dictionary").
Proof.
  intros Hstyle Hin Hprefix. unfold wrapper_style. rewrite Hstyle.
  assert (Hargs : In (key, v) (style_args_of kwargs)).
  { unfold style_args_of. apply filter_In. split; [ exact Hin | exact Hprefix ]. }
  destruct (style_args_of kwargs); [ contradiction | reflexivity ].
Qed.

(** X15.  A decorator without [style_attr] cannot take [style__] keyword
    arguments: with no [style] (or [style=None]) the wrapper reads
    [styling_overrides] before any assignment and raises
    [UnboundLocalError]; [func] and [style_class] are not called. *)
Theorem style_kwargs_without_attr_raise kwargs (key : string) v :
  getitem "style" kwargs = None \/ getitem "style" kwargs = Some PyNone ->
  In (key, v) kwargs ->
  (substring 0 7 key =? "style__")%string = true ->
  wrapper_style style_class None getattr_style model_dump kwargs
  = Raises (UnboundLocal "styling_overrides").
Proof.
  intros Hstyle Hin Hprefix. unfold wrapper_style.
  assert (Hargs : In (key, v) (style_args_of kwargs)).
  { unfold style_args_of. apply filter_In. split; [ exact Hin | exact Hprefix ]. }
  destruct Hstyle as [-> | ->];
    (destruct (style_args_of kwargs); [ contradiction | reflexivity ]).
Qed.

(** X16.  A [style] that is neither a dict nor [None] (a ready style object)
    reaches [func] as it is, and so does the empty dict, which is falsy:
    neither [style_class] nor the base style is consulted, and [style__]
    keyword arguments play no part. *)
Theorem ready_style_passes_through (style_attr : option string) kwargs v :
  getitem "style" kwargs = Some v ->
  (exists x, v = Atom x) \/ v = Dict [] ->
  wrapper_style style_class style_attr getattr_style model_dump kwargs
  = Returns (Some v).
Proof.
  intros Hstyle Hv. unfold wrapper_style. rewrite Hstyle.
  destruct Hv as [(x & ->) | ->]; reflexivity.
Qed.
End UseStyleFacts.

Section Paths.
Import StyleHelpers.
Context {Other : Type}.
Implicit Types (d : Items Other) (v : Obj Other).

Lemma contains_getitem (k : string) d :
  contains k d = false -> getitem k d = None.
Proof. unfold contains. destruct (getitem k d); [ discriminate | reflexivity ]. Qed.

(** X17.  The value a [style__] keyword sets is the value found at the end of
    its path: when the loop of lines 52-55 goes through for one key, reading
    the nested dicts along the same path gives the value back. *)
Theorem set_path_get_path d (path : list string) (last : string) v d' :
  set_path d path last v = Returns d' -> get_path d' path last = Some v.
Proof.
  revert d d'. induction path as [ | part path IH]; intros d d' Hset; simpl in *.
  - injection Hset as <-. apply getitem_setitem_same.
  - set (temp := if contains part d then d else setitem part (Dict []) d) in *.
    destruct (getitem part temp) as [[ | x | sub] | ] eqn:Hget;
      try (destruct path; discriminate).
    destruct (set_path sub path last v) as [sub' | e] eqn:Hsub; [ | discriminate ].
    simpl in Hset. injection Hset as <-.
    rewrite getitem_setitem_same. exact (IH sub sub' Hsub).
Qed.

(** On an empty dict the loop builds the chain of nested dicts. *)
Lemma set_path_empty (path : list string) (last : string) v :
  set_path (@nil (string * Obj Other)) path last v = Returns (nested path last v).
Proof.
  induction path as [ | part path IH]; [ reflexivity | ].
  cbn [set_path contains getitem is_some setitem nested].
  rewrite String.eqb_refl, IH. reflexivity.
Qed.
End Paths.

Section KeywordPaths.
Import StyleHelpers.

Lemma append_empty_r (s : string) : (s ++ EmptyString)%string = s.
Proof. induction s as [ | c s IH]; simpl; [ reflexivity | now rewrite IH ]. Qed.

Lemma append_char (cur : string) (c : ascii) (p : string) :
  ((cur ++ String c EmptyString) ++ p)%string = (cur ++ String c p)%string.
Proof. induction cur as [ | c0 cur IH]; simpl; [ reflexivity | now rewrite IH ]. Qed.

Lemma split_from_piece (p s cur : string) :
  clean p = true ->
  split_from (p ++ "__" ++ s) cur = (cur ++ p)%string :: split_from s EmptyString
  /\ split_from p cur = [(cur ++ p)%string].
Proof.
  revert cur. induction p as [ | c p IH]; intros cur Hclean.
  - simpl. rewrite append_empty_r. split; reflexivity.
  - cbn [clean] in Hclean. cbn [append split_from].
    destruct (Ascii.eqb c "_"%char) eqn:Hc.
    + apply Ascii.eqb_eq in Hc. subst c.
      destruct p as [ | c' p']; [ discriminate | ].
      apply andb_prop in Hclean. destruct Hclean as [Hc' Hclean].
      cbn [append]. apply negb_true_iff in Hc'. rewrite Hc'.
      destruct (IH (cur ++ "_")%string Hclean) as [IH1 IH2].
      cbn [append] in IH1. rewrite IH1, IH2, append_char. split; reflexivity.
    + destruct (IH (cur ++ String c EmptyString)%string Hclean) as [IH1 IH2].
      cbn [append] in IH1. rewrite IH1, IH2, append_char. split; reflexivity.
Qed.

(** Joining clean names with ["__"] and splitting again gives the names
    back. *)
Lemma split_concat (parts : list string) :
  parts <> [] -> forallb clean parts = true ->
  split (String.concat "__" parts) = parts.
Proof.
  unfold split. induction parts as [ | p parts IH]; intros Hne Hclean;
    [ contradiction | ].
  cbn [forallb] in Hclean. apply andb_prop in Hclean. destruct Hclean as [Hp Hrest].
  destruct parts as [ | q parts].
  - simpl. destruct (split_from_piece p EmptyString EmptyString Hp) as [_ H]. exact H.
  - change (String.concat "__" (p :: q :: parts))
      with (p ++ "__" ++ String.concat "__" (q :: parts))%string.
    destruct (split_from_piece p (String.concat "__" (q :: parts)) EmptyString Hp) as [H _].
    rewrite H, IH; [ reflexivity | discriminate | exact Hrest ].
Qed.

Lemma unsnoc_app {A} (l : list A) (x : A) : unsnoc (l ++ [x]) = Some (l, x).
Proof.
  induction l as [ | y l IH]; simpl; [ reflexivity | rewrite IH; reflexivity ].
Qed.

Context {Other : Type}.
Variable style_class : Items Other -> Outcome (Obj Other).
Variable getattr_style : string -> option (Obj Other).
Variable model_dump : Obj Other -> Outcome (Items Other).

(** X18.  Under a decorator with a [style_attr], the keyword form and the
    dict form of an override give [func] the same style: for clean names,
    [style__p1__...__pn=v] has the effect of [style={p1: {... {pn: v}}}]. *)
Theorem style_keyword_is_nested_dict (attr : string) (path : list string)
    (last : string) (v : Obj Other) :
  forallb clean (path ++ [last]) = true ->
  wrapper_style style_class (Some attr) getattr_style model_dump
    [(("style__" ++ String.concat "__" (path ++ [last]))%string, v)]
  = wrapper_style style_class (Some attr) getattr_style model_dump
      [("style", Dict (nested path last v))].
Proof.
  intros Hclean.
  assert (Hsplit : split ("style__" ++ String.concat "__" (path ++ [last]))
                   = "style" :: path ++ [last]).
  { unfold split.
    destruct (split_from_piece "style" (String.concat "__" (path ++ [last])) EmptyString
                eq_refl) as [H _].
    change ("style" ++ "__" ++ String.concat "__" (path ++ [last]))%string
      with ("style__" ++ String.concat "__" (path ++ [last]))%string in H.
    rewrite H. f_equal. apply split_concat; [ | exact Hclean ].
    destruct path; discriminate. }
  assert (Hkey : ("style" =? "style__" ++ String.concat "__" (path ++ [last]))%string
                 = false) by reflexivity.
  assert (Hpre : (substring 0 7 ("style__" ++ String.concat "__" (path ++ [last]))
                  =? "style__")%string = true).
  { generalize (String.concat "__" (path ++ [last])). intros [ | c s]; reflexivity. }
  unfold wrapper_style at 1.
  cbn [getitem style_args_of filter fst]. rewrite Hkey, Hpre.
  cbn [is_empty negb build_overrides].
  rewrite Hsplit. cbn [tl]. rewrite unsnoc_app, set_path_empty. cbn [and_then].
  unfold wrapper_style.
  cbn [getitem style_args_of filter fst substring String.eqb Ascii.eqb
       Bool.eqb is_empty negb].
  destruct path; reflexivity.
Qed.
End KeywordPaths.

Section Overrides.
Import StyleHelpers.
Context {Other : Type}.
Implicit Types (d base : Items Other) (v : Obj Other).

(** Reading a chain of nested dicts along its own path. *)
Lemma get_path_nested (path : list string) (last : string) v :
  get_path (nested path last v) path last = Some v.
Proof.
  induction path as [ | part path IH]; cbn [nested get_path getitem];
    rewrite String.eqb_refl; [ reflexivity | exact IH ].
Qed.

(** X19.  An override always takes effect: after merging the nested dict of
    a path into any base, the value read along that path is the overriding
    value (for a value that is not itself a dict), whether the base had
    dicts, other values or nothing on the way. *)
Theorem override_takes_effect base (path : list string) (last : string) v :
  (forall items, v <> Dict items) ->
  get_path (merge_dict base (nested path last v)) path last = Some v.
Proof.
  intros Hleaf. revert base. induction path as [ | part path IH]; intros base.
  - cbn [nested get_path].
    rewrite getitem_merge_dict by (repeat constructor; intros []).
    cbn [getitem]. rewrite String.eqb_refl. f_equal.
    unfold merged_value. destruct (getitem last base) as [[ | x | s] | ];
      destruct v as [ | y | s']; try reflexivity; exfalso; eapply Hleaf; reflexivity.
  - cbn [nested get_path].
    rewrite getitem_merge_dict by (repeat constructor; intros []).
    cbn [getitem]. rewrite String.eqb_refl.
    unfold merged_value. destruct (getitem part base) as [[ | x | s] | ].
    + apply get_path_nested.
    + apply get_path_nested.
    + apply IH.
    + apply get_path_nested.
Qed.
End Overrides.

(* ===================================================================== *)
(** * [PlanetManager] *)
(* ===================================================================== *)

Section PlanetFacts.
Import Planets.
Variable observe : PlanetName -> Res (float * float * float).
Variable arcsin : float -> float.
Variable degrees : float -> float.

Lemma value_injective (p q : PlanetName) : value p = value q -> p = q.
Proof. destruct p, q; simpl; intros Heq; try reflexivity; discriminate. Qed.

Lemma members_split (q : PlanetName) :
  exists later, members = (before q ++ q :: later)%list.
Proof. destruct q; eexists; reflexivity. Qed.

Lemma before_differs (q p : PlanetName) : In p (before q) -> p <> q.
Proof. destruct q; simpl; intuition (subst; discriminate). Qed.

Lemma planet_at_name (p : PlanetName) (planet : Planet) :
  planet_at observe arcsin degrees p = Ok planet -> name planet = p.
Proof.
  unfold planet_at. destruct (observe p) as [[[r d] km] | e]; simpl;
    [ | discriminate ].
  intros Heq. injection Heq as <-. reflexivity.
Qed.

Lemma planet_at_ok (p : PlanetName) (r : float * float * float) :
  observe p = Ok r -> exists planet, planet_at observe arcsin degrees p = Ok planet.
Proof.
  intros Hobs. unfold planet_at. rewrite Hobs. destruct r as [[r d] km].
  eexists. reflexivity.
Qed.

(** The loop of [get] passes over planets of other names whose observation
    succeeds. *)
Lemma get_from_skip (q : string) (earlier rest : list PlanetName) :
  (forall p, In p earlier -> value p <> q /\ exists r, observe p = Ok r) ->
  get_from observe arcsin degrees q (earlier ++ rest)
  = get_from observe arcsin degrees q rest.
Proof.
  induction earlier as [ | p earlier IH]; intros Hearlier; [ reflexivity | ].
  cbn [app get_from].
  destruct (Hearlier p (or_introl eq_refl)) as (Hne & r & Hobs).
  destruct (planet_at_ok p r Hobs) as (planet & Hplanet).
  rewrite Hplanet. cbn [res_bind].
  rewrite (planet_at_name p planet Hplanet).
  apply String.eqb_neq in Hne. rewrite Hne.
  apply IH. intros p' Hin. apply Hearlier. right. exact Hin.
Qed.

(** X20.  [get] stops at the planet it is asked for: when the observations
    of the planets that come before it succeed, the result is that planet
    (or the exception of its own observation), and the planets that come
    after it are never observed, so a failure there does not matter. *)
Theorem get_stops_at_planet (q : PlanetName) :
  (forall p, In p (before q) -> exists r, observe p = Ok r) ->
  get observe arcsin degrees (value q)
  = res_map Some (planet_at observe arcsin degrees q).
Proof.
  intros Hbefore. unfold get.
  destruct (members_split q) as (later & ->).
  rewrite get_from_skip.
  - cbn [get_from].
    destruct (planet_at observe arcsin degrees q) as [planet | e] eqn:Hplanet;
      [ | reflexivity ].
    cbn [res_bind res_map]. rewrite (planet_at_name q planet Hplanet).
    rewrite String.eqb_refl. reflexivity.
  - intros p Hin. split; [ | exact (Hbefore p Hin) ].
    intros Heq. apply value_injective in Heq. exact (before_differs q p Hin Heq).
Qed.

(** X21.  [get] with a name that is no planet's runs the generator to its
    end: it returns [None] exactly when [all] goes through, and raises what
    [all] raises otherwise. *)
Theorem get_unknown_name_exhausts_all (q : string) :
  (forall p, value p <> q) ->
  get observe arcsin degrees q
  = res_map (fun _ => None) (all observe arcsin degrees).
Proof.
  intros Hunknown. unfold get, all.
  induction members as [ | p remaining IH]; [ reflexivity | ].
  cbn [get_from res_list_map].
  destruct (planet_at observe arcsin degrees p) as [planet | e] eqn:Hplanet;
    [ | reflexivity ].
  cbn [res_bind]. rewrite (planet_at_name p planet Hplanet).
  pose proof (Hunknown p) as Hne. apply String.eqb_neq in Hne. rewrite Hne, IH.
  destruct (res_list_map (planet_at observe arcsin degrees) remaining); reflexivity.
Qed.

(** X22.  When [all] goes through it yields one planet per member of
    [PlanetName], in the order of the enumeration: Mercury first, Neptune
    last, seven in all. *)
Theorem all_yields_each_planet_once (planets : list Planet) :
  all observe arcsin degrees = Ok planets -> map name planets = members.
Proof.
  unfold all. revert planets.
  induction members as [ | p remaining IH]; intros planets.
  - simpl. intros Heq. injection Heq as <-. reflexivity.
  - cbn [res_list_map].
    destruct (planet_at observe arcsin degrees p) as [planet | e] eqn:Hplanet;
      [ | discriminate ].
    cbn [res_bind].
    destruct (res_list_map (planet_at observe arcsin degrees) remaining)
      as [rest | e]; [ | discriminate ].
    cbn [res_map]. intros Heq. injection Heq as <-.
    cbn [map]. rewrite (planet_at_name p planet Hplanet), (IH rest eq_refl).
    reflexivity.
Qed.

(** X23.  [get] agrees with [all]: when the whole generator goes through,
    [get(name)] is the first planet of [all()] whose name equals [name], and
    [None] when there is none. *)
Theorem get_is_first_of_all (q : string) (planets : list Planet) :
  all observe arcsin degrees = Ok planets ->
  get observe arcsin degrees q
  = Ok (find (fun planet => (value (name planet) =? q)%string) planets).
Proof.
  unfold get, all. revert planets.
  induction members as [ | p remaining IH]; intros planets.
  - simpl. intros Heq. injection Heq as <-. reflexivity.
  - cbn [res_list_map get_from].
    destruct (planet_at observe arcsin degrees p) as [planet | e]; [ | discriminate ].
    cbn [res_bind].
    destruct (res_list_map (planet_at observe arcsin degrees) remaining)
      as [rest | e]; [ | discriminate ].
    cbn [res_map]. intros Heq. injection Heq as <-. cbn [find].
    destruct (value (name planet) =? q)%string; [ reflexivity | ].
    apply IH. reflexivity.
Qed.
End PlanetFacts.

(* ===================================================================== *)
(** * The style helpers and the planets on sample data *)
(* ===================================================================== *)

Lemma sample_overrides_well_formed :
  StyleHelpers.well_formed (StyleHelpers.Dict StyleHelpers.sample_overrides).
Proof.
  repeat (constructor; simpl); intuition discriminate.
Qed.

Lemma sample_base_well_formed :
  StyleHelpers.well_formed (StyleHelpers.Dict StyleHelpers.sample_base).
Proof.
  repeat (constructor; simpl); intuition discriminate.
Qed.

Lemma sample_overrides_keys : NoDup (StyleHelpers.keys StyleHelpers.sample_overrides).
Proof. repeat (constructor; simpl); intuition discriminate. Qed.

Lemma merge_dict_lookup_witness :
  StyleHelpers.getitem "marker"
    (StyleHelpers.merge_dict StyleHelpers.sample_base StyleHelpers.sample_overrides)
  = Some (StyleHelpers.Dict
            [("size", StyleHelpers.Atom "4"); ("color", StyleHelpers.Atom "blue");
             ("symbol", StyleHelpers.Atom "square")]).
Proof.
  exact (merge_dict_lookup StyleHelpers.sample_base StyleHelpers.sample_overrides
           "marker" sample_overrides_keys).
Defined.

Lemma merge_dict_keys_witness :
  StyleHelpers.keys
    (StyleHelpers.merge_dict StyleHelpers.sample_base StyleHelpers.sample_overrides)
  = ["marker"; "label"; "line"].
Proof.
  exact (merge_dict_keys StyleHelpers.sample_base StyleHelpers.sample_overrides
           sample_overrides_keys).
Defined.

Lemma merge_dict_well_formed_witness :
  StyleHelpers.well_formed
    (StyleHelpers.Dict
       (StyleHelpers.merge_dict StyleHelpers.sample_base
          StyleHelpers.sample_overrides)).
Proof.
  exact (merge_dict_well_formed StyleHelpers.sample_base
           StyleHelpers.sample_overrides
           sample_base_well_formed sample_overrides_well_formed).
Defined.

Lemma merge_dict_idempotent_witness :
  StyleHelpers.merge_dict
    (StyleHelpers.merge_dict StyleHelpers.sample_base StyleHelpers.sample_overrides)
    StyleHelpers.sample_overrides
  = StyleHelpers.merge_dict StyleHelpers.sample_base StyleHelpers.sample_overrides.
Proof.
  exact (merge_dict_idempotent StyleHelpers.sample_base
           StyleHelpers.sample_overrides sample_overrides_well_formed).
Defined.

Section SampleCalls.
Import StyleHelpers.

Lemma both_style_versions_raise_witness :
  wrapper_style sample_style_class (Some "dso") sample_getattr sample_model_dump
    [("style", Dict [("marker", Dict [("color", Atom "blue")])]);
     ("style__marker__size", Atom "9")]
  = Raises (PlainException
      "Both versions of style override used. Use either kwargs OR dictionary").
Proof.
  apply (both_style_versions_raise sample_style_class sample_getattr
           sample_model_dump (Some "dso") _
           ("marker", Dict [("color", Atom "blue")]) []
           "style__marker__size" (Atom "9")).
  - reflexivity.
  - right. left. reflexivity.
  - reflexivity.
Defined.

Lemma style_kwargs_without_attr_raise_witness :
  wrapper_style sample_style_class None sample_getattr sample_model_dump
    [("ra", Atom "12"); ("style__marker__size", Atom "9")]
  = Raises (UnboundLocal "styling_overrides").
Proof.
  apply (style_kwargs_without_attr_raise sample_style_class sample_getattr
           sample_model_dump _ "style__marker__size" (Atom "9")).
  - left. reflexivity.
  - right. left. reflexivity.
  - reflexivity.
Defined.

Lemma ready_style_passes_through_witness :
  wrapper_style sample_style_class (Some "dso") sample_getattr sample_model_dump
    [("style", Atom "MarkerStyle"); ("style__marker__size", Atom "9")]
  = Returns (Some (Atom "MarkerStyle")).
Proof.
  apply (ready_style_passes_through sample_style_class sample_getattr
           sample_model_dump).
  - reflexivity.
  - left. exists "MarkerStyle". reflexivity.
Defined.

Lemma set_path_get_path_witness :
  get_path
    [("marker", Dict [("size", Atom "4"); ("color", Atom "blue")]);
     ("label", Dict [("font_size", Atom "8")])]
    ["marker"] "color"
  = Some (Atom "blue").
Proof.
  apply (set_path_get_path sample_base ["marker"] "color" (Atom "blue")).
  reflexivity.
Defined.

Lemma style_keyword_is_nested_dict_witness :
  wrapper_style sample_style_class (Some "dso") sample_getattr sample_model_dump
    [("style__marker__color", Atom "blue")]
  = wrapper_style sample_style_class (Some "dso") sample_getattr sample_model_dump
      [("style", Dict [("marker", Dict [("color", Atom "blue")])])].
Proof.
  apply (style_keyword_is_nested_dict sample_style_class sample_getattr
           sample_model_dump "dso" ["marker"] "color" (Atom "blue")).
  reflexivity.
Defined.

Lemma override_takes_effect_witness :
  get_path (merge_dict sample_base [("marker", Dict [("color", Atom "blue")])])
    ["marker"] "color"
  = Some (Atom "blue").
Proof.
  apply (override_takes_effect sample_base ["marker"] "color" (Atom "blue")).
  intros items Heq. discriminate Heq.
Defined.
End SampleCalls.

Section SamplePlanets.
Import Planets.

Lemma get_stops_at_planet_witness :
  get inner_only (fun x => x) (fun x => x) "mars"
  = res_map Some (planet_at inner_only (fun x => x) (fun x => x) MARS)
  /\ all inner_only (fun x => x) (fun x => x) = Raise (KeyError "jupiter barycenter").
Proof.
  split; [ | reflexivity ].
  apply (get_stops_at_planet inner_only (fun x => x) (fun x => x) MARS).
  simpl. intros p [<- | [<- | []]]; eexists; reflexivity.
Defined.

Lemma get_unknown_name_exhausts_all_witness :
  get steady (fun x => x) (fun x => x) "pluto" = Ok None
  /\ get inner_only (fun x => x) (fun x => x) "pluto"
     = Raise (KeyError "jupiter barycenter").
Proof.
  split.
  - rewrite (get_unknown_name_exhausts_all steady (fun x => x) (fun x => x) "pluto").
    + reflexivity.
    + intros p. destruct p; discriminate.
  - rewrite (get_unknown_name_exhausts_all inner_only (fun x => x) (fun x => x)
               "pluto").
    + reflexivity.
    + intros p. destruct p; discriminate.
Defined.

Lemma all_yields_each_planet_once_witness :
  exists planets,
    all steady (fun x => x) (fun x => x) = Ok planets
    /\ map name planets = members.
Proof.
  assert (H : all steady (fun x => x) (fun x => x)
              = Ok (match all steady (fun x => x) (fun x => x) with
                    | Ok planets => planets
                    | Raise _ => []
                    end)) by reflexivity.
  eexists. split; [ exact H | ].
  exact (all_yields_each_planet_once steady (fun x => x) (fun x => x) _ H).
Defined.

Lemma get_is_first_of_all_witness :
  exists planets,
    all steady (fun x => x) (fun x => x) = Ok planets
    /\ get steady (fun x => x) (fun x => x) "venus"
       = Ok (find (fun planet => (value (name planet) =? "venus")%string) planets).
Proof.
  assert (H : all steady (fun x => x) (fun x => x)
              = Ok (match all steady (fun x => x) (fun x => x) with
                    | Ok planets => planets
                    | Raise _ => []
                    end)) by reflexivity.
  eexists. split; [ exact H | ].
  exact (get_is_first_of_all steady (fun x => x) (fun x => x) "venus" _ H).
Defined.
End SamplePlanets.
